(** * Emissions factors and the Nuclear scenario pipeline

    A shallow embedding of [model/emissionsfactors.py] and of the
    constructor of [solution/nuclear/__init__.py], with the properties of
    the emissions-factor engine and of the adoption stages.

    Python floats are the kernel's binary64 floats, so every literal of the
    source is the same double here; Python ints are [Z]; a pandas Series is
    a finite map from labels to floats; a DataFrame is a map from row labels
    to such rows, together with its index and its columns. Exceptions are
    the [Raise] results of a small error monad. *)

From Stdlib Require Import ZArith String Ascii Floats Bool List.
From stdpp Require Import base option list strings gmap fin_maps.

Set Warnings "-inexact-float".
#[local] Open Scope Z_scope.
#[local] Open Scope string_scope.

(** ** Python values, exceptions and strings *)

Module python.

(** The key a failed lookup reports. *)
Inductive key :=
| KeyInt (z : Z)
| KeyStr (s : string).

(** The exceptions the two modules can end in. [ValueError] is what every
    [raise] statement of the source raises; [KeyError] comes from a lookup
    of a missing label or dictionary key; [UnboundLocalError] is Python's
    error for reading a local variable no executed branch assigned. *)
Inductive exn :=
| ValueError (msg : string)
| KeyError (k : key)
| UnboundLocalError (name : string).

Inductive result (A : Type) :=
| Ok (a : A)
| Raise (e : exn).
Arguments Ok {A} a.
Arguments Raise {A} e.

#[global] Instance result_ret : MRet result := @Ok.
#[global] Instance result_bind : MBind result :=
  λ A B f m, match m with Ok a => f a | Raise e => Raise e end.

Definition is_ValueError (e : exn) : bool :=
  match e with ValueError _ => true | _ => false end.

(** Reading a local variable: [None] is a name that no branch assigned. *)
Definition read_local {A} (name : string) (v : option A) : result A :=
  match v with
  | Some a => Ok a
  | None => Raise (UnboundLocalError name)
  end.

(** An attribute or argument that is meant to hold a member of the enum
    [E]: [None], a member, or any other object, of which the code only
    observes the truth value and [str()]. Enum members are truthy and are
    equal to themselves only. *)
Inductive pyobj (E : Type) :=
| PyNone
| PyMember (e : E)
| PyOther (truthy : bool) (repr : string).
Arguments PyNone {E}.
Arguments PyMember {E} e.
Arguments PyOther {E} truthy repr.

Class EnumName (E : Type) := enum_name : E → string.

Definition py_bool {E} (o : pyobj E) : bool :=
  match o with
  | PyNone => false
  | PyMember _ => true
  | PyOther t _ => t
  end.

(** [o == E.member] *)
Definition py_eq {E} `{EqDecision E} (o : pyobj E) (e : E) : bool :=
  match o with
  | PyMember e' => bool_decide (e' = e)
  | _ => false
  end.

Definition py_str {E} `{EnumName E} (o : pyobj E) : string :=
  match o with
  | PyNone => "None"
  | PyMember e => enum_name e
  | PyOther _ r => r
  end.

(** [str.lower] on ASCII text: the letters A to Z move to a to z and every
    other character stays. Text is a string of 8-bit characters. *)
Definition lower_char (c : ascii) : ascii :=
  let n := N_of_ascii c in
  if ((65 <=? n) && (n <=? 90))%N then ascii_of_N (n + 32) else c.

Fixpoint lower (s : string) : string :=
  match s with
  | EmptyString => EmptyString
  | String c s' => String (lower_char c) (lower s')
  end.

(** Two texts that differ by letter case only. *)
Definition caseless_eq (a b : string) : Prop := lower a = lower b.

End python.
Import python.

(** ** The part of pandas the code uses *)

Module pandas.

Abbreviation Series := (gmap string float).

Definition isna (x : float) : bool := PrimFloat.is_nan x.

(** The value at a label, NaN where the label is missing. *)
Definition get (s : Series) (l : string) : float := default nan (s !! l).

(** [pd.Series(data, index=index)] for two lists of one length and an
    index that repeats no label. A finite map holds one value per label,
    while pandas keeps a label that the index repeats; a Series whose
    labels come from a configuration is therefore followed together with
    its index, see [is_unique] and [set_row_of]. *)
Definition Series_new (data : list float) (index : list string) : Series :=
  list_to_map (zip index data).

(** [index.is_unique] *)
Definition is_unique (index : list string) : bool := bool_decide (NoDup index).

(** Arithmetic aligns on the union of the labels: a label that only one
    operand has gives NaN. *)
Definition align (op : float → float → float) (a b : Series) : Series :=
  merge (λ x y, match x, y with
                | None, None => None
                | _, _ => Some (op (default nan x) (default nan y))
                end) a b.

Definition Series_mul : Series → Series → Series := align PrimFloat.mul.
Definition Series_div : Series → Series → Series := align PrimFloat.div.

Definition fillna (v : float) (s : Series) : Series :=
  (λ x, if isna x then v else x) <$> s.

(** Conforming a Series to the columns of a frame. *)
Definition reindex (columns : list string) (s : Series) : Series :=
  list_to_map ((λ c, (c, get s c)) <$> columns).

Record DataFrame := {
  df_index : list Z;
  df_columns : list string;
  df_rows : gmap Z (gmap string float)
}.

(** [pd.DataFrame(index=index, columns=columns)]: every cell is NaN. *)
Definition DataFrame_new (index : list Z) (columns : list string) : DataFrame :=
  {| df_index := index;
     df_columns := columns;
     df_rows := list_to_map ((λ y, (y, reindex columns ∅)) <$> index) |}.

(** [df.loc[y]] *)
Definition loc (df : DataFrame) (y : Z) : result Series :=
  match df_rows df !! y with
  | Some r => Ok r
  | None => Raise (KeyError (KeyInt y))
  end.

(** [df.loc[y, c]], [None] where a label is missing. *)
Definition at_ (df : DataFrame) (y : Z) (c : string) : option float :=
  df_rows df !! y ≫= (.!! c).

(** [df.loc[y] = s]: the row is added when the label is new, and the Series
    is conformed to the columns. *)
Definition set_row (y : Z) (s : Series) (df : DataFrame) : DataFrame :=
  {| df_index := if bool_decide (y ∈ df_index df) then df_index df
                 else df_index df ++ [y];
     df_columns := df_columns df;
     df_rows := <[y := reindex (df_columns df) s]> (df_rows df) |}.

(** [df.loc[y] = s] for a Series [s] that carries the labels of [index],
    which may repeat one. Arithmetic with a Series of distinct labels and
    [fillna] keep a repeated label; conforming such a Series to the columns
    of the frame is what pandas refuses, with a ValueError. *)
Definition set_row_of (index : list string) (y : Z) (s : Series)
    (df : DataFrame) : result DataFrame :=
  if is_unique index then Ok (set_row y s df)
  else Raise (ValueError "cannot reindex on an axis with duplicate labels").

(** [df.loc[:, c] = v] for a scalar [v] *)
Definition set_column (c : string) (v : float) (df : DataFrame) : DataFrame :=
  {| df_index := df_index df;
     df_columns := if bool_decide (c ∈ df_columns df) then df_columns df
                   else df_columns df ++ [c];
     df_rows := (λ r : gmap string float, <[c := v]> r) <$> df_rows df |}.

(** [df.loc[:, c] = values] for an array: by position, and an array of
    another length is refused. *)
Definition set_column_values (c : string) (values : list float)
    (df : DataFrame) : result DataFrame :=
  if bool_decide (length values = length (df_index df)) then
    Ok {| df_index := df_index df;
          df_columns := if bool_decide (c ∈ df_columns df) then df_columns df
                        else df_columns df ++ [c];
          df_rows := list_to_map
            (zip_with (λ y v, (y, <[c := v]> (default ∅ (df_rows df !! y))))
               (df_index df) values) |}
  else Raise (ValueError "Must have equal len keys and value when setting with an iterable").

(** The frame has a row labelled [y]. *)
Definition has_row (df : DataFrame) (y : Z) : Prop := is_Some (df_rows df !! y).

(** A NaN replaced by zero, as [fillna(0.0)] does cell by cell. *)
Definition nan_to_zero (x : float) : float := if isna x then 0%float else x.

(** How close two floats are, as a test compares them. *)
Definition within (tolerance x expected : float) : bool :=
  (abs (x - expected) <=? tolerance)%float.

End pandas.
Import pandas.

(** ** model/emissionsfactors.py *)

Module emissionsfactors.

Inductive CO2EQ_SOURCE := AR5_WITH_FEEDBACK | AR4 | SAR.
Inductive GRID_SOURCE := META | IPCC.
Inductive GRID_RANGE := MEAN | HIGH | LOW.

#[global] Instance CO2EQ_SOURCE_eq_dec : EqDecision CO2EQ_SOURCE.
Proof. solve_decision. Defined.
#[global] Instance GRID_SOURCE_eq_dec : EqDecision GRID_SOURCE.
Proof. solve_decision. Defined.
#[global] Instance GRID_RANGE_eq_dec : EqDecision GRID_RANGE.
Proof. solve_decision. Defined.

#[global] Instance CO2EQ_SOURCE_name : EnumName CO2EQ_SOURCE := λ e,
  match e with
  | AR5_WITH_FEEDBACK => "CO2EQ_SOURCE.AR5_WITH_FEEDBACK"
  | AR4 => "CO2EQ_SOURCE.AR4"
  | SAR => "CO2EQ_SOURCE.SAR"
  end.
#[global] Instance GRID_SOURCE_name : EnumName GRID_SOURCE := λ e,
  match e with
  | META => "GRID_SOURCE.META"
  | IPCC => "GRID_SOURCE.IPCC"
  end.
#[global] Instance GRID_RANGE_name : EnumName GRID_RANGE := λ e,
  match e with
  | MEAN => "GRID_RANGE.MEAN"
  | HIGH => "GRID_RANGE.HIGH"
  | LOW => "GRID_RANGE.LOW"
  end.

(** *** CO2Equiv *)

Record CO2Equiv := {
  conversion_source : pyobj CO2EQ_SOURCE;
  CH4multiplier : Z;
  N2Omultiplier : Z
}.

(** [CO2Equiv.__init__]; [PyNone] is the default argument. *)
Definition CO2Equiv__init__ (conversion_source : pyobj CO2EQ_SOURCE)
    : result CO2Equiv :=
  let source := if py_bool conversion_source then conversion_source
                else PyMember AR5_WITH_FEEDBACK in
  if py_eq source AR5_WITH_FEEDBACK then
    Ok {| conversion_source := source; CH4multiplier := 34; N2Omultiplier := 298 |}
  else if py_eq source AR4 then
    Ok {| conversion_source := source; CH4multiplier := 25; N2Omultiplier := 298 |}
  else if py_eq source SAR then
    Ok {| conversion_source := source; CH4multiplier := 21; N2Omultiplier := 310 |}
  else Raise (ValueError ("invalid conversion_source=" ++ py_str source)).

(** *** Text to enum *)

Definition string_to_conversion_source (text : string) : result CO2EQ_SOURCE :=
  if (lower text =? "ar5 with feedback")%string then Ok AR5_WITH_FEEDBACK
  else if (lower text =? "ar5_with_feedback")%string then Ok AR5_WITH_FEEDBACK
  else if (lower text =? "ar4")%string then Ok AR4
  else if (lower text =? "sar")%string then Ok SAR
  else Raise (ValueError ("invalid conversion name=" ++ text)).

Definition string_to_emissions_grid_source (text : string) : result GRID_SOURCE :=
  if (lower text =? "meta-analysis")%string then Ok META
  else if (lower text =? "meta_analysis")%string then Ok META
  else if (lower text =? "meta analysis")%string then Ok META
  else if (lower text =? "ipcc only")%string then Ok IPCC
  else if (lower text =? "ipcc_only")%string then Ok IPCC
  else Raise (ValueError ("invalid grid source name=" ++ text)).

Definition string_to_emissions_grid_range (text : string) : result GRID_RANGE :=
  if (lower text =? "mean")%string then Ok MEAN
  else if (lower text =? "median")%string then Ok MEAN
  else if (lower text =? "high")%string then Ok HIGH
  else if (lower text =? "low")%string then Ok LOW
  else Raise (ValueError ("invalid grid range name=" ++ text)).

(** *** The embedded World datasets: one row per year *)

Record world_row := WorldRow {
  Year : Z;
  medium : float;
  high : float;
  low : float
}.

Definition _world_meta_1 : list world_row :=
  [
    WorldRow 2015 0.580491641 0.726805942 0.444419682;
    WorldRow 2016 0.580381730 0.726494196 0.444511607;
    WorldRow 2017 0.580191808 0.726117383 0.444508574;
    WorldRow 2018 0.579932742 0.725684840 0.444422987;
    WorldRow 2019 0.579613986 0.725204693 0.444265621;
    WorldRow 2020 0.581083120 0.726403172 0.446005409;
    WorldRow 2021 0.578829123 0.724128766 0.443771822;
    WorldRow 2022 0.578376324 0.723544325 0.443450666;
    WorldRow 2023 0.577890875 0.722935374 0.443088717;
    WorldRow 2024 0.577377675 0.722306095 0.442691597;
    WorldRow 2025 0.576724036 0.721565698 0.442124716;
    WorldRow 2026 0.576284921 0.721000946 0.441811237;
    WorldRow 2027 0.575712661 0.720331282 0.441336382;
    WorldRow 2028 0.575127412 0.719653850 0.440843316;
    WorldRow 2029 0.574531990 0.718971040 0.440335281;
    WorldRow 2030 0.573264022 0.717635960 0.439134425;
    WorldRow 2031 0.573320545 0.717597727 0.439285704;
    WorldRow 2032 0.572708901 0.716910953 0.438749190;
    WorldRow 2033 0.572095895 0.716226301 0.438207831;
    WorldRow 2034 0.571483259 0.715545242 0.437663617;
    WorldRow 2035 0.570821497 0.714820866 0.437064470;
    WorldRow 2036 0.570265395 0.714199285 0.436573847;
    WorldRow 2037 0.569663069 0.713536875 0.436031604;
    WorldRow 2038 0.569066909 0.712883028 0.435493132;
    WorldRow 2039 0.568478136 0.712238796 0.434959817;
    WorldRow 2040 0.567083308 0.710887186 0.433521771;
    WorldRow 2041 0.567327331 0.710983152 0.433913852;
    WorldRow 2042 0.566767481 0.710373641 0.433403663;
    WorldRow 2043 0.566219394 0.709777559 0.432903570;
    WorldRow 2044 0.565684079 0.709195799 0.432414701;
    WorldRow 2045 0.565044176 0.708501694 0.431829000;
    WorldRow 2046 0.564655700 0.708078732 0.431475009;
    WorldRow 2047 0.564164556 0.707545143 0.431026311;
    WorldRow 2048 0.563690051 0.707029331 0.430593113;
    WorldRow 2049 0.563233144 0.706532169 0.430176460;
    WorldRow 2050 0.563942003 0.707108074 0.431018275;
    WorldRow 2051 0.562376012 0.705597348 0.429397017;
    WorldRow 2052 0.561977781 0.705161518 0.429036385;
    WorldRow 2053 0.561601149 0.704748013 0.428696627;
    WorldRow 2054 0.561247194 0.704357833 0.428378896;
    WorldRow 2055 0.560917031 0.703992021 0.428084382;
    WorldRow 2056 0.560611819 0.703651663 0.427814318;
    WorldRow 2057 0.560332776 0.703337903 0.427569991;
    WorldRow 2058 0.560081211 0.703051332 0.427353431;
    WorldRow 2059 0.559858464 0.702793863 0.427165406;
    WorldRow 2060 0.559324305 0.702254712 0.426636240
  ].

Definition _world_ipcc : list world_row :=
  [
    WorldRow 2015 0.484233480 0.954301231 0.415714612;
    WorldRow 2016 0.483874688 0.953705809 0.415699168;
    WorldRow 2017 0.483468578 0.953091500 0.415616211;
    WorldRow 2018 0.483022234 0.952462141 0.415474740;
    WorldRow 2019 0.482541828 0.951821094 0.415282576;
    WorldRow 2020 0.483415642 0.952177536 0.416520905;
    WorldRow 2021 0.481499413 0.950514956 0.414772457;
    WorldRow 2022 0.480945957 0.949854330 0.414465552;
    WorldRow 2023 0.480375891 0.949191227 0.414130387;
    WorldRow 2024 0.479792370 0.948527306 0.413771029;
    WorldRow 2025 0.479129875 0.947838144 0.413292095;
    WorldRow 2026 0.478595824 0.947202675 0.412993760;
    WorldRow 2027 0.477987474 0.946544387 0.412581910;
    WorldRow 2028 0.477375135 0.945890190 0.412158129;
    WorldRow 2029 0.476760605 0.945241008 0.411724756;
    WorldRow 2030 0.475609145 0.944163265 0.410760519;
    WorldRow 2031 0.475531330 0.943960978 0.410837481;
    WorldRow 2032 0.474919397 0.943331597 0.410387213;
    WorldRow 2033 0.474310926 0.942710164 0.409934675;
    WorldRow 2034 0.473707024 0.942097253 0.409481303;
    WorldRow 2035 0.473069620 0.941464119 0.408987650;
    WorldRow 2036 0.472516993 0.940899135 0.408577287;
    WorldRow 2037 0.471932749 0.940314945 0.408129046;
    WorldRow 2038 0.471356841 0.939741296 0.407684776;
    WorldRow 2039 0.470790068 0.939178633 0.407245483;
    WorldRow 2040 0.469678045 0.938292813 0.406144088;
    WorldRow 2041 0.469686967 0.938087976 0.406385614;
    WorldRow 2042 0.469152097 0.937560823 0.405966834;
    WorldRow 2043 0.468629289 0.937046344 0.405556635;
    WorldRow 2044 0.468119233 0.936544955 0.405155846;
    WorldRow 2045 0.467511264 0.935948981 0.404676294;
    WorldRow 2046 0.467140087 0.935583127 0.404385714;
    WorldRow 2047 0.466672339 0.935123538 0.404017938;
    WorldRow 2048 0.466220042 0.934678755 0.403662725;
    WorldRow 2049 0.465783884 0.934249237 0.403320851;
    WorldRow 2050 0.466202378 0.934415166 0.403919170;
    WorldRow 2051 0.464962806 0.933437919 0.402680274;
    WorldRow 2052 0.464579339 0.933057122 0.402383178;
    WorldRow 2053 0.464214935 0.932693614 0.402102653;
    WorldRow 2054 0.463870396 0.932347970 0.401839564;
    WorldRow 2055 0.463546558 0.932020796 0.401594807;
    WorldRow 2056 0.463244299 0.931712734 0.401369308;
    WorldRow 2057 0.462964542 0.931424470 0.401164041;
    WorldRow 2058 0.462707434 0.931155097 0.400980276;
    WorldRow 2059 0.462474856 0.930907038 0.400818857;
    WorldRow 2060 0.462020537 0.930512637 0.400404559
  ].

Definition _world_meta_2 : list world_row :=
  [
    WorldRow 2015 0.619753649484954 0.834200994227942 0.446911398737087;
    WorldRow 2016 0.613223327855322 0.827419241197181 0.441324423346894;
    WorldRow 2017 0.606715005275064 0.817903147977287 0.436594799095373;
    WorldRow 2018 0.602650482222055 0.811957311805342 0.433711588716669;
    WorldRow 2019 0.599546311600711 0.808809196292089 0.431043861809484;
    WorldRow 2020 0.595844101320605 0.805066315637190 0.427859783304937;
    WorldRow 2021 0.592313613174105 0.801495614192573 0.424823161474647;
    WorldRow 2022 0.588839905934230 0.797975220897886 0.421832598087871;
    WorldRow 2023 0.585449295836798 0.794534135403531 0.418911809360421;
    WorldRow 2024 0.582134106340607 0.791164960038795 0.416054306144423;
    WorldRow 2025 0.579212349557159 0.788184425039760 0.413534464382670;
    WorldRow 2026 0.575701698847632 0.784615063765847 0.410505236766206;
    WorldRow 2027 0.572571412159762 0.781421736177582 0.407802618493011;
    WorldRow 2028 0.569490331287843 0.778275031115247 0.405141116198009;
    WorldRow 2029 0.566452830841887 0.775169515850856 0.402515970114720;
    WorldRow 2030 0.563582610910188 0.772224408553539 0.400032800926231;
    WorldRow 2031 0.560487575191628 0.769061765323778 0.397356976482730;
    WorldRow 2032 0.557549996015452 0.766050030587511 0.394814811934275;
    WorldRow 2033 0.554636302401122 0.763060441667938 0.392292329996334;
    WorldRow 2034 0.551742154484868 0.760088796218024 0.389785854191242;
    WorldRow 2035 0.548784376564443 0.757051944289887 0.387224226526241;
    WorldRow 2036 0.545979252104998 0.754165935635464 0.384793649089973;
    WorldRow 2037 0.543106698312767 0.751211316808699 0.382304463418555;
    WorldRow 2038 0.540236787794954 0.748258161570859 0.379817005842378;
    WorldRow 2039 0.537352597396159 0.745289123477943 0.377317616531354;
    WorldRow 2040 0.534257808148527 0.742113543256056 0.374637411133684;
    WorldRow 2041 0.531581023073820 0.739345510659962 0.372313849192314;
    WorldRow 2042 0.528685258247064 0.736362655581270 0.369802465048003;
    WorldRow 2043 0.525775521926616 0.733365101778856 0.367278694303595;
    WorldRow 2044 0.522848765756972 0.730349877395092 0.364739945323485;
    WorldRow 2045 0.519796747547837 0.727206616166885 0.362092302098936;
    WorldRow 2046 0.516932341500910 0.724254851488976 0.359607432066743;
    WorldRow 2047 0.513936894157109 0.721169405528371 0.357008750494339;
    WorldRow 2048 0.510912853777991 0.718054985950131 0.354385243670808;
    WorldRow 2049 0.508316537396635 0.715381773638989 0.352134907312678;
    WorldRow 2050 0.506594921787481 0.713622488394168 0.350653654650227;
    WorldRow 2051 0.504688929275709 0.711690195955989 0.349010631116045;
    WorldRow 2052 0.502854324722711 0.709827677277282 0.347428887775673;
    WorldRow 2053 0.500981466874364 0.707928699401097 0.345814547929372;
    WorldRow 2054 0.499068430228993 0.705991414176679 0.344165978406253;
    WorldRow 2055 0.497072403296562 0.703969699319331 0.342445358912229;
    WorldRow 2056 0.495114656946048 0.701995050774066 0.340760075761759;
    WorldRow 2057 0.493070596435275 0.699932787017676 0.338999924825479;
    WorldRow 2058 0.490979702541600 0.697825838098367 0.337199902765339;
    WorldRow 2059 0.488840556318235 0.695672846558836 0.335358807437345;
    WorldRow 2060 0.486810301162345 0.693612676011530 0.333607332510495
  ].

(** *** ElectricityGenOnGrid *)

(** The two attributes of the scenario configuration the class reads. *)
Record grid_controls := {
  emissions_grid_source : pyobj GRID_SOURCE;
  emissions_grid_range : pyobj GRID_RANGE
}.

Record ElectricityGenOnGrid := {
  ac : grid_controls;
  grid_emissions_version : Z
}.

(** [ElectricityGenOnGrid(ac)] leaves the version at its default, 1. *)
Definition ElectricityGenOnGrid__init__ (ac : grid_controls)
    (grid_emissions_version : option Z) : ElectricityGenOnGrid :=
  {| ac := ac; grid_emissions_version := default 1 grid_emissions_version |}.

Definition years : list Z := seqZ 2015 46.

Definition region_columns : list string :=
  ["World"; "OECD90"; "Eastern Europe"; "Asia (Sans Japan)";
   "Middle East and Africa"; "Latin America"; "China"; "India"; "EU"; "USA"].

(** The local variable [grid] after the source and version chain, which
    has no final [else]: [None] when no branch ran. *)
Definition selected_grid (self : ElectricityGenOnGrid) : option (list world_row) :=
  if py_eq (emissions_grid_source (ac self)) IPCC then Some _world_ipcc
  else if py_eq (emissions_grid_source (ac self)) META
          && bool_decide (grid_emissions_version self = 1) then Some _world_meta_1
  else if py_eq (emissions_grid_source (ac self)) META
          && bool_decide (grid_emissions_version self = 2) then Some _world_meta_2
  else None.

(** The regional constants, assigned column by column after World. *)
Definition fill_regions_CO2eq (result : DataFrame) : DataFrame :=
  let result := set_column "OECD90" 0.454068989 result in
  let result := set_column "Eastern Europe" 0.724747956 result in
  let result := set_column "Asia (Sans Japan)" 0.457658947 result in
  let result := set_column "Middle East and Africa" 0.282243907 result in
  let result := set_column "Latin America" 0.564394712 result in
  let result := set_column "China" 0.535962403 result in
  let result := set_column "India" 0.787832379 result in
  let result := set_column "EU" 0.360629290 result in
  let result := set_column "USA" 0.665071666 result in
  result.

(** [conv_ref_grid_CO2eq_per_KWh]. [grid] is read only inside the branch
    of the range that ran. The cache of the source only saves work. *)
Definition conv_ref_grid_CO2eq_per_KWh (self : ElectricityGenOnGrid)
    : result DataFrame :=
  let result := DataFrame_new years region_columns in
  let grid := selected_grid self in
  result ←
    (if py_eq (emissions_grid_range (ac self)) HIGH then
       grid ← read_local "grid" grid;
       set_column_values "World" (high <$> grid) result
     else if py_eq (emissions_grid_range (ac self)) LOW then
       grid ← read_local "grid" grid;
       set_column_values "World" (low <$> grid) result
     else if py_eq (emissions_grid_range (ac self)) MEAN then
       grid ← read_local "grid" grid;
       set_column_values "World" (medium <$> grid) result
     else Raise (ValueError ("Invalid ac.emissions_grid_range "
                             ++ py_str (emissions_grid_range (ac self)))));
  Ok (fill_regions_CO2eq result).

(** [conv_ref_grid_CO2_per_KWh] *)
Definition conv_ref_grid_CO2_per_KWh (self : ElectricityGenOnGrid) : DataFrame :=
  let result := DataFrame_new years region_columns in
  let result := set_column "World" 0.484512031078339 result in
  let result := set_column "OECD90" 0.392126590013504 result in
  let result := set_column "Eastern Europe" 0.659977316856384 result in
  let result := set_column "Asia (Sans Japan)" 0.385555833578110 result in
  let result := set_column "Middle East and Africa" 0.185499981045723 result in
  let result := set_column "Latin America" 0.491537630558014 result in
  let result := set_column "China" 0.474730312824249 result in
  let result := set_column "India" 0.725081980228424 result in
  let result := set_column "EU" 0.297016531229019 result in
  let result := set_column "USA" 0.594563066959381 result in
  result.

(** The datasets the source and version chain can select. *)
Definition embedded (grid : list world_row) : Prop :=
  grid = _world_ipcc ∨ grid = _world_meta_1 ∨ grid = _world_meta_2.

End emissionsfactors.

(** ** solution/nuclear/__init__.py *)

Module nuclear.

Definition REGIONS : list string :=
  ["World"; "OECD90"; "Eastern Europe"; "Asia (Sans Japan)";
   "Middle East and Africa"; "Latin America"; "China"; "India"; "EU"; "USA"].

(** Modelled from the spec: the class [AdvancedControls] of
    [model/advanced_controls.py] is not among the sources. The spec has it
    as an immutable record of named parameters that is consumed read-only;
    the fields here are the general and adoption parameters the scenarios
    of this file set, with [None] for one a scenario leaves out. The
    financial and emissions parameters are read by later stages only. *)
Record AdvancedControls := {
  solution_category : string;
  report_start_year : Z;
  report_end_year : Z;
  soln_ref_adoption_basis : string;
  soln_ref_adoption_custom_name : option string;
  soln_ref_adoption_regional_data : bool;
  soln_pds_adoption_regional_data : bool;
  soln_pds_adoption_basis : string;
  soln_pds_adoption_custom_name : option string;
  soln_pds_adoption_prognostication_source : option string;
  soln_pds_adoption_prognostication_trend : option string;
  soln_pds_adoption_prognostication_growth : option string;
  pds_adoption_use_ref_years : list Z;
  source_until_2014 : string;
  ref_source_post_2014 : string;
  pds_source_post_2014 : string;
  pds_base_adoption : list (string * float);
  pds_adoption_final_percentage : list (string * float)
}.

Definition base_adoption : list (string * float) :=
  [("World", 2417.0); ("OECD90", 2067.538596846472);
   ("Eastern Europe", 337.7907984353286);
   ("Asia (Sans Japan)", 422.9280547381077);
   ("Middle East and Africa", 19.434007595770563);
   ("Latin America", 34.286204887889326); ("China", 186.72565568543357);
   ("India", 81.7511387032866); ("EU", 911.5844464681002);
   ("USA", 822.7334922881862)]%float.

Definition no_final_percentage : list (string * float) :=
  [("World", 0.0); ("OECD90", 0.0); ("Eastern Europe", 0.0);
   ("Asia (Sans Japan)", 0.0); ("Middle East and Africa", 0.0);
   ("Latin America", 0.0); ("China", 0.0); ("India", 0.0); ("EU", 0.0);
   ("USA", 0.0)]%float.

Definition PDS_12p2050_Plausible : AdvancedControls := {|
  solution_category := "REPLACEMENT";
  report_start_year := 2020; report_end_year := 2050;
  soln_ref_adoption_basis := "Custom";
  soln_ref_adoption_custom_name :=
    Some "Custom REF Adoption mirroring decline in nuclear in Plausible SCenario";
  soln_ref_adoption_regional_data := false;
  soln_pds_adoption_regional_data := false;
  soln_pds_adoption_basis := "Existing Adoption Prognostications";
  soln_pds_adoption_custom_name := None;
  soln_pds_adoption_prognostication_source := Some "Ambitious Cases";
  soln_pds_adoption_prognostication_trend := Some "3rd Poly";
  soln_pds_adoption_prognostication_growth := Some "High";
  pds_adoption_use_ref_years := [];
  source_until_2014 := "ALL SOURCES";
  ref_source_post_2014 := "Baseline Cases";
  pds_source_post_2014 :=
    "Drawdown TAM: Drawdown TAM - Post Integration - Plausible Scenario";
  pds_base_adoption := base_adoption;
  pds_adoption_final_percentage := no_final_percentage
|}.

Definition PDS_10p2050_Drawdown : AdvancedControls := {|
  solution_category := "REPLACEMENT";
  report_start_year := 2020; report_end_year := 2050;
  soln_ref_adoption_basis := "Default";
  soln_ref_adoption_custom_name := None;
  soln_ref_adoption_regional_data := false;
  soln_pds_adoption_regional_data := false;
  soln_pds_adoption_basis := "Existing Adoption Prognostications";
  soln_pds_adoption_custom_name := None;
  soln_pds_adoption_prognostication_source := Some "Ambitious Cases";
  soln_pds_adoption_prognostication_trend := Some "3rd Poly";
  soln_pds_adoption_prognostication_growth := Some "Medium";
  pds_adoption_use_ref_years := [];
  source_until_2014 := "ALL SOURCES";
  ref_source_post_2014 := "Baseline Cases";
  pds_source_post_2014 :=
    "Drawdown TAM: Drawdown TAM - Post Integration - Drawdown Scenario";
  pds_base_adoption := base_adoption;
  pds_adoption_final_percentage := no_final_percentage
|}.

Definition PDS_0p2050_Optimum : AdvancedControls := {|
  solution_category := "REPLACEMENT";
  report_start_year := 2020; report_end_year := 2050;
  soln_ref_adoption_basis := "Default";
  soln_ref_adoption_custom_name := None;
  soln_ref_adoption_regional_data := false;
  soln_pds_adoption_regional_data := false;
  soln_pds_adoption_basis := "Fully Customized PDS";
  soln_pds_adoption_custom_name :=
    Some "Optimum Nuclear reduces to 0% of TAM by 2050, based on AMPERE RefPol Scenario (2014) till peaking";
  soln_pds_adoption_prognostication_source := None;
  soln_pds_adoption_prognostication_trend := None;
  soln_pds_adoption_prognostication_growth := None;
  pds_adoption_use_ref_years := [2015];
  source_until_2014 := "ALL SOURCES";
  ref_source_post_2014 := "Baseline Cases";
  pds_source_post_2014 :=
    "Drawdown TAM: Drawdown TAM - Post Integration - Optimum Scenario";
  pds_base_adoption := base_adoption;
  pds_adoption_final_percentage := no_final_percentage
|}.

(** The module-level dictionary [scenarios]. *)
Definition scenarios : gmap string AdvancedControls :=
  <["PDS-12p2050-Plausible (Book Ed. 1)" := PDS_12p2050_Plausible]>
  (<["PDS-10p2050-Drawdown Scenario" := PDS_10p2050_Drawdown]>
  (<["PDS-0p2050-Optimum (Book Ed.1)" := PDS_0p2050_Optimum]> ∅)).

(** [d[k]] on a dictionary with string keys *)
Definition getitem {V} (d : gmap string V) (k : string) : result V :=
  match d !! k with
  | Some v => Ok v
  | None => Raise (KeyError (KeyStr k))
  end.

(** Unpacking the transposed list of pairs into its two tuples, as the
    line that assigns [ht_regions, ht_percentages] does: with no pair there
    is nothing to unpack. *)
Definition unzip {A B} (pairs : list (A * B)) : result (list A * list B) :=
  match pairs with
  | [] => Raise (ValueError "not enough values to unpack (expected 2, got 0)")
  | _ => Ok (pairs.*1, pairs.*2)
  end.

(** *** What the collaborators give back

    The collaborator modules are not among the sources; the pipeline only
    passes their tables on, so each is a record of the tables it is asked
    for. *)

Record TAM := {
  ref_tam_per_region : DataFrame;
  pds_tam_per_region : DataFrame
}.

Record AdoptionData := {
  ad_adoption_data_per_region : DataFrame;
  ad_adoption_trend_per_region : DataFrame;
  ad_adoption_is_single_source : bool
}.

Record data_source := {
  ds_name : string;
  ds_include : bool
}.

Record CustomAdoption := {
  ca_adoption_data_per_region : DataFrame;
  ca_adoption_trend_per_region : DataFrame
}.

(** The keyword arguments [HelperTables] is constructed from. *)
Record HelperTables := {
  ht_ac : AdvancedControls;
  ref_datapoints : DataFrame;
  pds_datapoints : DataFrame;
  pds_adoption_data_per_region : DataFrame;
  ref_adoption_limits : DataFrame;
  pds_adoption_limits : DataFrame;
  ref_adoption_data_per_region : option DataFrame;
  pds_adoption_trend_per_region : DataFrame;
  pds_adoption_is_single_source : option bool
}.

(** The object once the helper tables are built: the attributes assigned
    up to line 687. The stages after that (unit adoption, first cost,
    operating cost, CH4 and CO2) are constructed from these attributes. *)
Record Nuclear := {
  scenario : string;
  ac : AdvancedControls;
  tm : TAM;
  ad : AdoptionData;
  pds_ca : CustomAdoption;
  ref_ca : CustomAdoption;
  ht : HelperTables
}.

Definition ca_pds_data_sources : list data_source :=
  [ {| ds_name := "Project Drawdown High Growth, Ambitious Cases, adjusted";
       ds_include := true |};
    {| ds_name := "Project Drawdown High Growth, Conservative Cases, adjusted, smoothed curve";
       ds_include := true |};
    {| ds_name := "Optimum Nuclear reduces to 0% of TAM by 2050, based on AMPERE RefPol Scenario (2014) till peaking";
       ds_include := true |} ].

Definition ca_ref_data_sources : list data_source :=
  [ {| ds_name := "Custom REF Adoption mirroring decline in nuclear in Plausible SCenario";
       ds_include := false |} ].

Section pipeline.

(** The collaborators. The market and prognostication tables are
    configured from [ac] and the data-source catalogs of the file, which
    are constants; the custom adoptions from their sources, the custom
    name and the market table that limits them. *)
Variable tam_TAM : AdvancedControls → TAM.
Variable adoptiondata_AdoptionData : AdvancedControls → AdoptionData.
Variable customadoption_CustomAdoption :
  list data_source → option string → DataFrame → CustomAdoption.

(** [Nuclear.__init__] from its first line to the construction of the
    helper tables (lines 213 to 687). [Ok obj] is the object as it is once
    [self.ht] is assigned: the stages the constructor goes on to build from
    it (lines 689 to 744) are not part of [obj], so a [Raise] here is a
    failure of the constructor, and [Ok] says that the helper tables were
    built. [globals_scenarios] is the module's dictionary at the time of
    the call. The three locals of the adoption-basis chain are [None] while
    no branch has assigned them. The final percentages are labelled by the
    configuration: their Series keeps a label the configuration repeats,
    through the product with the market row and [fillna], up to the row
    assignment that conforms it to [REGIONS]. *)
Definition Nuclear__init__ (globals_scenarios : gmap string AdvancedControls)
    (scenario : option string) : result Nuclear :=
  let scenario := default "PDS-12p2050-Plausible (Book Ed. 1)" scenario in
  ac ← getitem globals_scenarios scenario;
  let tm := tam_TAM ac in
  let ref_tam_per_region := ref_tam_per_region tm in
  let pds_tam_per_region := pds_tam_per_region tm in
  let ad := adoptiondata_AdoptionData ac in
  let pds_ca := customadoption_CustomAdoption ca_pds_data_sources
                  (soln_pds_adoption_custom_name ac) pds_tam_per_region in
  let ref_ca := customadoption_CustomAdoption ca_ref_data_sources
                  (soln_ref_adoption_custom_name ac) ref_tam_per_region in
  let ref_adoption_data_per_region :=
    if (soln_ref_adoption_basis ac =? "Custom")%string
    then Some (ca_adoption_data_per_region ref_ca) else None in
  let '(pds_adoption_data_per_region, pds_adoption_trend_per_region,
        pds_adoption_is_single_source) :=
    if (soln_pds_adoption_basis ac =? "Fully Customized PDS")%string then
      (Some (ca_adoption_data_per_region pds_ca),
       Some (ca_adoption_trend_per_region pds_ca),
       Some None)
    else if (soln_pds_adoption_basis ac =? "Existing Adoption Prognostications")%string then
      (Some (ad_adoption_data_per_region ad),
       Some (ad_adoption_trend_per_region ad),
       Some (Some (ad_adoption_is_single_source ad)))
    else (None, None, None) in
  let ht_ref_adoption_initial :=
    Series_new [2417.0; 2067.538596846472; 337.7907984353286; 422.9280547381077;
                19.434007595770563; 34.286204887889326; 186.72565568543357;
                81.7511387032866; 911.5844464681002; 822.7334922881862]%float
               REGIONS in
  ref_tam_2050 ← loc ref_tam_per_region 2050;
  ref_tam_2014 ← loc ref_tam_per_region 2014;
  let ht_ref_adoption_final :=
    Series_mul ref_tam_2050 (Series_div ht_ref_adoption_initial ref_tam_2014) in
  let ht_ref_datapoints := DataFrame_new [] REGIONS in
  let ht_ref_datapoints := set_row 2014 ht_ref_adoption_initial ht_ref_datapoints in
  let ht_ref_datapoints :=
    set_row 2050 (fillna 0.0 ht_ref_adoption_final) ht_ref_datapoints in
  let ht_pds_adoption_initial := ht_ref_adoption_initial in
  '(ht_regions, ht_percentages) ← unzip (pds_adoption_final_percentage ac);
  let ht_pds_adoption_final_percentage := Series_new ht_percentages ht_regions in
  pds_tam_2050 ← loc pds_tam_per_region 2050;
  let ht_pds_adoption_final :=
    Series_mul ht_pds_adoption_final_percentage pds_tam_2050 in
  let ht_pds_datapoints := DataFrame_new [] REGIONS in
  let ht_pds_datapoints := set_row 2014 ht_pds_adoption_initial ht_pds_datapoints in
  ht_pds_datapoints ←
    set_row_of ht_regions 2050 (fillna 0.0 ht_pds_adoption_final) ht_pds_datapoints;
  pds_adoption_data_per_region ←
    read_local "pds_adoption_data_per_region" pds_adoption_data_per_region;
  pds_adoption_trend_per_region ←
    read_local "pds_adoption_trend_per_region" pds_adoption_trend_per_region;
  pds_adoption_is_single_source ←
    read_local "pds_adoption_is_single_source" pds_adoption_is_single_source;
  Ok {| scenario := scenario; ac := ac; tm := tm; ad := ad;
        pds_ca := pds_ca; ref_ca := ref_ca;
        ht := {| ht_ac := ac;
                 ref_datapoints := ht_ref_datapoints;
                 pds_datapoints := ht_pds_datapoints;
                 pds_adoption_data_per_region := pds_adoption_data_per_region;
                 ref_adoption_limits := ref_tam_per_region;
                 pds_adoption_limits := pds_tam_per_region;
                 ref_adoption_data_per_region := ref_adoption_data_per_region;
                 pds_adoption_trend_per_region := pds_adoption_trend_per_region;
                 pds_adoption_is_single_source := pds_adoption_is_single_source |} |}.

End pipeline.

(** *** The anchors, as functions of the market rows

    The two frames of anchors the constructor builds, written on their
    own: the 2014 adoption both pathways start from, and the frames of the
    reference and of the PDS pathway from the rows of 2050 and 2014. The
    PDS frame is the one the constructor builds when no label of the
    percentages is repeated; otherwise it builds none. *)

Definition initial_adoption : list float :=
  [2417.0; 2067.538596846472; 337.7907984353286; 422.9280547381077;
   19.434007595770563; 34.286204887889326; 186.72565568543357;
   81.7511387032866; 911.5844464681002; 822.7334922881862]%float.

Definition built_ref_datapoints (ref_tam_2050 ref_tam_2014 : Series) : DataFrame :=
  set_row 2050
    (fillna 0 (Series_mul ref_tam_2050
                 (Series_div (Series_new initial_adoption REGIONS) ref_tam_2014)))
    (set_row 2014 (Series_new initial_adoption REGIONS)
       (DataFrame_new [] REGIONS)).

Definition built_pds_datapoints (percentages : list (string * float))
    (pds_tam_2050 : Series) : DataFrame :=
  set_row 2050
    (fillna 0 (Series_mul (Series_new percentages.*2 percentages.*1) pds_tam_2050))
    (set_row 2014 (Series_new initial_adoption REGIONS)
       (DataFrame_new [] REGIONS)).

(** *** Collaborators to evaluate the pipeline with *)

(** A frame with the rows 2014 and 2050, each with one size in every
    region. *)
Definition two_year_table (size_2014 size_2050 : float) : DataFrame :=
  let df := DataFrame_new [] REGIONS in
  let df := set_row 2014 (Series_new (replicate 10 size_2014) REGIONS) df in
  set_row 2050 (Series_new (replicate 10 size_2050) REGIONS) df.

Definition flat_TAM (size_2014 size_2050 : float) (_ : AdvancedControls) : TAM :=
  {| ref_tam_per_region := two_year_table size_2014 size_2050;
     pds_tam_per_region := two_year_table size_2014 size_2050 |}.

Definition flat_AdoptionData (size : float) (_ : AdvancedControls) : AdoptionData :=
  {| ad_adoption_data_per_region := two_year_table size size;
     ad_adoption_trend_per_region := two_year_table size size;
     ad_adoption_is_single_source := false |}.

Definition limit_CustomAdoption (_ : list data_source) (_ : option string)
    (limit : DataFrame) : CustomAdoption :=
  {| ca_adoption_data_per_region := limit;
     ca_adoption_trend_per_region := limit |}.

(** A custom adoption that tells the sources of the reference adoption,
    of which there is one, from those of the PDS adoption: the limit for
    the former, an empty table for the latter. *)
Definition reference_only_CustomAdoption (sources : list data_source)
    (custom_name : option string) (limit : DataFrame) : CustomAdoption :=
  if (length sources =? 1)%nat
  then limit_CustomAdoption sources custom_name limit
  else {| ca_adoption_data_per_region := DataFrame_new [] [];
          ca_adoption_trend_per_region := DataFrame_new [] [] |}.

(** The configuration that differs from [ac] in its PDS adoption basis. *)
Definition with_pds_adoption_basis (basis : string) (ac : AdvancedControls)
    : AdvancedControls :=
  {| solution_category := solution_category ac;
     report_start_year := report_start_year ac;
     report_end_year := report_end_year ac;
     soln_ref_adoption_basis := soln_ref_adoption_basis ac;
     soln_ref_adoption_custom_name := soln_ref_adoption_custom_name ac;
     soln_ref_adoption_regional_data := soln_ref_adoption_regional_data ac;
     soln_pds_adoption_regional_data := soln_pds_adoption_regional_data ac;
     soln_pds_adoption_basis := basis;
     soln_pds_adoption_custom_name := soln_pds_adoption_custom_name ac;
     soln_pds_adoption_prognostication_source :=
       soln_pds_adoption_prognostication_source ac;
     soln_pds_adoption_prognostication_trend :=
       soln_pds_adoption_prognostication_trend ac;
     soln_pds_adoption_prognostication_growth :=
       soln_pds_adoption_prognostication_growth ac;
     pds_adoption_use_ref_years := pds_adoption_use_ref_years ac;
     source_until_2014 := source_until_2014 ac;
     ref_source_post_2014 := ref_source_post_2014 ac;
     pds_source_post_2014 := pds_source_post_2014 ac;
     pds_base_adoption := pds_base_adoption ac;
     pds_adoption_final_percentage := pds_adoption_final_percentage ac |}.

(** A Fully Customized configuration with a final percentage for World
    only. *)
Definition World_only_controls : AdvancedControls := {|
  solution_category := "REPLACEMENT";
  report_start_year := 2020; report_end_year := 2050;
  soln_ref_adoption_basis := "Default";
  soln_ref_adoption_custom_name := None;
  soln_ref_adoption_regional_data := false;
  soln_pds_adoption_regional_data := false;
  soln_pds_adoption_basis := "Fully Customized PDS";
  soln_pds_adoption_custom_name := None;
  soln_pds_adoption_prognostication_source := None;
  soln_pds_adoption_prognostication_trend := None;
  soln_pds_adoption_prognostication_growth := None;
  pds_adoption_use_ref_years := [];
  source_until_2014 := "ALL SOURCES";
  ref_source_post_2014 := "Baseline Cases";
  pds_source_post_2014 := "Baseline Cases";
  pds_base_adoption := base_adoption;
  pds_adoption_final_percentage := [("World", 0.5%float)]
|}.

(** The configuration that differs from [ac] in its reference basis. *)
Definition with_ref_adoption_basis (basis : string) (ac : AdvancedControls)
    : AdvancedControls :=
  {| solution_category := solution_category ac;
     report_start_year := report_start_year ac;
     report_end_year := report_end_year ac;
     soln_ref_adoption_basis := basis;
     soln_ref_adoption_custom_name := soln_ref_adoption_custom_name ac;
     soln_ref_adoption_regional_data := soln_ref_adoption_regional_data ac;
     soln_pds_adoption_regional_data := soln_pds_adoption_regional_data ac;
     soln_pds_adoption_basis := soln_pds_adoption_basis ac;
     soln_pds_adoption_custom_name := soln_pds_adoption_custom_name ac;
     soln_pds_adoption_prognostication_source :=
       soln_pds_adoption_prognostication_source ac;
     soln_pds_adoption_prognostication_trend :=
       soln_pds_adoption_prognostication_trend ac;
     soln_pds_adoption_prognostication_growth :=
       soln_pds_adoption_prognostication_growth ac;
     pds_adoption_use_ref_years := pds_adoption_use_ref_years ac;
     source_until_2014 := source_until_2014 ac;
     ref_source_post_2014 := ref_source_post_2014 ac;
     pds_source_post_2014 := pds_source_post_2014 ac;
     pds_base_adoption := pds_base_adoption ac;
     pds_adoption_final_percentage := pds_adoption_final_percentage ac |}.

(** The configuration that differs from [ac] in its final percentages. *)
Definition with_pds_adoption_final_percentage
    (percentages : list (string * float)) (ac : AdvancedControls)
    : AdvancedControls :=
  {| solution_category := solution_category ac;
     report_start_year := report_start_year ac;
     report_end_year := report_end_year ac;
     soln_ref_adoption_basis := soln_ref_adoption_basis ac;
     soln_ref_adoption_custom_name := soln_ref_adoption_custom_name ac;
     soln_ref_adoption_regional_data := soln_ref_adoption_regional_data ac;
     soln_pds_adoption_regional_data := soln_pds_adoption_regional_data ac;
     soln_pds_adoption_basis := soln_pds_adoption_basis ac;
     soln_pds_adoption_custom_name := soln_pds_adoption_custom_name ac;
     soln_pds_adoption_prognostication_source :=
       soln_pds_adoption_prognostication_source ac;
     soln_pds_adoption_prognostication_trend :=
       soln_pds_adoption_prognostication_trend ac;
     soln_pds_adoption_prognostication_growth :=
       soln_pds_adoption_prognostication_growth ac;
     pds_adoption_use_ref_years := pds_adoption_use_ref_years ac;
     source_until_2014 := source_until_2014 ac;
     ref_source_post_2014 := ref_source_post_2014 ac;
     pds_source_post_2014 := pds_source_post_2014 ac;
     pds_base_adoption := pds_base_adoption ac;
     pds_adoption_final_percentage := percentages |}.

(** The scenario the constructor takes when it is given none. *)
Definition default_scenario : string := "PDS-12p2050-Plausible (Book Ed. 1)".

End nuclear.


(** ** The configuration tables of the Nuclear constructor *)

Module nuclear_config.
Import nuclear.

(** A cell of a configuration table: a text, a float, or None. *)
Inductive pyval :=
| PyStr (s : string)
| PyFloat (f : float)
| PyNothing.

Definition of_text (o : option string) : pyval :=
  match o with
  | Some s => PyStr s
  | None => PyNothing
  end.

Definition pyval_eqb (a b : pyval) : bool :=
  match a, b with
  | PyStr s, PyStr t => (s =? t)%string
  | PyFloat x, PyFloat y => (x =? y)%float
  | PyNothing, PyNothing => true
  | _, _ => false
  end.

(** A frame of objects with labelled rows and columns. *)
Record ConfigFrame := {
  cf_index : list pyval;
  cf_columns : list pyval;
  cf_values : list (list pyval)
}.

(** The first position of a label. *)
Fixpoint position (x : pyval) (l : list pyval) : option nat :=
  match l with
  | [] => None
  | y :: l' => if pyval_eqb y x then Some 0%nat else S <$> position x l'
  end.

(** [pd.DataFrame(rows, columns=header, dtype=np.object).set_index(label)]:
    pandas refuses rows that are not as long as the header, and a label
    that is no column; the column of the label becomes the index. *)
Definition frame_with_index (header : list pyval) (rows : list (list pyval))
    (label : string) : result ConfigFrame :=
  if forallb (λ row, length row =? length header)%nat rows then
    match position (PyStr label) header with
    | Some j =>
        Ok {| cf_index := (λ row, default PyNothing (row !! j)) <$> rows;
              cf_columns := delete j header;
              cf_values := delete j <$> rows |}
    | None => Raise (KeyError (KeyStr label))
    end
  else Raise (ValueError "columns passed do not match the data").

(** [frame.loc[param, column]], [None] where a label is missing. *)
Definition cf_at (frame : ConfigFrame) (param column : string) : option pyval :=
  i ← position (PyStr param) (cf_index frame);
  j ← position (PyStr column) (cf_columns frame);
  row ← cf_values frame !! i;
  row !! j.

Definition tamconfig_list (ac : AdvancedControls) : list (list pyval) :=
  [ [PyStr "param"; PyStr "World"; PyStr "PDS World"; PyStr "OECD90";
     PyStr "Eastern Europe"; PyStr "Asia (Sans Japan)";
     PyStr "Middle East and Africa"; PyStr "Latin America"; PyStr "China";
     PyStr "India"; PyStr "EU"; PyStr "USA"];
    [PyStr "source_until_2014"; PyStr (source_until_2014 ac);
     PyStr (source_until_2014 ac);
     PyStr "ALL SOURCES"; PyStr "ALL SOURCES"; PyStr "ALL SOURCES";
     PyStr "ALL SOURCES"; PyStr "ALL SOURCES"; PyStr "ALL SOURCES";
     PyStr "ALL SOURCES"; PyStr "ALL SOURCES"; PyStr "ALL SOURCES"];
    [PyStr "source_after_2014"; PyStr (ref_source_post_2014 ac);
     PyStr (pds_source_post_2014 ac);
     PyStr "ALL SOURCES"; PyStr "ALL SOURCES"; PyStr "ALL SOURCES";
     PyStr "ALL SOURCES"; PyStr "ALL SOURCES"; PyStr "ALL SOURCES";
     PyStr "ALL SOURCES"; PyStr "ALL SOURCES"; PyStr "ALL SOURCES"];
    [PyStr "trend"; PyStr "3rd Poly"; PyStr "3rd Poly";
     PyStr "3rd Poly"; PyStr "3rd Poly"; PyStr "3rd Poly"; PyStr "3rd Poly";
     PyStr "3rd Poly"; PyStr "3rd Poly";
     PyStr "3rd Poly"; PyStr "3rd Poly"; PyStr "3rd Poly"];
    [PyStr "growth"; PyStr "Medium"; PyStr "Medium"; PyStr "Medium";
     PyStr "Medium";
     PyStr "Medium"; PyStr "Medium"; PyStr "Medium"; PyStr "Medium";
     PyStr "Medium"; PyStr "Medium"; PyStr "Medium"];
    [PyStr "low_sd_mult"; PyFloat 1.0; PyFloat 1.0; PyFloat 1.0; PyFloat 1.0;
     PyFloat 1.0; PyFloat 1.0; PyFloat 1.0; PyFloat 1.0; PyFloat 1.0;
     PyFloat 1.0; PyFloat 1.0];
    [PyStr "high_sd_mult"; PyFloat 1.0; PyFloat 1.0; PyFloat 1.0; PyFloat 1.0;
     PyFloat 1.0; PyFloat 1.0; PyFloat 1.0; PyFloat 1.0; PyFloat 1.0;
     PyFloat 1.0; PyFloat 1.0] ].

(** [tamconfig]: the rows after the first under the first as header, with
    the column "param" as index. *)
Definition tamconfig (ac : AdvancedControls) : result ConfigFrame :=
  frame_with_index (default [] (head (tamconfig_list ac)))
    (tail (tamconfig_list ac)) "param".

Definition adconfig_list (ac : AdvancedControls) : list (list pyval) :=
  [ [PyStr "param"; PyStr "World"; PyStr "OECD90"; PyStr "Eastern Europe";
     PyStr "Asia (Sans Japan)";
     PyStr "Middle East and Africa"; PyStr "Latin America"; PyStr "China";
     PyStr "India"; PyStr "EU"; PyStr "USA"];
    [PyStr "trend"; of_text (soln_pds_adoption_prognostication_trend ac);
     PyStr "3rd Poly";
     PyStr "3rd Poly"; PyStr "3rd Poly"; PyStr "3rd Poly"; PyStr "3rd Poly";
     PyStr "3rd Poly";
     PyStr "3rd Poly"; PyStr "3rd Poly"; PyStr "3rd Poly"];
    [PyStr "growth"; of_text (soln_pds_adoption_prognostication_growth ac);
     PyStr "Medium";
     PyStr "Medium"; PyStr "Medium"; PyStr "Medium"; PyStr "Medium";
     PyStr "Medium";
     PyStr "Medium"; PyStr "Medium"; PyStr "Medium"];
    [PyStr "low_sd_mult"; PyFloat 1.0; PyFloat 1.0; PyFloat 1.0; PyFloat 1.0;
     PyFloat 1.0; PyFloat 1.0; PyFloat 1.0; PyFloat 1.0; PyFloat 1.0;
     PyFloat 1.0];
    [PyStr "high_sd_mult"; PyFloat 1.0; PyFloat 1.0; PyFloat 1.0; PyFloat 1.0;
     PyFloat 1.0; PyFloat 1.0; PyFloat 1.0; PyFloat 1.0; PyFloat 1.0;
     PyFloat 1.0] ].

Definition adconfig (ac : AdvancedControls) : result ConfigFrame :=
  frame_with_index (default [] (head (adconfig_list ac)))
    (tail (adconfig_list ac)) "param".

(** The labels of the two tables. *)
Definition tam_columns : list string :=
  ["World"; "PDS World"; "OECD90"; "Eastern Europe"; "Asia (Sans Japan)";
   "Middle East and Africa"; "Latin America"; "China"; "India"; "EU"; "USA"].

Definition tam_params : list string :=
  ["source_until_2014"; "source_after_2014"; "trend"; "growth";
   "low_sd_mult"; "high_sd_mult"].

Definition ad_params : list string :=
  ["trend"; "growth"; "low_sd_mult"; "high_sd_mult"].

End nuclear_config.

(** ** The data-source catalogs of the Nuclear constructor *)

Module nuclear_catalog.

(** A nested dictionary literal: [File name] is [THISDIR.joinpath(name)], a
    file beside the module; [Dict] is a dictionary from names to nodes, in
    the order it is written. *)
#[warnings="-register-all"]
Inductive node :=
| File (name : string)
| Dict (items : list (string * node)).

(** The value a dictionary literal holds for a key: the last one written
    for it. *)
Fixpoint last_binding (k : string) (items : list (string * node)) : option node :=
  match items with
  | [] => None
  | (k', v) :: items' =>
      match last_binding k items' with
      | Some v' => Some v'
      | None => if (k' =? k)%string then Some v else None
      end
  end.

(** [n[k]], and [n[k1][k2]...] along a path of keys. *)
Definition subscript (n : node) (k : string) : option node :=
  match n with
  | Dict items => last_binding k items
  | File _ => None
  end.

(** [n.keys()], in the order written; the literals below repeat no key. *)
Definition keys (n : node) : list string :=
  match n with
  | Dict items => items.*1
  | File _ => []
  end.

Fixpoint path_get (n : node) (path : list string) : option node :=
  match path with
  | [] => Some n
  | k :: path' => n' ← subscript n k; path_get n' path'
  end.

Definition tam_ref_data_sources : node :=
  Dict [
    ("Baseline Cases", Dict [
      ("Based on: IEA ETP 2016 6DS",
       File "tam_based_on_IEA_ETP_2016_6DS.csv");
      ("Based on: AMPERE 2014 MESSAGE MACRO Reference",
       File "tam_based_on_AMPERE_2014_MESSAGE_MACRO_Reference.csv");
      ("Based on: AMPERE 2014 GEM E3 Reference",
       File "tam_based_on_AMPERE_2014_GEM_E3_Reference.csv");
      ("Based on: AMPERE 2014 IMAGE TIMER Reference",
       File "tam_based_on_AMPERE_2014_IMAGE_TIMER_Reference.csv") ]);
    ("Conservative Cases", Dict [
      ("Based on: IEA ETP 2016 4DS",
       File "tam_based_on_IEA_ETP_2016_4DS.csv");
      ("Based on: AMPERE 2014 MESSAGE MACRO 550",
       File "tam_based_on_AMPERE_2014_MESSAGE_MACRO_550.csv");
      ("Based on: AMPERE 2014 GEM E3 550",
       File "tam_based_on_AMPERE_2014_GEM_E3_550.csv");
      ("Based on: AMPERE 2014 IMAGE TIMER 550",
       File "tam_based_on_AMPERE_2014_IMAGE_TIMER_550.csv");
      ("Based on: Greenpeace 2015 Reference",
       File "tam_based_on_Greenpeace_2015_Reference.csv") ]);
    ("Ambitious Cases", Dict [
      ("Based on: IEA ETP 2016 2DS",
       File "tam_based_on_IEA_ETP_2016_2DS.csv");
      ("Based on: AMPERE 2014 MESSAGE MACRO 450",
       File "tam_based_on_AMPERE_2014_MESSAGE_MACRO_450.csv");
      ("Based on: AMPERE 2014 GEM E3 450",
       File "tam_based_on_AMPERE_2014_GEM_E3_450.csv");
      ("Based on: AMPERE 2014 IMAGE TIMER 450",
       File "tam_based_on_AMPERE_2014_IMAGE_TIMER_450.csv");
      ("Based on: Greenpeace 2015 Energy Revolution",
       File "tam_based_on_Greenpeace_2015_Energy_Revolution.csv") ]);
    ("100% RES2050 Case", Dict [
      ("Based on: Greenpeace 2015 Advanced Revolution",
       File "tam_based_on_Greenpeace_2015_Advanced_Revolution.csv") ]);
    ("Region: OECD90", Dict [
      ("Data sets", Dict [
        ("Based on: IEA ETP 2016 6DS",
         File "tam_based_on_IEA_ETP_2016_6DS.csv");
        ("Based on: AMPERE 2014 MESSAGE MACRO Reference",
         File "tam_based_on_AMPERE_2014_MESSAGE_MACRO_Reference.csv");
        ("Based on: AMPERE 2014 GEM E3 Reference",
         File "tam_based_on_AMPERE_2014_GEM_E3_Reference.csv");
        ("Based on: AMPERE 2014 IMAGE TIMER Reference",
         File "tam_based_on_AMPERE_2014_IMAGE_TIMER_Reference.csv");
        ("Based on: IEA ETP 2016 4DS",
         File "tam_based_on_IEA_ETP_2016_4DS.csv");
        ("Based on: AMPERE 2014 MESSAGE MACRO 550",
         File "tam_based_on_AMPERE_2014_MESSAGE_MACRO_550.csv");
        ("Based on: AMPERE 2014 GEM E3 550",
         File "tam_based_on_AMPERE_2014_GEM_E3_550.csv");
        ("Based on: AMPERE 2014 IMAGE TIMER 550",
         File "tam_based_on_AMPERE_2014_IMAGE_TIMER_550.csv");
        ("Based on: Greenpeace 2015 Reference",
         File "tam_based_on_Greenpeace_2015_Reference.csv");
        ("Based on: IEA ETP 2016 2DS",
         File "tam_based_on_IEA_ETP_2016_2DS.csv");
        ("Based on: AMPERE 2014 MESSAGE MACRO 450",
         File "tam_based_on_AMPERE_2014_MESSAGE_MACRO_450.csv");
        ("Based on: AMPERE 2014 GEM E3 450",
         File "tam_based_on_AMPERE_2014_GEM_E3_450.csv");
        ("Based on: AMPERE 2014 IMAGE TIMER 450",
         File "tam_based_on_AMPERE_2014_IMAGE_TIMER_450.csv");
        ("Based on: Greenpeace 2015 Energy Revolution",
         File "tam_based_on_Greenpeace_2015_Energy_Revolution.csv");
        ("Based on: Greenpeace 2015 Advanced Revolution",
         File "tam_based_on_Greenpeace_2015_Advanced_Revolution.csv") ]) ]);
    ("Region: Eastern Europe", Dict [
      ("Data sets", Dict [
        ("Based on: IEA ETP 2016 6DS",
         File "tam_based_on_IEA_ETP_2016_6DS.csv");
        ("Based on: AMPERE 2014 MESSAGE MACRO Reference",
         File "tam_based_on_AMPERE_2014_MESSAGE_MACRO_Reference.csv");
        ("Based on: AMPERE 2014 GEM E3 Reference",
         File "tam_based_on_AMPERE_2014_GEM_E3_Reference.csv");
        ("Based on: AMPERE 2014 IMAGE TIMER Reference",
         File "tam_based_on_AMPERE_2014_IMAGE_TIMER_Reference.csv");
        ("Based on: IEA ETP 2016 4DS",
         File "tam_based_on_IEA_ETP_2016_4DS.csv");
        ("Based on: AMPERE 2014 MESSAGE MACRO 550",
         File "tam_based_on_AMPERE_2014_MESSAGE_MACRO_550.csv");
        ("Based on: AMPERE 2014 GEM E3 550",
         File "tam_based_on_AMPERE_2014_GEM_E3_550.csv");
        ("Based on: AMPERE 2014 IMAGE TIMER 550",
         File "tam_based_on_AMPERE_2014_IMAGE_TIMER_550.csv");
        ("Based on: Greenpeace 2015 Reference",
         File "tam_based_on_Greenpeace_2015_Reference.csv");
        ("Based on: IEA ETP 2016 2DS",
         File "tam_based_on_IEA_ETP_2016_2DS.csv");
        ("Based on: AMPERE 2014 MESSAGE MACRO 450",
         File "tam_based_on_AMPERE_2014_MESSAGE_MACRO_450.csv");
        ("Based on: AMPERE 2014 GEM E3 450",
         File "tam_based_on_AMPERE_2014_GEM_E3_450.csv");
        ("Based on: AMPERE 2014 IMAGE TIMER 450",
         File "tam_based_on_AMPERE_2014_IMAGE_TIMER_450.csv");
        ("Based on: Greenpeace 2015 Energy Revolution",
         File "tam_based_on_Greenpeace_2015_Energy_Revolution.csv");
        ("Based on: Greenpeace 2015 Advanced Revolution",
         File "tam_based_on_Greenpeace_2015_Advanced_Revolution.csv") ]) ]);
    ("Region: Asia (Sans Japan)", Dict [
      ("Data sets", Dict [
        ("Based on: IEA ETP 2016 6DS",
         File "tam_based_on_IEA_ETP_2016_6DS.csv");
        ("Based on: AMPERE 2014 MESSAGE MACRO Reference",
         File "tam_based_on_AMPERE_2014_MESSAGE_MACRO_Reference.csv");
        ("Based on: AMPERE 2014 GEM E3 Reference",
         File "tam_based_on_AMPERE_2014_GEM_E3_Reference.csv");
        ("Based on: AMPERE 2014 IMAGE TIMER Reference",
         File "tam_based_on_AMPERE_2014_IMAGE_TIMER_Reference.csv");
        ("Based on: IEA ETP 2016 4DS",
         File "tam_based_on_IEA_ETP_2016_4DS.csv");
        ("Based on: AMPERE 2014 MESSAGE MACRO 550",
         File "tam_based_on_AMPERE_2014_MESSAGE_MACRO_550.csv");
        ("Based on: AMPERE 2014 GEM E3 550",
         File "tam_based_on_AMPERE_2014_GEM_E3_550.csv");
        ("Based on: AMPERE 2014 IMAGE TIMER 550",
         File "tam_based_on_AMPERE_2014_IMAGE_TIMER_550.csv");
        ("Based on: Greenpeace 2015 Reference",
         File "tam_based_on_Greenpeace_2015_Reference.csv");
        ("Based on: IEA ETP 2016 2DS",
         File "tam_based_on_IEA_ETP_2016_2DS.csv");
        ("Based on: AMPERE 2014 MESSAGE MACRO 450",
         File "tam_based_on_AMPERE_2014_MESSAGE_MACRO_450.csv");
        ("Based on: AMPERE 2014 GEM E3 450",
         File "tam_based_on_AMPERE_2014_GEM_E3_450.csv");
        ("Based on: AMPERE 2014 IMAGE TIMER 450",
         File "tam_based_on_AMPERE_2014_IMAGE_TIMER_450.csv");
        ("Based on: Greenpeace 2015 Energy Revolution",
         File "tam_based_on_Greenpeace_2015_Energy_Revolution.csv");
        ("Based on: Greenpeace 2015 Advanced Revolution",
         File "tam_based_on_Greenpeace_2015_Advanced_Revolution.csv") ]) ]);
    ("Region: Middle East and Africa", Dict [
      ("Data sets", Dict [
        ("Based on: IEA ETP 2016 6DS",
         File "tam_based_on_IEA_ETP_2016_6DS.csv");
        ("Based on: AMPERE 2014 MESSAGE MACRO Reference",
         File "tam_based_on_AMPERE_2014_MESSAGE_MACRO_Reference.csv");
        ("Based on: AMPERE 2014 GEM E3 Reference",
         File "tam_based_on_AMPERE_2014_GEM_E3_Reference.csv");
        ("Based on: AMPERE 2014 IMAGE TIMER Reference",
         File "tam_based_on_AMPERE_2014_IMAGE_TIMER_Reference.csv");
        ("Based on: IEA ETP 2016 4DS",
         File "tam_based_on_IEA_ETP_2016_4DS.csv");
        ("Based on: AMPERE 2014 MESSAGE MACRO 550",
         File "tam_based_on_AMPERE_2014_MESSAGE_MACRO_550.csv");
        ("Based on: AMPERE 2014 GEM E3 550",
         File "tam_based_on_AMPERE_2014_GEM_E3_550.csv");
        ("Based on: AMPERE 2014 IMAGE TIMER 550",
         File "tam_based_on_AMPERE_2014_IMAGE_TIMER_550.csv");
        ("Based on: Greenpeace 2015 Reference",
         File "tam_based_on_Greenpeace_2015_Reference.csv");
        ("Based on: IEA ETP 2016 2DS",
         File "tam_based_on_IEA_ETP_2016_2DS.csv");
        ("Based on: AMPERE 2014 MESSAGE MACRO 450",
         File "tam_based_on_AMPERE_2014_MESSAGE_MACRO_450.csv");
        ("Based on: AMPERE 2014 GEM E3 450",
         File "tam_based_on_AMPERE_2014_GEM_E3_450.csv");
        ("Based on: AMPERE 2014 IMAGE TIMER 450",
         File "tam_based_on_AMPERE_2014_IMAGE_TIMER_450.csv");
        ("Based on: Greenpeace 2015 Energy Revolution",
         File "tam_based_on_Greenpeace_2015_Energy_Revolution.csv");
        ("Based on: Greenpeace 2015 Advanced Revolution",
         File "tam_based_on_Greenpeace_2015_Advanced_Revolution.csv") ]) ]);
    ("Region: Latin America", Dict [
      ("Data sets", Dict [
        ("Based on: IEA ETP 2016 6DS",
         File "tam_based_on_IEA_ETP_2016_6DS.csv");
        ("Based on: AMPERE 2014 MESSAGE MACRO Reference",
         File "tam_based_on_AMPERE_2014_MESSAGE_MACRO_Reference.csv");
        ("Based on: AMPERE 2014 GEM E3 Reference",
         File "tam_based_on_AMPERE_2014_GEM_E3_Reference.csv");
        ("Based on: AMPERE 2014 IMAGE TIMER Reference",
         File "tam_based_on_AMPERE_2014_IMAGE_TIMER_Reference.csv");
        ("Based on: IEA ETP 2016 4DS",
         File "tam_based_on_IEA_ETP_2016_4DS.csv");
        ("Based on: AMPERE 2014 MESSAGE MACRO 550",
         File "tam_based_on_AMPERE_2014_MESSAGE_MACRO_550.csv");
        ("Based on: AMPERE 2014 GEM E3 550",
         File "tam_based_on_AMPERE_2014_GEM_E3_550.csv");
        ("Based on: AMPERE 2014 IMAGE TIMER 550",
         File "tam_based_on_AMPERE_2014_IMAGE_TIMER_550.csv");
        ("Based on: Greenpeace 2015 Reference",
         File "tam_based_on_Greenpeace_2015_Reference.csv");
        ("Based on: IEA ETP 2016 2DS",
         File "tam_based_on_IEA_ETP_2016_2DS.csv");
        ("Based on: AMPERE 2014 MESSAGE MACRO 450",
         File "tam_based_on_AMPERE_2014_MESSAGE_MACRO_450.csv");
        ("Based on: AMPERE 2014 GEM E3 450",
         File "tam_based_on_AMPERE_2014_GEM_E3_450.csv");
        ("Based on: AMPERE 2014 IMAGE TIMER 450",
         File "tam_based_on_AMPERE_2014_IMAGE_TIMER_450.csv");
        ("Based on: Greenpeace 2015 Energy Revolution",
         File "tam_based_on_Greenpeace_2015_Energy_Revolution.csv");
        ("Based on: Greenpeace 2015 Advanced Revolution",
         File "tam_based_on_Greenpeace_2015_Advanced_Revolution.csv") ]) ]);
    ("Region: China", Dict [
      ("Data sets", Dict [
        ("Based on: IEA ETP 2016 6DS",
         File "tam_based_on_IEA_ETP_2016_6DS.csv");
        ("Based on: AMPERE 2014 MESSAGE MACRO Reference",
         File "tam_based_on_AMPERE_2014_MESSAGE_MACRO_Reference.csv");
        ("Based on: AMPERE 2014 GEM E3 Reference",
         File "tam_based_on_AMPERE_2014_GEM_E3_Reference.csv");
        ("Based on: AMPERE 2014 IMAGE TIMER Reference",
         File "tam_based_on_AMPERE_2014_IMAGE_TIMER_Reference.csv");
        ("Based on: IEA ETP 2016 4DS",
         File "tam_based_on_IEA_ETP_2016_4DS.csv");
        ("Based on: AMPERE 2014 MESSAGE MACRO 550",
         File "tam_based_on_AMPERE_2014_MESSAGE_MACRO_550.csv");
        ("Based on: AMPERE 2014 GEM E3 550",
         File "tam_based_on_AMPERE_2014_GEM_E3_550.csv");
        ("Based on: AMPERE 2014 IMAGE TIMER 550",
         File "tam_based_on_AMPERE_2014_IMAGE_TIMER_550.csv");
        ("Based on: Greenpeace 2015 Reference",
         File "tam_based_on_Greenpeace_2015_Reference.csv");
        ("Based on: IEA ETP 2016 2DS",
         File "tam_based_on_IEA_ETP_2016_2DS.csv");
        ("Based on: AMPERE 2014 MESSAGE MACRO 450",
         File "tam_based_on_AMPERE_2014_MESSAGE_MACRO_450.csv");
        ("Based on: AMPERE 2014 GEM E3 450",
         File "tam_based_on_AMPERE_2014_GEM_E3_450.csv");
        ("Based on: AMPERE 2014 IMAGE TIMER 450",
         File "tam_based_on_AMPERE_2014_IMAGE_TIMER_450.csv");
        ("Based on: Greenpeace 2015 Energy Revolution",
         File "tam_based_on_Greenpeace_2015_Energy_Revolution.csv");
        ("Based on: Greenpeace 2015 Advanced Revolution",
         File "tam_based_on_Greenpeace_2015_Advanced_Revolution.csv") ]) ]);
    ("Region: India", Dict [
      ("Data sets", Dict [
        ("Based on: IEA ETP 2016 6DS",
         File "tam_based_on_IEA_ETP_2016_6DS.csv");
        ("Based on: AMPERE 2014 MESSAGE MACRO Reference",
         File "tam_based_on_AMPERE_2014_MESSAGE_MACRO_Reference.csv");
        ("Based on: AMPERE 2014 GEM E3 Reference",
         File "tam_based_on_AMPERE_2014_GEM_E3_Reference.csv");
        ("Based on: AMPERE 2014 IMAGE TIMER Reference",
         File "tam_based_on_AMPERE_2014_IMAGE_TIMER_Reference.csv");
        ("Based on: IEA ETP 2016 4DS",
         File "tam_based_on_IEA_ETP_2016_4DS.csv");
        ("Based on: AMPERE 2014 MESSAGE MACRO 550",
         File "tam_based_on_AMPERE_2014_MESSAGE_MACRO_550.csv");
        ("Based on: AMPERE 2014 GEM E3 550",
         File "tam_based_on_AMPERE_2014_GEM_E3_550.csv");
        ("Based on: AMPERE 2014 IMAGE TIMER 550",
         File "tam_based_on_AMPERE_2014_IMAGE_TIMER_550.csv");
        ("Based on: Greenpeace 2015 Reference",
         File "tam_based_on_Greenpeace_2015_Reference.csv");
        ("Based on: IEA ETP 2016 2DS",
         File "tam_based_on_IEA_ETP_2016_2DS.csv");
        ("Based on: AMPERE 2014 MESSAGE MACRO 450",
         File "tam_based_on_AMPERE_2014_MESSAGE_MACRO_450.csv");
        ("Based on: AMPERE 2014 GEM E3 450",
         File "tam_based_on_AMPERE_2014_GEM_E3_450.csv");
        ("Based on: AMPERE 2014 IMAGE TIMER 450",
         File "tam_based_on_AMPERE_2014_IMAGE_TIMER_450.csv");
        ("Based on: Greenpeace 2015 Energy Revolution",
         File "tam_based_on_Greenpeace_2015_Energy_Revolution.csv");
        ("Based on: Greenpeace 2015 Advanced Revolution",
         File "tam_based_on_Greenpeace_2015_Advanced_Revolution.csv") ]) ]);
    ("Region: EU", Dict [
      ("Data sets", Dict [
        ("Based on: IEA ETP 2016 6DS",
         File "tam_based_on_IEA_ETP_2016_6DS.csv");
        ("Based on: AMPERE 2014 MESSAGE MACRO Reference",
         File "tam_based_on_AMPERE_2014_MESSAGE_MACRO_Reference.csv");
        ("Based on: AMPERE 2014 GEM E3 Reference",
         File "tam_based_on_AMPERE_2014_GEM_E3_Reference.csv");
        ("Based on: AMPERE 2014 IMAGE TIMER Reference",
         File "tam_based_on_AMPERE_2014_IMAGE_TIMER_Reference.csv");
        ("Based on: IEA ETP 2016 4DS",
         File "tam_based_on_IEA_ETP_2016_4DS.csv");
        ("Based on: AMPERE 2014 MESSAGE MACRO 550",
         File "tam_based_on_AMPERE_2014_MESSAGE_MACRO_550.csv");
        ("Based on: AMPERE 2014 GEM E3 550",
         File "tam_based_on_AMPERE_2014_GEM_E3_550.csv");
        ("Based on: AMPERE 2014 IMAGE TIMER 550",
         File "tam_based_on_AMPERE_2014_IMAGE_TIMER_550.csv");
        ("Based on: Greenpeace 2015 Reference",
         File "tam_based_on_Greenpeace_2015_Reference.csv");
        ("Based on: IEA ETP 2016 2DS",
         File "tam_based_on_IEA_ETP_2016_2DS.csv");
        ("Based on: AMPERE 2014 MESSAGE MACRO 450",
         File "tam_based_on_AMPERE_2014_MESSAGE_MACRO_450.csv");
        ("Based on: AMPERE 2014 GEM E3 450",
         File "tam_based_on_AMPERE_2014_GEM_E3_450.csv");
        ("Based on: AMPERE 2014 IMAGE TIMER 450",
         File "tam_based_on_AMPERE_2014_IMAGE_TIMER_450.csv");
        ("Based on: Greenpeace 2015 Energy Revolution",
         File "tam_based_on_Greenpeace_2015_Energy_Revolution.csv");
        ("Based on: Greenpeace 2015 Advanced Revolution",
         File "tam_based_on_Greenpeace_2015_Advanced_Revolution.csv") ]) ]);
    ("Region: USA", Dict [
      ("Data sets", Dict [
        ("Based on: IEA ETP 2016 6DS",
         File "tam_based_on_IEA_ETP_2016_6DS.csv");
        ("Based on: AMPERE 2014 MESSAGE MACRO Reference",
         File "tam_based_on_AMPERE_2014_MESSAGE_MACRO_Reference.csv");
        ("Based on: AMPERE 2014 GEM E3 Reference",
         File "tam_based_on_AMPERE_2014_GEM_E3_Reference.csv");
        ("Based on: AMPERE 2014 IMAGE TIMER Reference",
         File "tam_based_on_AMPERE_2014_IMAGE_TIMER_Reference.csv");
        ("Based on: IEA ETP 2016 4DS",
         File "tam_based_on_IEA_ETP_2016_4DS.csv");
        ("Based on: AMPERE 2014 MESSAGE MACRO 550",
         File "tam_based_on_AMPERE_2014_MESSAGE_MACRO_550.csv");
        ("Based on: AMPERE 2014 GEM E3 550",
         File "tam_based_on_AMPERE_2014_GEM_E3_550.csv");
        ("Based on: AMPERE 2014 IMAGE TIMER 550",
         File "tam_based_on_AMPERE_2014_IMAGE_TIMER_550.csv");
        ("Based on: Greenpeace 2015 Reference",
         File "tam_based_on_Greenpeace_2015_Reference.csv");
        ("Based on: IEA ETP 2016 2DS",
         File "tam_based_on_IEA_ETP_2016_2DS.csv");
        ("Based on: AMPERE 2014 MESSAGE MACRO 450",
         File "tam_based_on_AMPERE_2014_MESSAGE_MACRO_450.csv");
        ("Based on: AMPERE 2014 GEM E3 450",
         File "tam_based_on_AMPERE_2014_GEM_E3_450.csv");
        ("Based on: AMPERE 2014 IMAGE TIMER 450",
         File "tam_based_on_AMPERE_2014_IMAGE_TIMER_450.csv");
        ("Based on: Greenpeace 2015 Energy Revolution",
         File "tam_based_on_Greenpeace_2015_Energy_Revolution.csv");
        ("Based on: Greenpeace 2015 Advanced Revolution",
         File "tam_based_on_Greenpeace_2015_Advanced_Revolution.csv") ]) ]) ].

Definition ad_data_sources : node :=
  Dict [
    ("Baseline Cases", Dict [
      ("Based on: IEA ETP 2016 6DS",
       File "ad_based_on_IEA_ETP_2016_6DS.csv");
      ("Based on: AMPERE 2014 MESSAGE MACRO Reference",
       File "ad_based_on_AMPERE_2014_MESSAGE_MACRO_Reference.csv");
      ("Based on: AMPERE 2014 GEM E3 Reference",
       File "ad_based_on_AMPERE_2014_GEM_E3_Reference.csv");
      ("Based on: AMPERE 2014 IMAGE TIMER Reference",
       File "ad_based_on_AMPERE_2014_IMAGE_TIMER_Reference.csv") ]);
    ("Conservative Cases", Dict [
      ("Based on: IEA ETP 2016 4DS",
       File "ad_based_on_IEA_ETP_2016_4DS.csv");
      ("Based on: AMPERE 2014 MESSAGE MACRO 550",
       File "ad_based_on_AMPERE_2014_MESSAGE_MACRO_550.csv");
      ("Based on: AMPERE 2014 GEM E3 550",
       File "ad_based_on_AMPERE_2014_GEM_E3_550.csv");
      ("Based on: AMPERE 2014 IMAGE TIMER 550",
       File "ad_based_on_AMPERE_2014_IMAGE_TIMER_550.csv") ]);
    ("Ambitious Cases", Dict [
      ("Based on: IEA ETP 2016 2DS",
       File "ad_based_on_IEA_ETP_2016_2DS.csv");
      ("Based on: AMPERE 2014 MESSAGE MACRO 450",
       File "ad_based_on_AMPERE_2014_MESSAGE_MACRO_450.csv");
      ("Based on: AMPERE 2014 GEM E3 450",
       File "ad_based_on_AMPERE_2014_GEM_E3_450.csv");
      ("Based on: AMPERE 2014 IMAGE TIMER 450",
       File "ad_based_on_AMPERE_2014_IMAGE_TIMER_450.csv") ]);
    ("100% Case", Dict [
      ("Based on Greenpeace Advanced Revolution Scenario",
       File "ad_based_on_Greenpeace_Advanced_Revolution_Scenario.csv") ]);
    ("Region: OECD90", Dict [
      ("Baseline Cases", Dict [
        ("Based on: AMPERE 2014 MESSAGE MACRO Reference",
         File "ad_based_on_AMPERE_2014_MESSAGE_MACRO_Reference.csv");
        ("Based on: AMPERE 2014 IMAGE TIMER Reference",
         File "ad_based_on_AMPERE_2014_IMAGE_TIMER_Reference.csv") ]);
      ("Conservative Cases", Dict [
        ("Based on: AMPERE 2014 MESSAGE MACRO 550",
         File "ad_based_on_AMPERE_2014_MESSAGE_MACRO_550.csv");
        ("Based on: AMPERE 2014 GEM E3 550",
         File "ad_based_on_AMPERE_2014_GEM_E3_550.csv");
        ("Based on: AMPERE 2014 IMAGE TIMER 550",
         File "ad_based_on_AMPERE_2014_IMAGE_TIMER_550.csv") ]);
      ("Ambitious Cases", Dict [
        ("Based on: AMPERE 2014 MESSAGE MACRO 450",
         File "ad_based_on_AMPERE_2014_MESSAGE_MACRO_450.csv");
        ("Based on: AMPERE 2014 GEM E3 450",
         File "ad_based_on_AMPERE_2014_GEM_E3_450.csv");
        ("Based on: AMPERE 2014 IMAGE TIMER 450",
         File "ad_based_on_AMPERE_2014_IMAGE_TIMER_450.csv") ]) ]);
    ("Region: Eastern Europe", Dict [
      ("Baseline Cases", Dict [
        ("Based on: AMPERE 2014 MESSAGE MACRO Reference",
         File "ad_based_on_AMPERE_2014_MESSAGE_MACRO_Reference.csv");
        ("Based on: AMPERE 2014 GEM E3 Reference",
         File "ad_based_on_AMPERE_2014_GEM_E3_Reference.csv");
        ("Based on: AMPERE 2014 IMAGE TIMER Reference",
         File "ad_based_on_AMPERE_2014_IMAGE_TIMER_Reference.csv") ]);
      ("Conservative Cases", Dict [
        ("Based on: AMPERE 2014 MESSAGE MACRO 550",
         File "ad_based_on_AMPERE_2014_MESSAGE_MACRO_550.csv");
        ("Based on: AMPERE 2014 GEM E3 550",
         File "ad_based_on_AMPERE_2014_GEM_E3_550.csv");
        ("Based on: AMPERE 2014 IMAGE TIMER 550",
         File "ad_based_on_AMPERE_2014_IMAGE_TIMER_550.csv") ]);
      ("Ambitious Cases", Dict [
        ("Based on: AMPERE 2014 MESSAGE MACRO 450",
         File "ad_based_on_AMPERE_2014_MESSAGE_MACRO_450.csv");
        ("Based on: AMPERE 2014 GEM E3 450",
         File "ad_based_on_AMPERE_2014_GEM_E3_450.csv");
        ("Based on: AMPERE 2014 IMAGE TIMER 450",
         File "ad_based_on_AMPERE_2014_IMAGE_TIMER_450.csv") ]) ]);
    ("Region: Asia (Sans Japan)", Dict [
      ("Baseline Cases", Dict [
        ("Based on: AMPERE 2014 MESSAGE MACRO Reference",
         File "ad_based_on_AMPERE_2014_MESSAGE_MACRO_Reference.csv");
        ("Based on: AMPERE 2014 IMAGE TIMER Reference",
         File "ad_based_on_AMPERE_2014_IMAGE_TIMER_Reference.csv") ]);
      ("Conservative Cases", Dict [
        ("Based on: AMPERE 2014 MESSAGE MACRO 550",
         File "ad_based_on_AMPERE_2014_MESSAGE_MACRO_550.csv");
        ("Based on: AMPERE 2014 IMAGE TIMER 550",
         File "ad_based_on_AMPERE_2014_IMAGE_TIMER_550.csv") ]);
      ("Ambitious Cases", Dict [
        ("Based on: AMPERE 2014 MESSAGE MACRO 450",
         File "ad_based_on_AMPERE_2014_MESSAGE_MACRO_450.csv");
        ("Based on: AMPERE 2014 IMAGE TIMER 450",
         File "ad_based_on_AMPERE_2014_IMAGE_TIMER_450.csv") ]) ]);
    ("Region: Middle East and Africa", Dict [
      ("Baseline Cases", Dict [
        ("Based on: AMPERE 2014 IMAGE TIMER Reference",
         File "ad_based_on_AMPERE_2014_IMAGE_TIMER_Reference.csv") ]);
      ("Conservative Cases", Dict [
        ("Based on: AMPERE 2014 IMAGE TIMER 550",
         File "ad_based_on_AMPERE_2014_IMAGE_TIMER_550.csv") ]);
      ("Ambitious Cases", Dict [
        ("Based on: AMPERE 2014 IMAGE TIMER 450",
         File "ad_based_on_AMPERE_2014_IMAGE_TIMER_450.csv") ]) ]);
    ("Region: Latin America", Dict [
      ("Baseline Cases", Dict [
        ("Based on: AMPERE 2014 MESSAGE MACRO Reference",
         File "ad_based_on_AMPERE_2014_MESSAGE_MACRO_Reference.csv");
        ("Based on: AMPERE 2014 IMAGE TIMER Reference",
         File "ad_based_on_AMPERE_2014_IMAGE_TIMER_Reference.csv") ]);
      ("Conservative Cases", Dict [
        ("Based on: AMPERE 2014 MESSAGE MACRO 550",
         File "ad_based_on_AMPERE_2014_MESSAGE_MACRO_550.csv");
        ("Based on: AMPERE 2014 IMAGE TIMER 550",
         File "ad_based_on_AMPERE_2014_IMAGE_TIMER_550.csv") ]);
      ("Ambitious Cases", Dict [
        ("Based on: AMPERE 2014 MESSAGE MACRO 450",
         File "ad_based_on_AMPERE_2014_MESSAGE_MACRO_450.csv");
        ("Based on: AMPERE 2014 IMAGE TIMER 450",
         File "ad_based_on_AMPERE_2014_IMAGE_TIMER_450.csv") ]) ]);
    ("Region: China", Dict [
      ("Baseline Cases", Dict [
        ("Based on: AMPERE 2014 MESSAGE MACRO Reference",
         File "ad_based_on_AMPERE_2014_MESSAGE_MACRO_Reference.csv");
        ("Based on: AMPERE 2014 GEM E3 Reference",
         File "ad_based_on_AMPERE_2014_GEM_E3_Reference.csv");
        ("Based on: AMPERE 2014 IMAGE TIMER Reference",
         File "ad_based_on_AMPERE_2014_IMAGE_TIMER_Reference.csv") ]);
      ("Conservative Cases", Dict [
        ("Based on: IEA ETP 2016 4DS",
         File "ad_based_on_IEA_ETP_2016_4DS.csv");
        ("Based on: AMPERE 2014 MESSAGE MACRO 550",
         File "ad_based_on_AMPERE_2014_MESSAGE_MACRO_550.csv");
        ("Based on: AMPERE 2014 GEM E3 550",
         File "ad_based_on_AMPERE_2014_GEM_E3_550.csv");
        ("Based on: AMPERE 2014 IMAGE TIMER 550",
         File "ad_based_on_AMPERE_2014_IMAGE_TIMER_550.csv") ]);
      ("Ambitious Cases", Dict [
        ("Based on: IEA ETP 2016 2DS",
         File "ad_based_on_IEA_ETP_2016_2DS.csv");
        ("Based on: AMPERE 2014 MESSAGE MACRO 450",
         File "ad_based_on_AMPERE_2014_MESSAGE_MACRO_450.csv");
        ("Based on: AMPERE 2014 GEM E3 450",
         File "ad_based_on_AMPERE_2014_GEM_E3_450.csv");
        ("Based on: AMPERE 2014 IMAGE TIMER 450",
         File "ad_based_on_AMPERE_2014_IMAGE_TIMER_450.csv") ]) ]);
    ("Region: India", Dict [
      ("Baseline Cases", Dict [
        ("Based on: AMPERE 2014 MESSAGE MACRO Reference",
         File "ad_based_on_AMPERE_2014_MESSAGE_MACRO_Reference.csv");
        ("Based on: AMPERE 2014 GEM E3 Reference",
         File "ad_based_on_AMPERE_2014_GEM_E3_Reference.csv");
        ("Based on: AMPERE 2014 IMAGE TIMER Reference",
         File "ad_based_on_AMPERE_2014_IMAGE_TIMER_Reference.csv") ]);
      ("Conservative Cases", Dict [
        ("Based on: IEA ETP 2016 4DS",
         File "ad_based_on_IEA_ETP_2016_4DS.csv");
        ("Based on: AMPERE 2014 MESSAGE MACRO 550",
         File "ad_based_on_AMPERE_2014_MESSAGE_MACRO_550.csv");
        ("Based on: AMPERE 2014 GEM E3 550",
         File "ad_based_on_AMPERE_2014_GEM_E3_550.csv");
        ("Based on: AMPERE 2014 IMAGE TIMER 550",
         File "ad_based_on_AMPERE_2014_IMAGE_TIMER_550.csv") ]);
      ("Ambitious Cases", Dict [
        ("Based on: IEA ETP 2016 2DS",
         File "ad_based_on_IEA_ETP_2016_2DS.csv");
        ("Based on: AMPERE 2014 MESSAGE MACRO 450",
         File "ad_based_on_AMPERE_2014_MESSAGE_MACRO_450.csv");
        ("Based on: AMPERE 2014 GEM E3 450",
         File "ad_based_on_AMPERE_2014_GEM_E3_450.csv");
        ("Based on: AMPERE 2014 IMAGE TIMER 450",
         File "ad_based_on_AMPERE_2014_IMAGE_TIMER_450.csv") ]) ]);
    ("Region: EU", Dict [
      ("Baseline Cases", Dict [
        ("Based on: AMPERE 2014 MESSAGE MACRO Reference",
         File "ad_based_on_AMPERE_2014_MESSAGE_MACRO_Reference.csv");
        ("Based on: AMPERE 2014 GEM E3 Reference",
         File "ad_based_on_AMPERE_2014_GEM_E3_Reference.csv");
        ("Based on: AMPERE 2014 IMAGE TIMER Reference",
         File "ad_based_on_AMPERE_2014_IMAGE_TIMER_Reference.csv") ]);
      ("Conservative Cases", Dict [
        ("Based on: IEA ETP 2016 4DS",
         File "ad_based_on_IEA_ETP_2016_4DS.csv");
        ("Based on: AMPERE 2014 MESSAGE MACRO 550",
         File "ad_based_on_AMPERE_2014_MESSAGE_MACRO_550.csv");
        ("Based on: AMPERE 2014 GEM E3 550",
         File "ad_based_on_AMPERE_2014_GEM_E3_550.csv");
        ("Based on: AMPERE 2014 IMAGE TIMER 550",
         File "ad_based_on_AMPERE_2014_IMAGE_TIMER_550.csv") ]);
      ("Ambitious Cases", Dict [
        ("Based on: IEA ETP 2016 2DS",
         File "ad_based_on_IEA_ETP_2016_2DS.csv");
        ("Based on: AMPERE 2014 MESSAGE MACRO 450",
         File "ad_based_on_AMPERE_2014_MESSAGE_MACRO_450.csv");
        ("Based on: AMPERE 2014 GEM E3 450",
         File "ad_based_on_AMPERE_2014_GEM_E3_450.csv");
        ("Based on: AMPERE 2014 IMAGE TIMER 450",
         File "ad_based_on_AMPERE_2014_IMAGE_TIMER_450.csv") ]) ]);
    ("Region: USA", Dict [
      ("Baseline Cases", Dict [
        ("Based on: AMPERE 2014 MESSAGE MACRO Reference",
         File "ad_based_on_AMPERE_2014_MESSAGE_MACRO_Reference.csv");
        ("Based on: AMPERE 2014 GEM E3 Reference",
         File "ad_based_on_AMPERE_2014_GEM_E3_Reference.csv");
        ("Based on: AMPERE 2014 IMAGE TIMER Reference",
         File "ad_based_on_AMPERE_2014_IMAGE_TIMER_Reference.csv") ]);
      ("Conservative Cases", Dict [
        ("Based on: IEA ETP 2016 4DS",
         File "ad_based_on_IEA_ETP_2016_4DS.csv");
        ("Based on: AMPERE 2014 MESSAGE MACRO 550",
         File "ad_based_on_AMPERE_2014_MESSAGE_MACRO_550.csv");
        ("Based on: AMPERE 2014 GEM E3 550",
         File "ad_based_on_AMPERE_2014_GEM_E3_550.csv");
        ("Based on: AMPERE 2014 IMAGE TIMER 550",
         File "ad_based_on_AMPERE_2014_IMAGE_TIMER_550.csv") ]);
      ("Ambitious Cases", Dict [
        ("Based on: IEA ETP 2016 2DS",
         File "ad_based_on_IEA_ETP_2016_2DS.csv");
        ("Based on: AMPERE 2014 MESSAGE MACRO 450",
         File "ad_based_on_AMPERE_2014_MESSAGE_MACRO_450.csv");
        ("Based on: AMPERE 2014 GEM E3 450",
         File "ad_based_on_AMPERE_2014_GEM_E3_450.csv");
        ("Based on: AMPERE 2014 IMAGE TIMER 450",
         File "ad_based_on_AMPERE_2014_IMAGE_TIMER_450.csv") ]) ]) ].

End nuclear_catalog.

(** ** Checks on the embedded datasets *)

Module dataset_checks.
Import emissionsfactors.

(** A value strictly between 0 and 1 kg per kWh. *)
Definition in_unit (v : float) : bool := ((0 <? v) && (v <? 1))%float.

(** One row: its three values lie strictly between 0 and 1, low below
    medium below high. *)
Definition row_in_order (row : world_row) : bool :=
  in_unit (low row) && in_unit (medium row) && in_unit (high row)
  && (low row <? medium row)%float && (medium row <? high row)%float.

(** The column of a dataset that a range selects. *)
Definition range_column (rng : GRID_RANGE) : world_row → float :=
  match rng with
  | MEAN => medium
  | HIGH => high
  | LOW => low
  end.

(** The source and version name one of the embedded datasets. *)
Definition selects_dataset (self : ElectricityGenOnGrid) : Prop :=
  emissions_grid_source (ac self) = PyMember IPCC
  ∨ (emissions_grid_source (ac self) = PyMember META
     ∧ (grid_emissions_version self = 1 ∨ grid_emissions_version self = 2)).

Definition range_is_member (self : ElectricityGenOnGrid) : Prop :=
  ∃ rng, emissions_grid_range (ac self) = PyMember rng.

End dataset_checks.

(** ** Facts about Series and frames *)

Module pandas_facts.

Lemma lookup_reindex (columns : list string) (s : Series) (c : string) :
  c ∈ columns → reindex columns s !! c = Some (get s c).
Proof.
  unfold reindex. induction columns as [|c0 columns IH]; intros Hin.
  - by apply elem_of_nil in Hin.
  - cbn [fmap list_fmap list_to_map foldr].
    destruct (decide (c0 = c)) as [->|Hne].
    + apply lookup_insert_eq.
    + rewrite lookup_insert_ne by done.
      apply elem_of_cons in Hin as [->|Hin]; [done | by apply IH].
Qed.

Lemma lookup_align op (a b : Series) (l : string) :
  align op a b !! l =
    match a !! l, b !! l with
    | None, None => None
    | x, y => Some (op (default nan x) (default nan y))
    end.
Proof.
  unfold align. rewrite lookup_merge.
  by destruct (a !! l), (b !! l).
Qed.

Lemma lookup_fillna v (s : Series) (l : string) :
  fillna v s !! l = (λ x, if isna x then v else x) <$> s !! l.
Proof. unfold fillna. apply lookup_fmap. Qed.

Lemma lookup_Series_new (data : list float) (index : list string) i l v :
  NoDup index → index !! i = Some l → data !! i = Some v →
  Series_new data index !! l = Some v.
Proof.
  unfold Series_new. revert data i.
  induction index as [|l0 index IH]; intros data i Hnd Hl Hv; [done|].
  destruct data as [|v0 data]; [by destruct i|].
  apply NoDup_cons in Hnd as [Hnotin Hnd]. cbn [zip zip_with list_to_map foldr].
  destruct i as [|i]; simplify_eq/=.
  - apply lookup_insert_eq.
  - rewrite lookup_insert_ne.
    + by eapply IH.
    + intros ->. apply Hnotin. by eapply list_elem_of_lookup_2.
Qed.

Lemma at_set_row_eq y s df c :
  at_ (set_row y s df) y c = reindex (df_columns df) s !! c.
Proof. unfold at_, set_row. cbn. by rewrite lookup_insert_eq. Qed.

Lemma at_set_row_ne y y' s df c :
  y ≠ y' → at_ (set_row y s df) y' c = at_ df y' c.
Proof. intros. unfold at_, set_row. cbn. by rewrite lookup_insert_ne. Qed.

Lemma has_row_new index columns y :
  y ∈ index → has_row (DataFrame_new index columns) y.
Proof.
  intros Hin. unfold has_row, DataFrame_new. cbn.
  destruct (list_to_map _ !! y) eqn:E; [done|].
  apply not_elem_of_list_to_map_2 in E. exfalso. apply E.
  rewrite <- list_fmap_compose. by rewrite list_fmap_id.
Qed.

Lemma has_row_set_column c v df y :
  has_row df y → has_row (set_column c v df) y.
Proof.
  unfold has_row, set_column. cbn. rewrite lookup_fmap.
  intros [r ->]. done.
Qed.

Lemma at_set_column_eq c v df y :
  has_row df y → at_ (set_column c v df) y c = Some v.
Proof.
  unfold has_row, at_, set_column. cbn. rewrite lookup_fmap.
  intros [r ->]. cbn. apply lookup_insert_eq.
Qed.

Lemma at_set_column_ne c c' v df y :
  c ≠ c' → at_ (set_column c v df) y c' = at_ df y c'.
Proof.
  intros Hne. unfold at_, set_column. cbn. rewrite lookup_fmap.
  destruct (df_rows df !! y); cbn; [|done]. by rewrite lookup_insert_ne.
Qed.

Lemma index_set_column c v df : df_index (set_column c v df) = df_index df.
Proof. done. Qed.

Lemma columns_set_column c v df :
  c ∈ df_columns df → df_columns (set_column c v df) = df_columns df.
Proof. intros. unfold set_column. cbn. by rewrite bool_decide_eq_true_2. Qed.

(** Rows built by position, as [set_column_values] builds them. *)
Lemma lookup_rows_by_position {A} (g : Z → A → gmap string float)
    (index : list Z) (values : list A) i y v :
  NoDup index → index !! i = Some y → values !! i = Some v →
  (list_to_map (zip_with (λ y v, (y, g y v)) index values)
     : gmap Z (gmap string float)) !! y = Some (g y v).
Proof.
  revert values i. induction index as [|y0 index IH]; intros values i Hnd Hy Hv; [done|].
  destruct values as [|v0 values]; [by destruct i|].
  apply NoDup_cons in Hnd as [Hnotin Hnd]. cbn [zip_with list_to_map foldr].
  destruct i as [|i]; simplify_eq/=.
  - apply lookup_insert_eq.
  - rewrite lookup_insert_ne.
    + by eapply IH.
    + intros ->. apply Hnotin. by eapply list_elem_of_lookup_2.
Qed.

Lemma set_column_values_Ok c values df :
  length values = length (df_index df) →
  ∃ df', set_column_values c values df = Ok df'
    ∧ df_index df' = df_index df
    ∧ (c ∈ df_columns df → df_columns df' = df_columns df)
    ∧ ∀ i y v, NoDup (df_index df) → df_index df !! i = Some y →
        values !! i = Some v →
        has_row df' y ∧ at_ df' y c = Some v.
Proof.
  intros Hlen. unfold set_column_values.
  rewrite bool_decide_eq_true_2 by done.
  eexists. split; [reflexivity|]. cbn. split; [done|]. split.
  - intros. by rewrite bool_decide_eq_true_2.
  - intros i y v Hnd Hy Hv. unfold has_row, at_. cbn.
    rewrite (lookup_rows_by_position
               (λ y v, <[c := v]> (default ∅ (df_rows df !! y))) _ _ i y v)
      by done.
    split; [done|]. cbn. apply lookup_insert_eq.
Qed.

Lemma set_row_of_NoDup index y s df :
  NoDup index → set_row_of index y s df = Ok (set_row y s df).
Proof.
  intros Hnd. unfold set_row_of, is_unique.
  by rewrite (bool_decide_eq_true_2 (NoDup index)).
Qed.

Lemma set_row_of_repeated index y s df :
  ¬ NoDup index →
  set_row_of index y s df
  = Raise (ValueError "cannot reindex on an axis with duplicate labels").
Proof.
  intros Hnd. unfold set_row_of, is_unique.
  by rewrite (bool_decide_eq_false_2 (NoDup index)).
Qed.

Lemma set_row_of_Ok index y s df df' :
  set_row_of index y s df = Ok df' → NoDup index ∧ df' = set_row y s df.
Proof.
  unfold set_row_of, is_unique. case_bool_decide; [|done].
  by intros [= <-].
Qed.

Lemma elem_of_years (y : Z) :
  (2015 ≤ y ≤ 2060)%Z → ∃ i : nat, emissionsfactors.years !! i = Some y.
Proof.
  intros Hy. apply list_elem_of_lookup_1. unfold emissionsfactors.years.
  apply elem_of_seqZ. lia.
Qed.

End pandas_facts.

(** ** Properties of the emissions-factor engine *)

Module emissionsfactors_spec.
Import emissionsfactors pandas_facts.

(** The synonyms in the hypotheses, lower-cased once and for all. *)
Ltac lower_literals :=
  unfold caseless_eq in *;
  repeat match goal with
  | H : context [lower (String ?c ?s)] |- _ =>
      let v := eval vm_compute in (lower (String c s)) in
      change (lower (String c s)) with v in H
  end.

Ltac refute_eqb :=
  repeat match goal with
  | |- context [(lower ?t =? ?lit)%string] =>
      rewrite (proj2 (String.eqb_neq (lower t) lit)) by assumption
  end.

(** One column of a frame that a chain of scalar column assignments built. *)
Ltac assigned_column :=
  cbv zeta;
  repeat (rewrite at_set_column_ne by discriminate);
  rewrite at_set_column_eq;
  [reflexivity | repeat apply has_row_set_column; auto].

Lemma Year_values :
  Year <$> _world_ipcc = years ∧ Year <$> _world_meta_1 = years
  ∧ Year <$> _world_meta_2 = years.
Proof. repeat split; vm_compute; reflexivity. Qed.

Lemma NoDup_years : NoDup years.
Proof. apply NoDup_seqZ. Qed.

Lemma selected_grid_embedded self grid :
  selected_grid self = Some grid → embedded grid.
Proof.
  unfold selected_grid, embedded. intros H.
  repeat case_match; simplify_eq; auto.
Qed.

Lemma embedded_years grid i row :
  embedded grid → grid !! i = Some row → years !! i = Some (Year row).
Proof.
  intros Hg Hrow.
  assert (Year <$> grid = years) as <-.
  { destruct Year_values as (? & ? & ?). by destruct Hg as [-> | [-> | ->]]. }
  by rewrite list_lookup_fmap, Hrow.
Qed.

Lemma embedded_length grid : embedded grid → length grid = length years.
Proof. by intros [-> | [-> | ->]]. Qed.

(** Assigning a column of an embedded dataset to World. *)
Lemma World_assigned (sub : world_row → float) grid :
  embedded grid →
  ∃ df, set_column_values "World" (sub <$> grid)
          (DataFrame_new years region_columns) = Ok df
    ∧ df_index df = years
    ∧ df_columns df = region_columns
    ∧ (∀ y, (2015 ≤ y ≤ 2060)%Z → has_row df y)
    ∧ (∀ row, row ∈ grid → at_ df (Year row) "World" = Some (sub row)).
Proof.
  intros Hg.
  destruct (set_column_values_Ok "World" (sub <$> grid)
              (DataFrame_new years region_columns)) as (df & E & Hi & Hc & Hat).
  { rewrite length_fmap. by apply embedded_length. }
  exists df. split; [done|]. split; [done|]. split.
  { apply Hc. apply list_elem_of_here. }
  split.
  - intros y Hy. destruct (elem_of_years y Hy) as [i Hi'].
    destruct (lookup_lt_is_Some_2 (sub <$> grid) i) as [v Hv].
    { rewrite length_fmap, (embedded_length grid Hg).
      by eapply lookup_lt_Some. }
    by destruct (Hat i y v NoDup_years Hi' Hv).
  - intros row [i Hrow]%list_elem_of_lookup_1.
    apply (Hat i (Year row) (sub row) NoDup_years).
    + by eapply embedded_years.
    + by rewrite list_lookup_fmap, Hrow.
Qed.

(** What a returned CO2-eq table is made of. *)
Lemma conv_ref_grid_CO2eq_per_KWh_Ok self df :
  conv_ref_grid_CO2eq_per_KWh self = Ok df →
  ∃ grid rng (sub : world_row → float) df0,
    selected_grid self = Some grid
    ∧ emissions_grid_range (ac self) = PyMember rng
    ∧ sub = match rng with MEAN => medium | HIGH => high | LOW => low end
    ∧ set_column_values "World" (sub <$> grid)
        (DataFrame_new years region_columns) = Ok df0
    ∧ df = fill_regions_CO2eq df0.
Proof.
  unfold conv_ref_grid_CO2eq_per_KWh. intros H.
  destruct (emissions_grid_range (ac self)) as [|rng|t r] eqn:Er;
    [done| |done].
  destruct (selected_grid self) as [grid|] eqn:Eg; [|by destruct rng].
  destruct rng; cbn in H;
    repeat (first [ rewrite bool_decide_eq_true_2 in H by done
                  | rewrite bool_decide_eq_false_2 in H by done ]);
    match type of H with
    | context [set_column_values ?c (?sub <$> _) ?d] =>
        destruct (set_column_values c (sub <$> grid) d) as [df0|e] eqn:E;
        [|done]; cbn in H; simplify_eq;
        eexists grid, _, sub, df0; done
    end.
Qed.

(** A range that is no member of GRID_RANGE reaches the final [else]. *)
Lemma range_not_member_raises (self : ElectricityGenOnGrid) :
  (∀ rng, emissions_grid_range (ac self) ≠ PyMember rng) →
  conv_ref_grid_CO2eq_per_KWh self
    = Raise (ValueError ("Invalid ac.emissions_grid_range "
                         ++ py_str (emissions_grid_range (ac self)))).
Proof.
  intros Hother. unfold conv_ref_grid_CO2eq_per_KWh.
  destruct (emissions_grid_range (ac self)) as [|rng|t r]; [done| |done].
  by destruct (Hother rng).
Qed.

(** C3: CO2Equiv built with AR5_WITH_FEEDBACK has the CH4 multiplier 34 and
    the N2O multiplier 298, with AR4 it has 25 and 298, with SAR 21 and 310;
    built with no conversion source it takes AR5_WITH_FEEDBACK and is the
    object an explicit AR5_WITH_FEEDBACK gives. *)
Theorem CO2Equiv_multipliers :
  CO2Equiv__init__ (PyMember AR5_WITH_FEEDBACK)
    = Ok {| conversion_source := PyMember AR5_WITH_FEEDBACK;
            CH4multiplier := 34; N2Omultiplier := 298 |}
  ∧ CO2Equiv__init__ (PyMember AR4)
    = Ok {| conversion_source := PyMember AR4;
            CH4multiplier := 25; N2Omultiplier := 298 |}
  ∧ CO2Equiv__init__ (PyMember SAR)
    = Ok {| conversion_source := PyMember SAR;
            CH4multiplier := 21; N2Omultiplier := 310 |}
  ∧ CO2Equiv__init__ PyNone = CO2Equiv__init__ (PyMember AR5_WITH_FEEDBACK).
Proof. repeat split. Qed.

(** C5: every text that equals an accepted synonym up to letter case is
    parsed to the member of that synonym, so all synonyms of one member
    give the identical member: "AR5 with feedback" and "AR5_with_feedback"
    give AR5_WITH_FEEDBACK, "AR4" AR4 and "SAR" SAR; "Meta-Analysis",
    "Meta_Analysis" and "Meta Analysis" give META, "IPCC Only" and
    "IPCC_Only" IPCC; "Mean" and "Median" give MEAN, "High" HIGH and
    "Low" LOW. *)
Theorem synonyms_parse_caselessly (text : string) :
  (caseless_eq text "AR5 with feedback" ∨ caseless_eq text "AR5_with_feedback" →
     string_to_conversion_source text = Ok AR5_WITH_FEEDBACK)
  ∧ (caseless_eq text "AR4" → string_to_conversion_source text = Ok AR4)
  ∧ (caseless_eq text "SAR" → string_to_conversion_source text = Ok SAR)
  ∧ (caseless_eq text "Meta-Analysis" ∨ caseless_eq text "Meta_Analysis"
     ∨ caseless_eq text "Meta Analysis" →
     string_to_emissions_grid_source text = Ok META)
  ∧ (caseless_eq text "IPCC Only" ∨ caseless_eq text "IPCC_Only" →
     string_to_emissions_grid_source text = Ok IPCC)
  ∧ (caseless_eq text "Mean" ∨ caseless_eq text "Median" →
     string_to_emissions_grid_range text = Ok MEAN)
  ∧ (caseless_eq text "High" → string_to_emissions_grid_range text = Ok HIGH)
  ∧ (caseless_eq text "Low" → string_to_emissions_grid_range text = Ok LOW).
Proof.
  unfold string_to_conversion_source, string_to_emissions_grid_source,
    string_to_emissions_grid_range.
  repeat split; intros H; repeat destruct H as [H|H];
    lower_literals; rewrite H; reflexivity.
Qed.

(** C6: a text that equals none of the accepted synonyms up to letter case
    makes each of the three parsers raise the ValueError that carries the
    text; no member is returned. *)
Theorem unknown_text_is_refused (text : string) :
  (¬ caseless_eq text "AR5 with feedback" →
   ¬ caseless_eq text "AR5_with_feedback" →
   ¬ caseless_eq text "AR4" → ¬ caseless_eq text "SAR" →
     string_to_conversion_source text
       = Raise (ValueError ("invalid conversion name=" ++ text)))
  ∧ (¬ caseless_eq text "Meta-Analysis" → ¬ caseless_eq text "Meta_Analysis" →
     ¬ caseless_eq text "Meta Analysis" → ¬ caseless_eq text "IPCC Only" →
     ¬ caseless_eq text "IPCC_Only" →
     string_to_emissions_grid_source text
       = Raise (ValueError ("invalid grid source name=" ++ text)))
  ∧ (¬ caseless_eq text "Mean" → ¬ caseless_eq text "Median" →
     ¬ caseless_eq text "High" → ¬ caseless_eq text "Low" →
     string_to_emissions_grid_range text
       = Raise (ValueError ("invalid grid range name=" ++ text))).
Proof.
  unfold string_to_conversion_source, string_to_emissions_grid_source,
    string_to_emissions_grid_range.
  repeat split; intros; lower_literals; refute_eqb; reflexivity.
Qed.

(** C7: the CO2 table has the years 2015 to 2060 and the ten regions, and
    every column holds its reference scalar in every year, World
    0.484512031078339 and USA 0.594563066959381 among them, whatever the
    grid source, the grid range and the version of the object are. *)
Theorem conv_ref_grid_CO2_per_KWh_constant (self : ElectricityGenOnGrid) :
  let df := conv_ref_grid_CO2_per_KWh self in
  df_index df = seqZ 2015 46
  ∧ df_columns df
    = ["World"; "OECD90"; "Eastern Europe"; "Asia (Sans Japan)";
       "Middle East and Africa"; "Latin America"; "China"; "India"; "EU"; "USA"]
  ∧ (∀ y : Z, (2015 ≤ y ≤ 2060)%Z →
       at_ df y "World" = Some 0.484512031078339%float
       ∧ at_ df y "OECD90" = Some 0.392126590013504%float
       ∧ at_ df y "Eastern Europe" = Some 0.659977316856384%float
       ∧ at_ df y "Asia (Sans Japan)" = Some 0.385555833578110%float
       ∧ at_ df y "Middle East and Africa" = Some 0.185499981045723%float
       ∧ at_ df y "Latin America" = Some 0.491537630558014%float
       ∧ at_ df y "China" = Some 0.474730312824249%float
       ∧ at_ df y "India" = Some 0.725081980228424%float
       ∧ at_ df y "EU" = Some 0.297016531229019%float
       ∧ at_ df y "USA" = Some 0.594563066959381%float)
  ∧ (∀ other : ElectricityGenOnGrid, conv_ref_grid_CO2_per_KWh other = df).
Proof.
  cbv zeta. split; [reflexivity|]. split; [reflexivity|]. split; [|done].
  intros y Hy.
  assert (has_row (DataFrame_new years region_columns) y) as Hrow.
  { apply has_row_new, elem_of_seqZ. lia. }
  unfold conv_ref_grid_CO2_per_KWh. repeat split; assigned_column.
Qed.

(** C8: in every table [conv_ref_grid_CO2eq_per_KWh] returns, each of the
    nine regions other than World holds its one constant in every year from
    2015 to 2060, OECD90 0.454068989 and India 0.787832379 among them, so
    the value of 2015 is the value of 2060, whatever source, range and
    version selected the World column. *)
Theorem conv_ref_grid_CO2eq_per_KWh_regions (self : ElectricityGenOnGrid)
    (df : DataFrame) :
  conv_ref_grid_CO2eq_per_KWh self = Ok df →
  (∀ y : Z, (2015 ≤ y ≤ 2060)%Z →
     at_ df y "OECD90" = Some 0.454068989%float
     ∧ at_ df y "Eastern Europe" = Some 0.724747956%float
     ∧ at_ df y "Asia (Sans Japan)" = Some 0.457658947%float
     ∧ at_ df y "Middle East and Africa" = Some 0.282243907%float
     ∧ at_ df y "Latin America" = Some 0.564394712%float
     ∧ at_ df y "China" = Some 0.535962403%float
     ∧ at_ df y "India" = Some 0.787832379%float
     ∧ at_ df y "EU" = Some 0.360629290%float
     ∧ at_ df y "USA" = Some 0.665071666%float)
  ∧ (∀ region : string, region ∈ region_columns → region ≠ "World" →
       is_Some (at_ df 2015 region) ∧ at_ df 2015 region = at_ df 2060 region).
Proof.
  intros H.
  destruct (conv_ref_grid_CO2eq_per_KWh_Ok self df H)
    as (grid & rng & sub & df0 & Hg & _ & _ & Hset & ->).
  destruct (World_assigned sub grid (selected_grid_embedded _ _ Hg))
    as (df1 & Hset' & _ & _ & Hrows & _).
  rewrite Hset in Hset'. injection Hset' as <-.
  assert (∀ y : Z, (2015 ≤ y ≤ 2060)%Z →
     at_ (fill_regions_CO2eq df0) y "OECD90" = Some 0.454068989%float
     ∧ at_ (fill_regions_CO2eq df0) y "Eastern Europe" = Some 0.724747956%float
     ∧ at_ (fill_regions_CO2eq df0) y "Asia (Sans Japan)" = Some 0.457658947%float
     ∧ at_ (fill_regions_CO2eq df0) y "Middle East and Africa" = Some 0.282243907%float
     ∧ at_ (fill_regions_CO2eq df0) y "Latin America" = Some 0.564394712%float
     ∧ at_ (fill_regions_CO2eq df0) y "China" = Some 0.535962403%float
     ∧ at_ (fill_regions_CO2eq df0) y "India" = Some 0.787832379%float
     ∧ at_ (fill_regions_CO2eq df0) y "EU" = Some 0.360629290%float
     ∧ at_ (fill_regions_CO2eq df0) y "USA" = Some 0.665071666%float) as Hall.
  { intros y Hy. specialize (Hrows y Hy).
    unfold fill_regions_CO2eq. repeat split; assigned_column. }
  split; [exact Hall|].
  intros region Hin Hne.
  destruct (Hall 2015 ltac:(lia)) as (?&?&?&?&?&?&?&?&?).
  destruct (Hall 2060 ltac:(lia)) as (?&?&?&?&?&?&?&?&?).
  unfold region_columns in Hin.
  repeat (apply elem_of_cons in Hin as [-> | Hin];
          [first [done | split; [eauto | congruence]]|]).
  by apply elem_of_nil in Hin.
Qed.

(** With a selected dataset and a range that is a member, the table is
    returned and its World column is the dataset's column of that range. *)
Lemma World_from_selected_grid (self : ElectricityGenOnGrid)
    (grid : list world_row) (rng : GRID_RANGE) :
  (emissions_grid_source (ac self) = PyMember IPCC ∧ grid = _world_ipcc)
  ∨ (emissions_grid_source (ac self) = PyMember META
     ∧ grid_emissions_version self = 1 ∧ grid = _world_meta_1)
  ∨ (emissions_grid_source (ac self) = PyMember META
     ∧ grid_emissions_version self = 2 ∧ grid = _world_meta_2) →
  emissions_grid_range (ac self) = PyMember rng →
  ∃ df, conv_ref_grid_CO2eq_per_KWh self = Ok df
    ∧ Year <$> grid = seqZ 2015 46
    ∧ ∀ row, row ∈ grid →
        at_ df (Year row) "World"
          = Some (match rng with
                  | MEAN => medium row
                  | HIGH => high row
                  | LOW => low row
                  end).
Proof.
  intros Hsel Hrng.
  assert (selected_grid self = Some grid) as Hg.
  { unfold selected_grid.
    destruct Hsel as [[-> ->] | [(-> & -> & ->) | (-> & -> & ->)]]; done. }
  pose proof (selected_grid_embedded _ _ Hg) as Hemb.
  destruct (World_assigned
              (match rng with MEAN => medium | HIGH => high | LOW => low end)
              grid Hemb) as (df0 & Hset & _ & _ & _ & Hat).
  exists (fill_regions_CO2eq df0). split; [|split].
  - unfold conv_ref_grid_CO2eq_per_KWh. rewrite Hrng, Hg.
    destruct rng; cbn;
      repeat (first [ rewrite bool_decide_eq_true_2 by done
                    | rewrite bool_decide_eq_false_2 by done ]);
      cbn; rewrite Hset; reflexivity.
  - destruct Year_values as (? & ? & ?).
    by destruct Hemb as [-> | [-> | ->]].
  - intros row Hrow. unfold fill_regions_CO2eq. cbv zeta.
    repeat (rewrite at_set_column_ne by discriminate).
    rewrite (Hat row Hrow). by destruct rng.
Qed.

(** C2: the World column comes from the dataset that source and version
    select (IPCC whatever the version, META with version 1, META with
    version 2), one value per year of the dataset, from the column the
    range selects: medium for MEAN, high for HIGH, low for LOW. A range
    that is no member of GRID_RANGE raises the ValueError for an invalid
    range. With IPCC and MEAN the World value of 2015 is 0.484233480,
    within 1e-9, and that of 2060 is 0.462020537; with META, HIGH and
    version 1 the World value of 2015 is 0.726805942. *)
Theorem conv_ref_grid_CO2eq_per_KWh_World :
  (∀ (self : ElectricityGenOnGrid) (grid : list world_row) (rng : GRID_RANGE),
     (emissions_grid_source (ac self) = PyMember IPCC ∧ grid = _world_ipcc)
     ∨ (emissions_grid_source (ac self) = PyMember META
        ∧ grid_emissions_version self = 1 ∧ grid = _world_meta_1)
     ∨ (emissions_grid_source (ac self) = PyMember META
        ∧ grid_emissions_version self = 2 ∧ grid = _world_meta_2) →
     emissions_grid_range (ac self) = PyMember rng →
     ∃ df, conv_ref_grid_CO2eq_per_KWh self = Ok df
       ∧ Year <$> grid = seqZ 2015 46
       ∧ ∀ row, row ∈ grid →
           at_ df (Year row) "World"
             = Some (match rng with
                     | MEAN => medium row
                     | HIGH => high row
                     | LOW => low row
                     end))
  ∧ (∀ self : ElectricityGenOnGrid,
       (∀ rng, emissions_grid_range (ac self) ≠ PyMember rng) →
       conv_ref_grid_CO2eq_per_KWh self
         = Raise (ValueError ("Invalid ac.emissions_grid_range "
                              ++ py_str (emissions_grid_range (ac self)))))
  ∧ (∀ version : Z,
       ∃ df, conv_ref_grid_CO2eq_per_KWh
               {| ac := {| emissions_grid_source := PyMember IPCC;
                           emissions_grid_range := PyMember MEAN |};
                  grid_emissions_version := version |} = Ok df
         ∧ at_ df 2015 "World" = Some 0.484233480%float
         ∧ (∀ x, at_ df 2015 "World" = Some x → within 1e-9 x 0.484233480 = true)
         ∧ at_ df 2060 "World" = Some 0.462020537%float)
  ∧ (∃ df, conv_ref_grid_CO2eq_per_KWh
             {| ac := {| emissions_grid_source := PyMember META;
                         emissions_grid_range := PyMember HIGH |};
                grid_emissions_version := 1 |} = Ok df
       ∧ at_ df 2015 "World" = Some 0.726805942%float).
Proof.
  pose proof World_from_selected_grid as General.
  split; [exact General|]. split; [|split].
  - apply range_not_member_raises.
  - intros version.
    destruct (General
                {| ac := {| emissions_grid_source := PyMember IPCC;
                            emissions_grid_range := PyMember MEAN |};
                   grid_emissions_version := version |} _world_ipcc MEAN)
      as (df & Hdf & _ & Hat); [by left | done |].
    assert (at_ df 2015 "World" = Some 0.484233480%float) as H2015.
    { apply (Hat (WorldRow 2015 0.484233480 0.954301231 0.415714612)).
      apply list_elem_of_here. }
    exists df. split; [done|]. split; [done|]. split.
    + intros x Hx. rewrite H2015 in Hx. by injection Hx as <-.
    + apply (Hat (WorldRow 2060 0.462020537 0.930512637 0.400404559)).
      by apply (list_elem_of_lookup_2 _ 45%nat).
  - destruct (General
                {| ac := {| emissions_grid_source := PyMember META;
                            emissions_grid_range := PyMember HIGH |};
                   grid_emissions_version := 1 |} _world_meta_1 HIGH)
      as (df & Hdf & _ & Hat); [right; by left | done |].
    exists df. split; [done|].
    apply (Hat (WorldRow 2015 0.580491641 0.726805942 0.444419682)).
    apply list_elem_of_here.
Qed.

(** C10, as the code has it: when the source is META with a version other
    than 1 and 2, or is no member of GRID_SOURCE, no branch assigns [grid].
    With a range that is a member of GRID_RANGE the function then raises the
    unbound-local error for [grid]; with a range that is no member it never
    reads [grid] and raises the ValueError for an invalid range. *)
Theorem unselected_grid_fails (self : ElectricityGenOnGrid) :
  (emissions_grid_source (ac self) = PyMember META
   ∧ grid_emissions_version self ≠ 1 ∧ grid_emissions_version self ≠ 2)
  ∨ (∀ source, emissions_grid_source (ac self) ≠ PyMember source) →
  selected_grid self = None
  ∧ (∀ rng, emissions_grid_range (ac self) = PyMember rng →
       conv_ref_grid_CO2eq_per_KWh self = Raise (UnboundLocalError "grid"))
  ∧ ((∀ rng, emissions_grid_range (ac self) ≠ PyMember rng) →
       conv_ref_grid_CO2eq_per_KWh self
         = Raise (ValueError ("Invalid ac.emissions_grid_range "
                              ++ py_str (emissions_grid_range (ac self))))).
Proof.
  intros Hsel.
  assert (selected_grid self = None) as Hg.
  { unfold selected_grid. destruct Hsel as [(-> & H1 & H2) | Hno].
    - unfold py_eq.
      rewrite (bool_decide_eq_false_2 (grid_emissions_version self = 1)) by done.
      rewrite (bool_decide_eq_false_2 (grid_emissions_version self = 2)) by done.
      by rewrite !andb_false_r.
    - destruct (emissions_grid_source (ac self)) as [|source|t r]; [done| |done].
      by destruct (Hno source). }
  split; [done|]. split.
  - intros rng Hrng. unfold conv_ref_grid_CO2eq_per_KWh. rewrite Hrng, Hg.
    by destruct rng.
  - apply range_not_member_raises.
Qed.

(** C10 as stated fails where the range is no member either: with META,
    version 3 and no range, [grid] is unassigned and the function raises
    the ValueError for an invalid range, not the unbound-local error. *)
Lemma unselected_grid_invalid_range :
  selected_grid {| ac := {| emissions_grid_source := PyMember META;
                            emissions_grid_range := PyNone |};
                   grid_emissions_version := 3 |} = None
  ∧ conv_ref_grid_CO2eq_per_KWh
      {| ac := {| emissions_grid_source := PyMember META;
                  emissions_grid_range := PyNone |};
         grid_emissions_version := 3 |}
    = Raise (ValueError "Invalid ac.emissions_grid_range None")
  ∧ conv_ref_grid_CO2eq_per_KWh
      {| ac := {| emissions_grid_source := PyMember META;
                  emissions_grid_range := PyNone |};
         grid_emissions_version := 3 |}
    ≠ Raise (UnboundLocalError "grid").
Proof.
  assert (conv_ref_grid_CO2eq_per_KWh
            {| ac := {| emissions_grid_source := PyMember META;
                        emissions_grid_range := PyNone |};
               grid_emissions_version := 3 |}
          = Raise (ValueError "Invalid ac.emissions_grid_range None")) as E
    by (vm_compute; reflexivity).
  split; [vm_compute; reflexivity|]. split; [exact E|].
  rewrite E. discriminate.
Qed.

(** *** The theorems at concrete inputs *)

Lemma synonyms_parse_caselessly_witness :
  string_to_conversion_source "ar5 WITH Feedback" = Ok AR5_WITH_FEEDBACK
  ∧ string_to_conversion_source "AR5_with_feedback" = Ok AR5_WITH_FEEDBACK
  ∧ string_to_conversion_source "Ar4" = Ok AR4
  ∧ string_to_conversion_source "SAR" = Ok SAR
  ∧ string_to_emissions_grid_source "Meta-Analysis" = Ok META
  ∧ string_to_emissions_grid_source "META_ANALYSIS" = Ok META
  ∧ string_to_emissions_grid_source "meta analysis" = Ok META
  ∧ string_to_emissions_grid_source "IPCC Only" = Ok IPCC
  ∧ string_to_emissions_grid_source "ipcc_only" = Ok IPCC
  ∧ string_to_emissions_grid_range "Mean" = Ok MEAN
  ∧ string_to_emissions_grid_range "MEDIAN" = Ok MEAN
  ∧ string_to_emissions_grid_range "High" = Ok HIGH
  ∧ string_to_emissions_grid_range "low" = Ok LOW.
Proof.
  repeat apply conj.
  - apply (proj1 (synonyms_parse_caselessly "ar5 WITH Feedback")).
    left. reflexivity.
  - apply (proj1 (synonyms_parse_caselessly "AR5_with_feedback")).
    right. reflexivity.
  - apply (synonyms_parse_caselessly "Ar4"). reflexivity.
  - apply (synonyms_parse_caselessly "SAR"). reflexivity.
  - apply (synonyms_parse_caselessly "Meta-Analysis"). left. reflexivity.
  - apply (synonyms_parse_caselessly "META_ANALYSIS"). right. left. reflexivity.
  - apply (synonyms_parse_caselessly "meta analysis"). right. right. reflexivity.
  - apply (synonyms_parse_caselessly "IPCC Only"). left. reflexivity.
  - apply (synonyms_parse_caselessly "ipcc_only"). right. reflexivity.
  - apply (synonyms_parse_caselessly "Mean"). left. reflexivity.
  - apply (synonyms_parse_caselessly "MEDIAN"). right. reflexivity.
  - apply (synonyms_parse_caselessly "High"). reflexivity.
  - apply (synonyms_parse_caselessly "low"). reflexivity.
Defined.

Lemma unknown_text_is_refused_witness :
  string_to_conversion_source "AR6"
    = Raise (ValueError "invalid conversion name=AR6")
  ∧ string_to_emissions_grid_source "bogus"
    = Raise (ValueError "invalid grid source name=bogus")
  ∧ string_to_emissions_grid_range "bogus"
    = Raise (ValueError "invalid grid range name=bogus").
Proof.
  repeat apply conj.
  - apply (unknown_text_is_refused "AR6"); unfold caseless_eq; discriminate.
  - apply (unknown_text_is_refused "bogus"); unfold caseless_eq; discriminate.
  - apply (unknown_text_is_refused "bogus"); unfold caseless_eq; discriminate.
Defined.

Lemma conv_ref_grid_CO2_per_KWh_constant_witness :
  (2015 ≤ 2030 ≤ 2060)%Z
  ∧ at_ (conv_ref_grid_CO2_per_KWh
           {| ac := {| emissions_grid_source := PyMember IPCC;
                       emissions_grid_range := PyMember LOW |};
              grid_emissions_version := 2 |}) 2030 "USA"
    = Some 0.594563066959381%float.
Proof.
  split; [lia|].
  apply (conv_ref_grid_CO2_per_KWh_constant
           {| ac := {| emissions_grid_source := PyMember IPCC;
                       emissions_grid_range := PyMember LOW |};
              grid_emissions_version := 2 |}). lia.
Defined.

Lemma conv_ref_grid_CO2eq_per_KWh_regions_witness :
  ∃ df, conv_ref_grid_CO2eq_per_KWh
          {| ac := {| emissions_grid_source := PyMember META;
                      emissions_grid_range := PyMember LOW |};
             grid_emissions_version := 2 |} = Ok df
    ∧ at_ df 2015 "India" = Some 0.787832379%float
    ∧ at_ df 2015 "India" = at_ df 2060 "India".
Proof.
  destruct (World_from_selected_grid
              {| ac := {| emissions_grid_source := PyMember META;
                          emissions_grid_range := PyMember LOW |};
                 grid_emissions_version := 2 |} _world_meta_2 LOW)
    as (df & Hdf & _).
  - right. right. repeat apply conj; reflexivity.
  - reflexivity.
  - exists df. split; [exact Hdf|].
    destruct (conv_ref_grid_CO2eq_per_KWh_regions _ df Hdf) as [Hall Hsame].
    split.
    + apply (Hall 2015). lia.
    + apply Hsame; [|discriminate].
      do 7 apply list_elem_of_further. apply list_elem_of_here.
Defined.

Lemma conv_ref_grid_CO2eq_per_KWh_World_witness :
  ∃ df, conv_ref_grid_CO2eq_per_KWh
          {| ac := {| emissions_grid_source := PyMember META;
                      emissions_grid_range := PyMember LOW |};
             grid_emissions_version := 2 |} = Ok df
    ∧ at_ df 2016 "World" = Some 0.441324423346894%float.
Proof.
  destruct (proj1 conv_ref_grid_CO2eq_per_KWh_World
              {| ac := {| emissions_grid_source := PyMember META;
                          emissions_grid_range := PyMember LOW |};
                 grid_emissions_version := 2 |} _world_meta_2 LOW)
    as (df & Hdf & _ & Hat).
  - right. right. repeat split.
  - reflexivity.
  - exists df. split; [exact Hdf|].
    apply (Hat (WorldRow 2016 0.613223327855322 0.827419241197181
                  0.441324423346894)).
    apply list_elem_of_further, list_elem_of_here.
Defined.

Lemma unselected_grid_fails_witness :
  conv_ref_grid_CO2eq_per_KWh
    {| ac := {| emissions_grid_source := PyMember META;
                emissions_grid_range := PyMember MEAN |};
       grid_emissions_version := 3 |} = Raise (UnboundLocalError "grid").
Proof.
  apply (unselected_grid_fails
           {| ac := {| emissions_grid_source := PyMember META;
                       emissions_grid_range := PyMember MEAN |};
              grid_emissions_version := 3 |}) with (rng := MEAN).
  - left. repeat split; discriminate.
  - reflexivity.
Defined.

End emissionsfactors_spec.

(** ** Properties of the Nuclear pipeline *)

Module nuclear_spec.
Import nuclear pandas_facts.

Lemma NoDup_REGIONS : NoDup REGIONS.
Proof. apply (bool_decide_unpack (NoDup REGIONS)). vm_compute. exact I. Qed.

Lemma initial_adoption_lookup region :
  region ∈ REGIONS →
  ∃ base, Series_new initial_adoption REGIONS !! region = Some base.
Proof.
  intros [i Hi]%list_elem_of_lookup_1.
  destruct (lookup_lt_is_Some_2 initial_adoption i) as [base Hbase].
  { apply lookup_lt_Some in Hi. exact Hi. }
  exists base. eapply lookup_Series_new; eauto using NoDup_REGIONS.
Qed.

(** *** Floats *)

Lemma isna_nan_to_zero x : isna (nan_to_zero x) = false.
Proof. unfold nan_to_zero. by destruct (isna x) eqn:E. Qed.

Lemma mul_zero_l (x y : float) :
  (x =? 0)%float = true →
  isna (x * y) = true ∨ (x * y =? 0)%float = true.
Proof.
  unfold isna, is_nan. rewrite !FloatAxioms.eqb_spec, FloatAxioms.mul_spec.
  change (Prim2SF 0) with (S754_zero false).
  destruct (Prim2SF x) as [sx|sx| |sx mx ex]; intros Hx;
    [ | by destruct sx | done | by destruct sx ].
  destruct (Prim2SF y) as [sy| | |sy my ey]; cbn; auto.
Qed.

Lemma nan_to_zero_mul_zero_l (x y : float) :
  (x =? 0)%float = true → (nan_to_zero (x * y) =? 0)%float = true.
Proof.
  intros Hx. unfold nan_to_zero.
  destruct (mul_zero_l x y Hx) as [-> | Hz]; [reflexivity|].
  by destruct (isna (x * y)).
Qed.

(** *** The two anchors of 2050, label by label *)

Lemma ref_anchor (ref_tam_2050 ref_tam_2014 : Series) region base :
  region ∈ REGIONS →
  Series_new initial_adoption REGIONS !! region = Some base →
  reindex REGIONS
    (fillna 0 (Series_mul ref_tam_2050
                 (Series_div (Series_new initial_adoption REGIONS) ref_tam_2014)))
    !! region
  = Some (nan_to_zero (get ref_tam_2050 region * (base / get ref_tam_2014 region))).
Proof.
  intros Hin Hbase. rewrite lookup_reindex by done. f_equal.
  unfold get at 1. rewrite lookup_fillna.
  unfold Series_mul, Series_div. rewrite !lookup_align, Hbase.
  unfold get, nan_to_zero.
  by destruct (ref_tam_2050 !! region), (ref_tam_2014 !! region).
Qed.

Lemma pds_anchor (percentages : list (string * float)) (pds_tam_2050 : Series)
    region pct :
  NoDup percentages.*1 → (region, pct) ∈ percentages → region ∈ REGIONS →
  reindex REGIONS
    (fillna 0 (Series_mul (Series_new percentages.*2 percentages.*1) pds_tam_2050))
    !! region
  = Some (nan_to_zero (pct * get pds_tam_2050 region)).
Proof.
  intros Hnd Hpct Hin. rewrite lookup_reindex by done. f_equal.
  assert (Series_new percentages.*2 percentages.*1 !! region = Some pct) as Hs.
  { unfold Series_new. rewrite zip_fst_snd. by apply elem_of_list_to_map_1. }
  unfold get at 1. rewrite lookup_fillna.
  unfold Series_mul. rewrite lookup_align, Hs.
  unfold get, nan_to_zero.
  by destruct (pds_tam_2050 !! region).
Qed.

Lemma built_ref_datapoints_2014 r2050 r2014 region base :
  region ∈ REGIONS →
  Series_new initial_adoption REGIONS !! region = Some base →
  at_ (built_ref_datapoints r2050 r2014) 2014 region = Some base.
Proof.
  intros Hin Hbase. unfold built_ref_datapoints.
  rewrite at_set_row_ne by done. rewrite at_set_row_eq.
  change (df_columns (DataFrame_new [] REGIONS)) with REGIONS.
  rewrite lookup_reindex by done. unfold get. by rewrite Hbase.
Qed.

Lemma built_ref_datapoints_2050 r2050 r2014 region base :
  region ∈ REGIONS →
  Series_new initial_adoption REGIONS !! region = Some base →
  at_ (built_ref_datapoints r2050 r2014) 2050 region
  = Some (nan_to_zero (get r2050 region * (base / get r2014 region))).
Proof.
  intros Hin Hbase. unfold built_ref_datapoints. rewrite at_set_row_eq.
  by apply ref_anchor.
Qed.

Lemma built_pds_datapoints_2050 percentages p2050 region pct :
  NoDup percentages.*1 → (region, pct) ∈ percentages → region ∈ REGIONS →
  at_ (built_pds_datapoints percentages p2050) 2050 region
  = Some (nan_to_zero (pct * get p2050 region)).
Proof.
  intros. unfold built_pds_datapoints. rewrite at_set_row_eq.
  by apply pds_anchor.
Qed.

(** *** Runs of the constructor *)

Ltac enter_init Hscs :=
  unfold Nuclear__init__, getitem; cbv zeta;
  simpl (default _ (Some _)); rewrite Hscs; cbn [mbind result_bind].

Lemma unzip_Ok {A B} (pairs : list (A * B)) :
  pairs ≠ [] → unzip pairs = Ok (pairs.*1, pairs.*2).
Proof. by destruct pairs. Qed.

(** Whatever the constructor returns has the anchors above. *)
Lemma Nuclear__init___Ok tam_TAM adoptiondata_AdoptionData
    customadoption_CustomAdoption scs scenario obj :
  Nuclear__init__ tam_TAM adoptiondata_AdoptionData
    customadoption_CustomAdoption scs scenario = Ok obj →
  ∃ r2050 r2014 p2050,
    tm obj = tam_TAM (ac obj)
    ∧ loc (ref_tam_per_region (tm obj)) 2050 = Ok r2050
    ∧ loc (ref_tam_per_region (tm obj)) 2014 = Ok r2014
    ∧ loc (pds_tam_per_region (tm obj)) 2050 = Ok p2050
    ∧ ref_datapoints (ht obj) = built_ref_datapoints r2050 r2014
    ∧ pds_datapoints (ht obj)
      = built_pds_datapoints (pds_adoption_final_percentage (ac obj)) p2050.
Proof.
  unfold Nuclear__init__, getitem. cbv zeta.
  destruct (scs !! _) as [ac0|]; [|done]. cbn [mbind result_bind].
  destruct (if (soln_pds_adoption_basis ac0 =? "Fully Customized PDS")%string
            then _ else _) as [[d t] s].
  destruct (loc (ref_tam_per_region (tam_TAM ac0)) 2050) as [r2050|] eqn:E1;
    [|done]. cbn [mbind result_bind].
  destruct (loc (ref_tam_per_region (tam_TAM ac0)) 2014) as [r2014|] eqn:E2;
    [|done]. cbn [mbind result_bind].
  destruct (pds_adoption_final_percentage ac0) as [|p ps] eqn:E3; [done|].
  cbn [unzip mbind result_bind].
  destruct (loc (pds_tam_per_region (tam_TAM ac0)) 2050) as [p2050|] eqn:E4;
    [|done]. cbn [mbind result_bind].
  destruct (set_row_of _ _ _ _) as [pds|] eqn:E5; [|done].
  apply set_row_of_Ok in E5 as [_ ->]. cbn [mbind result_bind].
  destruct d as [d|]; [|done]. destruct t as [t|]; [|done].
  destruct s as [s|]; [|done]. cbn [read_local mbind result_bind].
  intros [= <-]. cbn [tm ac ht ref_datapoints pds_datapoints].
  exists r2050, r2014, p2050. by rewrite E3.
Qed.

(** The constructor builds the helper tables only for final percentages
    that are labelled with distinct regions. *)
Lemma Nuclear__init___NoDup tam_TAM adoptiondata_AdoptionData
    customadoption_CustomAdoption scs scenario obj :
  Nuclear__init__ tam_TAM adoptiondata_AdoptionData
    customadoption_CustomAdoption scs scenario = Ok obj →
  NoDup (pds_adoption_final_percentage (ac obj)).*1.
Proof.
  unfold Nuclear__init__, getitem. cbv zeta.
  destruct (scs !! _) as [ac0|]; [|done]. cbn [mbind result_bind].
  destruct (if (soln_pds_adoption_basis ac0 =? "Fully Customized PDS")%string
            then _ else _) as [[d t] s].
  destruct (loc (ref_tam_per_region (tam_TAM ac0)) 2050); [|done].
  cbn [mbind result_bind].
  destruct (loc (ref_tam_per_region (tam_TAM ac0)) 2014); [|done].
  cbn [mbind result_bind].
  destruct (pds_adoption_final_percentage ac0) as [|p ps] eqn:E3; [done|].
  cbn [unzip mbind result_bind].
  destruct (loc (pds_tam_per_region (tam_TAM ac0)) 2050); [|done].
  cbn [mbind result_bind].
  destruct (set_row_of _ _ _ _) as [pds|] eqn:E5; [|done].
  apply set_row_of_Ok in E5 as [Hnd _]. cbn [mbind result_bind].
  destruct d as [d|]; [|done]. destruct t as [t|]; [|done].
  destruct s as [s|]; [|done]. cbn [read_local mbind result_bind].
  intros [= <-]. cbn [ac]. by rewrite E3.
Qed.

(** With a handled basis, market rows for 2014 and 2050 and at least one
    final percentage, nothing stops the constructor. *)
Lemma Nuclear__init___fully_customized tam_TAM adoptiondata_AdoptionData
    customadoption_CustomAdoption scs name ac0 :
  scs !! name = Some ac0 →
  soln_pds_adoption_basis ac0 = "Fully Customized PDS" →
  is_Some (df_rows (ref_tam_per_region (tam_TAM ac0)) !! 2014) →
  is_Some (df_rows (ref_tam_per_region (tam_TAM ac0)) !! 2050) →
  is_Some (df_rows (pds_tam_per_region (tam_TAM ac0)) !! 2050) →
  pds_adoption_final_percentage ac0 ≠ [] →
  NoDup (pds_adoption_final_percentage ac0).*1 →
  ∃ obj, Nuclear__init__ tam_TAM adoptiondata_AdoptionData
           customadoption_CustomAdoption scs (Some name) = Ok obj
    ∧ ac obj = ac0
    ∧ pds_ca obj = customadoption_CustomAdoption ca_pds_data_sources
                     (soln_pds_adoption_custom_name ac0)
                     (pds_tam_per_region (tam_TAM ac0))
    ∧ pds_adoption_data_per_region (ht obj)
      = ca_adoption_data_per_region (pds_ca obj)
    ∧ pds_adoption_trend_per_region (ht obj)
      = ca_adoption_trend_per_region (pds_ca obj)
    ∧ pds_adoption_is_single_source (ht obj) = None
    ∧ ∀ other_AdoptionData,
        ∃ obj', Nuclear__init__ tam_TAM other_AdoptionData
                  customadoption_CustomAdoption scs (Some name) = Ok obj'
          ∧ ht obj' = ht obj.
Proof.
  intros Hscs Hbasis [r2014 H2014] [r2050 H2050] [p2050 Hp] Hne Hnd.
  eexists. split; [|split; [|split; [|split; [|split; [|split]]]]].
  - enter_init Hscs. rewrite Hbasis, String.eqb_refl. cbv beta iota.
    unfold loc. rewrite H2050, H2014, Hp. cbn [mbind result_bind].
    rewrite (unzip_Ok _ Hne). cbn [mbind result_bind].
    rewrite (set_row_of_NoDup _ _ _ _ Hnd). cbn [mbind result_bind read_local].
    reflexivity.
  - reflexivity.
  - reflexivity.
  - reflexivity.
  - reflexivity.
  - reflexivity.
  - intros other. eexists. split.
    + enter_init Hscs. rewrite Hbasis, String.eqb_refl. cbv beta iota.
      unfold loc. rewrite H2050, H2014, Hp. cbn [mbind result_bind].
      rewrite (unzip_Ok _ Hne). cbn [mbind result_bind].
      rewrite (set_row_of_NoDup _ _ _ _ Hnd).
      cbn [mbind result_bind read_local].
      reflexivity.
    + reflexivity.
Qed.

Lemma Nuclear__init___prognostications tam_TAM adoptiondata_AdoptionData
    customadoption_CustomAdoption scs name ac0 :
  scs !! name = Some ac0 →
  soln_pds_adoption_basis ac0 = "Existing Adoption Prognostications" →
  is_Some (df_rows (ref_tam_per_region (tam_TAM ac0)) !! 2014) →
  is_Some (df_rows (ref_tam_per_region (tam_TAM ac0)) !! 2050) →
  is_Some (df_rows (pds_tam_per_region (tam_TAM ac0)) !! 2050) →
  pds_adoption_final_percentage ac0 ≠ [] →
  NoDup (pds_adoption_final_percentage ac0).*1 →
  ∃ obj, Nuclear__init__ tam_TAM adoptiondata_AdoptionData
           customadoption_CustomAdoption scs (Some name) = Ok obj
    ∧ ac obj = ac0
    ∧ pds_adoption_data_per_region (ht obj)
      = ad_adoption_data_per_region (adoptiondata_AdoptionData ac0)
    ∧ pds_adoption_is_single_source (ht obj)
      = Some (ad_adoption_is_single_source (adoptiondata_AdoptionData ac0)).
Proof.
  intros Hscs Hbasis [r2014 H2014] [r2050 H2050] [p2050 Hp] Hne Hnd.
  eexists. split; [|split; [|split]].
  - enter_init Hscs. rewrite Hbasis.
    change (("Existing Adoption Prognostications" =? "Fully Customized PDS")%string)
      with false.
    rewrite String.eqb_refl. cbv beta iota.
    unfold loc. rewrite H2050, H2014, Hp. cbn [mbind result_bind].
    rewrite (unzip_Ok _ Hne). cbn [mbind result_bind].
    rewrite (set_row_of_NoDup _ _ _ _ Hnd). cbn [mbind result_bind read_local].
    reflexivity.
  - reflexivity.
  - reflexivity.
  - reflexivity.
Qed.

(** The frames the evaluation collaborators give have both rows. *)
Lemma two_year_table_2014 a b :
  is_Some (df_rows (two_year_table a b) !! 2014).
Proof.
  unfold two_year_table, set_row. cbn [df_rows].
  rewrite lookup_insert_ne by done. rewrite lookup_insert_eq. by eexists.
Qed.

Lemma two_year_table_2050 a b :
  is_Some (df_rows (two_year_table a b) !! 2050).
Proof.
  unfold two_year_table, set_row. cbn [df_rows].
  rewrite lookup_insert_eq. by eexists.
Qed.

(** *** The adoption stages *)

(** C1: for a scenario whose PDS adoption basis is "Fully Customized PDS",
    the constructor takes the adoption data and the trend from the custom
    adoption [pds_ca] (the helper tables are the same whatever the
    prognostication collaborator is), sets the single-source flag to None,
    and sets the PDS anchor of 2050 of every region to the region's final
    percentage times the region's PDS market of 2050, 0.0 where that
    product is NaN. The market frames have their rows of 2014 and 2050 and
    the configuration labels its percentages with distinct regions. *)
Theorem fully_customized_pds
    (tam_TAM : AdvancedControls → TAM)
    (adoptiondata_AdoptionData : AdvancedControls → AdoptionData)
    (customadoption_CustomAdoption :
       list data_source → option string → DataFrame → CustomAdoption)
    (scs : gmap string AdvancedControls) (name : string)
    (ac0 : AdvancedControls) (pds_tam_2050 : Series) :
  scs !! name = Some ac0 →
  soln_pds_adoption_basis ac0 = "Fully Customized PDS" →
  is_Some (df_rows (ref_tam_per_region (tam_TAM ac0)) !! 2014) →
  is_Some (df_rows (ref_tam_per_region (tam_TAM ac0)) !! 2050) →
  loc (pds_tam_per_region (tam_TAM ac0)) 2050 = Ok pds_tam_2050 →
  NoDup (pds_adoption_final_percentage ac0).*1 →
  pds_adoption_final_percentage ac0 ≠ [] →
  ∃ obj, Nuclear__init__ tam_TAM adoptiondata_AdoptionData
           customadoption_CustomAdoption scs (Some name) = Ok obj
    ∧ pds_ca obj = customadoption_CustomAdoption ca_pds_data_sources
                     (soln_pds_adoption_custom_name ac0)
                     (pds_tam_per_region (tam_TAM ac0))
    ∧ pds_adoption_data_per_region (ht obj)
      = ca_adoption_data_per_region (pds_ca obj)
    ∧ pds_adoption_trend_per_region (ht obj)
      = ca_adoption_trend_per_region (pds_ca obj)
    ∧ pds_adoption_is_single_source (ht obj) = None
    ∧ (∀ other_AdoptionData,
         ∃ obj', Nuclear__init__ tam_TAM other_AdoptionData
                   customadoption_CustomAdoption scs (Some name) = Ok obj'
           ∧ ht obj' = ht obj)
    ∧ (∀ region pct,
         region ∈ REGIONS →
         (region, pct) ∈ pds_adoption_final_percentage ac0 →
         at_ (pds_datapoints (ht obj)) 2050 region
         = Some (nan_to_zero (pct * get pds_tam_2050 region))).
Proof.
  intros Hscs Hbasis H2014 H2050 Hp Hnd Hne.
  assert (is_Some (df_rows (pds_tam_per_region (tam_TAM ac0)) !! 2050)) as Hp'.
  { unfold loc in Hp.
    destruct (df_rows (pds_tam_per_region (tam_TAM ac0)) !! 2050) eqn:E;
      [by eexists | discriminate Hp]. }
  destruct (Nuclear__init___fully_customized tam_TAM adoptiondata_AdoptionData
              customadoption_CustomAdoption scs name ac0
              Hscs Hbasis H2014 H2050 Hp' Hne Hnd)
    as (obj & Hrun & Hac & Hca & Hdata & Htrend & Hsingle & Hother).
  exists obj. repeat (split; [done|]).
  intros region pct Hin Hpct.
  destruct (Nuclear__init___Ok _ _ _ _ _ _ Hrun)
    as (r2050 & r2014 & p2050 & Htm & _ & _ & Hp2050 & _ & ->).
  rewrite Htm, Hac, Hp in Hp2050. injection Hp2050 as <-.
  rewrite Hac. by apply built_pds_datapoints_2050.
Qed.

(** C4, as the code has it: in whatever the constructor returns, the
    reference anchor of 2050 of every region is the market of 2050 times
    the quotient of the 2014 adoption and the market of 2014, computed in
    floats, with 0.0 in place of a NaN. So the anchor is never NaN, it is
    0.0 where the product is NaN (a missing market value, or both markets
    zero), and it is zero where the market of 2050 is zero. No value of a
    market frame stops the computation, a zero market of 2014 included:
    with a handled basis, the rows of 2014 and 2050 and final percentages
    labelled with distinct regions, the constructor builds both frames of
    anchors and the helper tables, whatever floats the rows hold. *)
Theorem reference_anchor
    (tam_TAM : AdvancedControls → TAM)
    (adoptiondata_AdoptionData : AdvancedControls → AdoptionData)
    (customadoption_CustomAdoption :
       list data_source → option string → DataFrame → CustomAdoption)
    (scs : gmap string AdvancedControls) :
  (∀ scenario obj,
     Nuclear__init__ tam_TAM adoptiondata_AdoptionData
       customadoption_CustomAdoption scs scenario = Ok obj →
     ∃ ref_tam_2014 ref_tam_2050,
       loc (ref_tam_per_region (tm obj)) 2014 = Ok ref_tam_2014
       ∧ loc (ref_tam_per_region (tm obj)) 2050 = Ok ref_tam_2050
       ∧ ∀ region, region ∈ REGIONS →
           ∃ base anchor,
             at_ (ref_datapoints (ht obj)) 2014 region = Some base
             ∧ at_ (ref_datapoints (ht obj)) 2050 region = Some anchor
             ∧ anchor = nan_to_zero (get ref_tam_2050 region
                                     * (base / get ref_tam_2014 region))
             ∧ isna anchor = false
             ∧ (isna (get ref_tam_2050 region
                      * (base / get ref_tam_2014 region)) = true →
                anchor = 0%float)
             ∧ ((get ref_tam_2050 region =? 0)%float = true →
                (anchor =? 0)%float = true))
  ∧ (∀ name ac0,
       scs !! name = Some ac0 →
       soln_pds_adoption_basis ac0 = "Fully Customized PDS"
       ∨ soln_pds_adoption_basis ac0 = "Existing Adoption Prognostications" →
       is_Some (df_rows (ref_tam_per_region (tam_TAM ac0)) !! 2014) →
       is_Some (df_rows (ref_tam_per_region (tam_TAM ac0)) !! 2050) →
       is_Some (df_rows (pds_tam_per_region (tam_TAM ac0)) !! 2050) →
       pds_adoption_final_percentage ac0 ≠ [] →
       NoDup (pds_adoption_final_percentage ac0).*1 →
       ∃ obj, Nuclear__init__ tam_TAM adoptiondata_AdoptionData
                customadoption_CustomAdoption scs (Some name) = Ok obj).
Proof.
  split.
  - intros scenario obj Hrun.
    destruct (Nuclear__init___Ok _ _ _ _ _ _ Hrun)
      as (r2050 & r2014 & p2050 & _ & H2050 & H2014 & _ & -> & _).
    exists r2014, r2050. split; [done|]. split; [done|].
    intros region Hin.
    destruct (initial_adoption_lookup region Hin) as [base Hbase].
    exists base, (nan_to_zero (get r2050 region * (base / get r2014 region))).
    split; [by apply built_ref_datapoints_2014|].
    split; [by apply built_ref_datapoints_2050|].
    split; [done|]. split; [apply isna_nan_to_zero|]. split.
    + intros Hnan. unfold nan_to_zero. by rewrite Hnan.
    + apply nan_to_zero_mul_zero_l.
  - intros name ac0 Hscs [Hbasis | Hbasis] H2014 H2050 Hp Hne Hnd.
    + destruct (Nuclear__init___fully_customized tam_TAM
                  adoptiondata_AdoptionData customadoption_CustomAdoption
                  scs name ac0 Hscs Hbasis H2014 H2050 Hp Hne Hnd)
        as (obj & ? & _).
      by exists obj.
    + destruct (Nuclear__init___prognostications tam_TAM
                  adoptiondata_AdoptionData customadoption_CustomAdoption
                  scs name ac0 Hscs Hbasis H2014 H2050 Hp Hne Hnd)
        as (obj & ? & _).
      by exists obj.
Qed.

(** C9, as the code has it: for a scenario whose PDS adoption basis is
    neither "Fully Customized PDS" nor "Existing Adoption Prognostications"
    the constructor returns no object, whatever the collaborators give:
    every run ends in an error. The adoption-basis chain has no final
    branch, so a run that gets past the anchors (the market frames have
    their rows of 2014 and 2050, and the final percentages are there and
    labelled with distinct regions) ends in the unbound-local error for
    [pds_adoption_data_per_region], the first of the three locals the
    helper tables are given. *)
Theorem unhandled_adoption_basis
    (tam_TAM : AdvancedControls → TAM)
    (adoptiondata_AdoptionData : AdvancedControls → AdoptionData)
    (customadoption_CustomAdoption :
       list data_source → option string → DataFrame → CustomAdoption)
    (scs : gmap string AdvancedControls) (name : string)
    (ac0 : AdvancedControls) :
  scs !! name = Some ac0 →
  soln_pds_adoption_basis ac0 ≠ "Fully Customized PDS" →
  soln_pds_adoption_basis ac0 ≠ "Existing Adoption Prognostications" →
  (∃ e, Nuclear__init__ tam_TAM adoptiondata_AdoptionData
          customadoption_CustomAdoption scs (Some name) = Raise e)
  ∧ (is_Some (df_rows (ref_tam_per_region (tam_TAM ac0)) !! 2014) →
     is_Some (df_rows (ref_tam_per_region (tam_TAM ac0)) !! 2050) →
     is_Some (df_rows (pds_tam_per_region (tam_TAM ac0)) !! 2050) →
     pds_adoption_final_percentage ac0 ≠ [] →
     NoDup (pds_adoption_final_percentage ac0).*1 →
     Nuclear__init__ tam_TAM adoptiondata_AdoptionData
       customadoption_CustomAdoption scs (Some name)
     = Raise (UnboundLocalError "pds_adoption_data_per_region")).
Proof.
  intros Hscs Hfc Hprog.
  enter_init Hscs.
  rewrite (proj2 (String.eqb_neq _ _) Hfc), (proj2 (String.eqb_neq _ _) Hprog).
  cbv beta iota. split.
  - destruct (loc (ref_tam_per_region (tam_TAM ac0)) 2050); [|by eexists].
    cbn [mbind result_bind].
    destruct (loc (ref_tam_per_region (tam_TAM ac0)) 2014); [|by eexists].
    cbn [mbind result_bind].
    destruct (unzip (pds_adoption_final_percentage ac0)) as [[? ?]|];
      [|by eexists].
    cbn [mbind result_bind].
    destruct (loc (pds_tam_per_region (tam_TAM ac0)) 2050); [|by eexists].
    cbn [mbind result_bind].
    destruct (set_row_of _ _ _ _); by eexists.
  - intros [r2014 H2014] [r2050 H2050] [p2050 Hp] Hne Hnd.
    unfold loc. rewrite H2050, H2014, Hp. cbn [mbind result_bind].
    rewrite (unzip_Ok _ Hne). cbn [mbind result_bind].
    rewrite (set_row_of_NoDup _ _ _ _ Hnd). reflexivity.
Qed.

(** C4 as stated fails where the market of 2014 is zero and the market of
    2050 is not: with a market of 0.0 in 2014 and 1.0 in 2050 in every
    region the default scenario is constructed, and its reference anchor of
    2050 for World is 1.0 * (2417.0 / 0.0), which is infinite: neither NaN
    nor zero. *)
Lemma zero_market_2014_infinite_anchor :
  match Nuclear__init__ (flat_TAM 0 1) (flat_AdoptionData 0)
          limit_CustomAdoption scenarios None with
  | Ok obj =>
      at_ (ref_tam_per_region (tm obj)) 2014 "World" = Some 0%float
      ∧ at_ (ref_tam_per_region (tm obj)) 2050 "World" = Some 1%float
      ∧ at_ (ref_datapoints (ht obj)) 2014 "World" = Some 2417.0%float
      ∧ at_ (ref_datapoints (ht obj)) 2050 "World" = Some infinity
      ∧ isna infinity = false
      ∧ (infinity =? 0)%float = false
  | Raise _ => False
  end.
Proof. vm_compute. repeat apply conj; reflexivity. Qed.

(** C9 as stated fails on the kind of error: a scenario with the basis
    "Linear" ends the constructor in the unbound-local error of a missing
    branch, which is none of the errors the code raises for a
    configuration. *)
Lemma linear_basis_unbound_local :
  Nuclear__init__ (flat_TAM 1 1) (flat_AdoptionData 1) limit_CustomAdoption
    (<["Linear" := with_pds_adoption_basis "Linear" PDS_10p2050_Drawdown]>
       scenarios)
    (Some "Linear")
  = Raise (UnboundLocalError "pds_adoption_data_per_region")
  ∧ is_ValueError (UnboundLocalError "pds_adoption_data_per_region") = false.
Proof. split; vm_compute; reflexivity. Qed.

(** *** The theorems at concrete inputs *)

Lemma fully_customized_pds_witness :
  ∃ obj, Nuclear__init__ (flat_TAM 5 7) (flat_AdoptionData 3)
           limit_CustomAdoption scenarios
           (Some "PDS-0p2050-Optimum (Book Ed.1)") = Ok obj
    ∧ pds_adoption_data_per_region (ht obj) = two_year_table 5 7
    ∧ pds_adoption_is_single_source (ht obj) = None
    ∧ at_ (pds_datapoints (ht obj)) 2050 "India" = Some 0%float.
Proof.
  destruct (fully_customized_pds (flat_TAM 5 7) (flat_AdoptionData 3)
              limit_CustomAdoption scenarios
              "PDS-0p2050-Optimum (Book Ed.1)" PDS_0p2050_Optimum
              (reindex REGIONS (Series_new (replicate 10 7%float) REGIONS)))
    as (obj & Hrun & Hca & Hdata & _ & Hsingle & _ & Hanchor).
  - vm_compute. reflexivity.
  - reflexivity.
  - apply two_year_table_2014.
  - apply two_year_table_2050.
  - vm_compute. reflexivity.
  - apply (bool_decide_unpack (NoDup _)). vm_compute. exact I.
  - discriminate.
  - exists obj. split; [exact Hrun|]. split; [|split; [exact Hsingle|]].
    + rewrite Hdata, Hca. vm_compute. reflexivity.
    + rewrite (Hanchor "India" 0%float).
      * vm_compute. reflexivity.
      * by apply (list_elem_of_lookup_2 _ 7%nat).
      * by apply (list_elem_of_lookup_2 _ 7%nat).
Defined.

Lemma reference_anchor_witness :
  ∃ obj, Nuclear__init__ (flat_TAM 0 0) (flat_AdoptionData 3)
           limit_CustomAdoption scenarios
           (Some "PDS-10p2050-Drawdown Scenario") = Ok obj
    ∧ ∃ anchor, at_ (ref_datapoints (ht obj)) 2050 "EU" = Some anchor
        ∧ isna anchor = false.
Proof.
  destruct (proj2 (reference_anchor (flat_TAM 0 0) (flat_AdoptionData 3)
                     limit_CustomAdoption scenarios)
              "PDS-10p2050-Drawdown Scenario" PDS_10p2050_Drawdown)
    as [obj Hrun].
  - vm_compute. reflexivity.
  - right. reflexivity.
  - apply two_year_table_2014.
  - apply two_year_table_2050.
  - apply two_year_table_2050.
  - discriminate.
  - apply (bool_decide_unpack (NoDup _)). vm_compute. exact I.
  - exists obj. split; [exact Hrun|].
    destruct (proj1 (reference_anchor (flat_TAM 0 0) (flat_AdoptionData 3)
                       limit_CustomAdoption scenarios) _ obj Hrun)
      as (r2014 & r2050 & _ & _ & Hall).
    destruct (Hall "EU") as (base & anchor & _ & H2050 & _ & Hnan & _).
    + by apply (list_elem_of_lookup_2 _ 8%nat).
    + exists anchor. split; [exact H2050 | exact Hnan].
Defined.

Lemma unhandled_adoption_basis_witness :
  Nuclear__init__ (flat_TAM 1 1) (flat_AdoptionData 1) limit_CustomAdoption
    (<["S-Curve" := with_pds_adoption_basis "Customized S-Curve Adoption"
                      PDS_0p2050_Optimum]> scenarios)
    (Some "S-Curve")
  = Raise (UnboundLocalError "pds_adoption_data_per_region").
Proof.
  apply (unhandled_adoption_basis (flat_TAM 1 1) (flat_AdoptionData 1)
           limit_CustomAdoption _ "S-Curve"
           (with_pds_adoption_basis "Customized S-Curve Adoption"
              PDS_0p2050_Optimum)).
  - vm_compute. reflexivity.
  - discriminate.
  - discriminate.
  - apply two_year_table_2014.
  - apply two_year_table_2050.
  - apply two_year_table_2050.
  - discriminate.
  - apply (bool_decide_unpack (NoDup _)). vm_compute. exact I.
Defined.

End nuclear_spec.

(** ** Further behaviour of the emissions-factor engine *)

Module emissionsfactors_behaviour.
Import emissionsfactors dataset_checks pandas_facts emissionsfactors_spec.

(** X1: [CO2Equiv] never constructs an object with a source outside the
    enum: an argument that is falsy ([None], or any falsy object) gives the
    object of AR5_WITH_FEEDBACK, a truthy object that is no member raises
    the ValueError with its text, and every constructed object holds a
    member and the multipliers of that member. *)
Theorem CO2Equiv__init___outcomes (conversion_source : pyobj CO2EQ_SOURCE) :
  (py_bool conversion_source = false →
     CO2Equiv__init__ conversion_source
     = Ok {| emissionsfactors.conversion_source := PyMember AR5_WITH_FEEDBACK;
             CH4multiplier := 34; N2Omultiplier := 298 |})
  ∧ (∀ repr, conversion_source = PyOther true repr →
       CO2Equiv__init__ conversion_source
       = Raise (ValueError ("invalid conversion_source=" ++ repr)))
  ∧ (∀ c, CO2Equiv__init__ conversion_source = Ok c →
       ∃ e, emissionsfactors.conversion_source c = PyMember e
         ∧ CH4multiplier c
           = match e with AR5_WITH_FEEDBACK => 34 | AR4 => 25 | SAR => 21 end
         ∧ N2Omultiplier c
           = match e with AR5_WITH_FEEDBACK | AR4 => 298 | SAR => 310 end).
Proof.
  split; [|split].
  - by destruct conversion_source as [|e|[] r].
  - by intros repr ->.
  - intros c Hc.
    destruct conversion_source as [|e|[] r]; try destruct e;
      cbv in Hc; simplify_eq; eexists; repeat apply conj; reflexivity.
Qed.

Lemma CO2Equiv__init___outcomes_witness :
  CO2Equiv__init__ (PyOther false "0")
  = Ok {| emissionsfactors.conversion_source := PyMember AR5_WITH_FEEDBACK;
          CH4multiplier := 34; N2Omultiplier := 298 |}
  ∧ CO2Equiv__init__ (PyOther true "GRID_SOURCE.META")
    = Raise (ValueError "invalid conversion_source=GRID_SOURCE.META").
Proof.
  apply conj.
  - apply (CO2Equiv__init___outcomes (PyOther false "0")). reflexivity.
  - apply (CO2Equiv__init___outcomes (PyOther true "GRID_SOURCE.META")).
    reflexivity.
Defined.

Ltac split_eqb :=
  repeat match goal with
  | H : context [(lower ?t =? ?lit)%string] |- _ =>
      destruct (String.eqb_spec (lower t) lit)
  | |- context [(lower ?t =? ?lit)%string] =>
      destruct (String.eqb_spec (lower t) lit)
  end.

(** X2: each parser accepts exactly its synonyms: it returns a member if
    and only if the lower-cased text is one of that member's synonyms, so a
    text with a blank before or after a synonym, or any other spelling, is
    not accepted. *)
Theorem parsers_accept_exactly (text : string) :
  (∀ e, string_to_conversion_source text = Ok e ↔
     (e = AR5_WITH_FEEDBACK
      ∧ (lower text = "ar5 with feedback" ∨ lower text = "ar5_with_feedback"))
     ∨ (e = AR4 ∧ lower text = "ar4")
     ∨ (e = SAR ∧ lower text = "sar"))
  ∧ (∀ e, string_to_emissions_grid_source text = Ok e ↔
       (e = META
        ∧ (lower text = "meta-analysis" ∨ lower text = "meta_analysis"
           ∨ lower text = "meta analysis"))
       ∨ (e = IPCC ∧ (lower text = "ipcc only" ∨ lower text = "ipcc_only")))
  ∧ (∀ e, string_to_emissions_grid_range text = Ok e ↔
       (e = MEAN ∧ (lower text = "mean" ∨ lower text = "median"))
       ∨ (e = HIGH ∧ lower text = "high")
       ∨ (e = LOW ∧ lower text = "low")).
Proof.
  unfold string_to_conversion_source, string_to_emissions_grid_source,
    string_to_emissions_grid_range.
  repeat apply conj; intros e; split.
  all: try (intros H; split_eqb; simplify_eq; by eauto 8).
  all: intros H;
    repeat match goal with
    | H : _ ∨ _ |- _ => destruct H
    | H : _ ∧ _ |- _ => destruct H
    end; subst;
    repeat match goal with
    | H : lower _ = _ |- _ => rewrite H; clear H
    end; reflexivity.
Qed.

Lemma parsers_accept_exactly_witness :
  string_to_conversion_source "Ar4" = Ok AR4
  ∧ ¬ (∃ e, string_to_conversion_source " AR4" = Ok e)
  ∧ ¬ (∃ e, string_to_emissions_grid_range "Mean " = Ok e).
Proof.
  repeat apply conj.
  - apply (proj1 (parsers_accept_exactly "Ar4")). right. left. by split.
  - intros [e He].
    apply (proj1 (parsers_accept_exactly " AR4")) in He.
    destruct He as [[_ [H|H]] | [[_ H] | [_ H]]]; discriminate H.
  - intros [e He].
    apply (proj2 (proj2 (parsers_accept_exactly "Mean "))) in He.
    destruct He as [[_ [H|H]] | [[_ H] | [_ H]]]; discriminate H.
Defined.

(** X3: parsing a conversion-source text and constructing [CO2Equiv] from
    the result never fails, and the multipliers follow the text: 25 and 298
    for "ar4", 21 and 310 for "sar", 34 and 298 for the two spellings of
    AR5 with feedback, in any letter case. *)
Theorem parsed_source_constructs (text : string) (e : CO2EQ_SOURCE) :
  string_to_conversion_source text = Ok e →
  ∃ c, CO2Equiv__init__ (PyMember e) = Ok c
    ∧ conversion_source c = PyMember e
    ∧ (CH4multiplier c, N2Omultiplier c)
      = (if (lower text =? "ar4")%string then (25, 298)
         else if (lower text =? "sar")%string then (21, 310)
         else (34, 298)).
Proof.
  unfold string_to_conversion_source. intros H.
  split_eqb; simplify_eq; try congruence;
    eexists; (split; [reflexivity|]); split; reflexivity.
Qed.

Lemma parsed_source_constructs_witness :
  ∃ c, CO2Equiv__init__ (PyMember SAR) = Ok c
    ∧ conversion_source c = PyMember SAR
    ∧ (CH4multiplier c, N2Omultiplier c) = (21, 310).
Proof. apply (parsed_source_constructs "Sar" SAR). reflexivity. Defined.

(** *** Outcomes of the CO2-eq table *)

Lemma selected_grid_is_Some (self : ElectricityGenOnGrid) :
  is_Some (selected_grid self) ↔ selects_dataset self.
Proof.
  unfold selected_grid, selects_dataset, py_eq.
  destruct (emissions_grid_source (ac self)) as [|[]|t r]; cbn.
  - split; [by intros [? ?] | by intros [? | [? _]]].
  - repeat case_bool_decide; cbn; split.
    all: try (by intros [? ?]); try (by eauto).
    all: try (intros _; by eexists).
    all: intros [? | [_ [? | ?]]]; done.
  - split; [eauto | by eexists].
  - split; [by intros [? ?] | by intros [? | [? _]]].
Qed.

Lemma unselected_raises (self : ElectricityGenOnGrid) rng :
  selected_grid self = None →
  emissions_grid_range (ac self) = PyMember rng →
  conv_ref_grid_CO2eq_per_KWh self = Raise (UnboundLocalError "grid").
Proof.
  intros Hg Hrng. unfold conv_ref_grid_CO2eq_per_KWh. rewrite Hrng, Hg.
  by destruct rng.
Qed.

(** A returned table: its shape, its rows, and its World column. *)
Lemma returned_table (self : ElectricityGenOnGrid) (df : DataFrame) :
  conv_ref_grid_CO2eq_per_KWh self = Ok df →
  ∃ grid rng df0,
    selected_grid self = Some grid ∧ embedded grid
    ∧ emissions_grid_range (ac self) = PyMember rng
    ∧ df = fill_regions_CO2eq df0
    ∧ df_index df0 = years ∧ df_columns df0 = region_columns
    ∧ (∀ y, (2015 ≤ y ≤ 2060)%Z → has_row df0 y)
    ∧ (∀ row, row ∈ grid → at_ df (Year row) "World" = Some (range_column rng row)).
Proof.
  intros H.
  destruct (conv_ref_grid_CO2eq_per_KWh_Ok self df H)
    as (grid & rng & sub & df0 & Hg & Hrng & -> & Hset & ->).
  pose proof (selected_grid_embedded _ _ Hg) as Hemb.
  destruct (World_assigned (range_column rng) grid Hemb)
    as (df1 & Hset' & Hi & Hc & Hrows & Hat).
  assert (df1 = df0) as -> by (destruct rng; cbn in *; congruence).
  exists grid, rng, df0. repeat (split; [done|]).
  intros row Hrow. unfold fill_regions_CO2eq. cbv zeta.
  repeat (rewrite at_set_column_ne by discriminate). by apply Hat.
Qed.

Lemma selected_returns (self : ElectricityGenOnGrid) grid rng :
  selected_grid self = Some grid →
  emissions_grid_range (ac self) = PyMember rng →
  ∃ df, conv_ref_grid_CO2eq_per_KWh self = Ok df.
Proof.
  intros Hg Hrng. pose proof (selected_grid_embedded _ _ Hg) as Hemb.
  destruct (World_assigned (range_column rng) grid Hemb) as (df0 & Hset & _).
  exists (fill_regions_CO2eq df0).
  unfold conv_ref_grid_CO2eq_per_KWh. rewrite Hrng, Hg.
  destruct rng; cbn;
    repeat (first [ rewrite bool_decide_eq_true_2 by done
                  | rewrite bool_decide_eq_false_2 by done ]);
    cbn in *; rewrite Hset; reflexivity.
Qed.

Lemma outcome_cases (self : ElectricityGenOnGrid) :
  (¬ range_is_member self
   ∧ ∃ msg, conv_ref_grid_CO2eq_per_KWh self = Raise (ValueError msg))
  ∨ (range_is_member self ∧ selects_dataset self
     ∧ ∃ df, conv_ref_grid_CO2eq_per_KWh self = Ok df)
  ∨ (range_is_member self ∧ ¬ selects_dataset self
     ∧ conv_ref_grid_CO2eq_per_KWh self = Raise (UnboundLocalError "grid")).
Proof.
  unfold range_is_member.
  destruct (emissions_grid_range (ac self)) as [|rng|t r] eqn:Hrng.
  - left. split; [by intros [? ?]|]. eexists.
    apply range_not_member_raises. by rewrite Hrng.
  - right. destruct (selected_grid self) as [grid|] eqn:Hg.
    + left. split; [by eexists|]. split.
      * apply selected_grid_is_Some. rewrite Hg. by eexists.
      * by eapply selected_returns.
    + right. split; [by eexists|]. split.
      * intros [? ?]%selected_grid_is_Some. congruence.
      * by eapply unselected_raises.
  - left. split; [by intros [? ?]|]. eexists.
    apply range_not_member_raises. by rewrite Hrng.
Qed.

(** X4: the three outcomes of [conv_ref_grid_CO2eq_per_KWh]. It returns a
    table exactly when source and version name a dataset and the range is
    a member; it raises the unbound-local error for [grid] exactly when
    the range is a member and no dataset is named; it raises a ValueError
    exactly when the range is no member; and it never raises a KeyError. *)
Theorem conv_ref_grid_CO2eq_per_KWh_outcomes (self : ElectricityGenOnGrid) :
  ((∃ df, conv_ref_grid_CO2eq_per_KWh self = Ok df)
     ↔ selects_dataset self ∧ range_is_member self)
  ∧ (conv_ref_grid_CO2eq_per_KWh self = Raise (UnboundLocalError "grid")
     ↔ ¬ selects_dataset self ∧ range_is_member self)
  ∧ ((∃ msg, conv_ref_grid_CO2eq_per_KWh self = Raise (ValueError msg))
     ↔ ¬ range_is_member self)
  ∧ (∀ k, conv_ref_grid_CO2eq_per_KWh self ≠ Raise (KeyError k)).
Proof.
  destruct (outcome_cases self)
    as [(Hr & msg & E) | [(Hr & Hs & df & E) | (Hr & Hs & E)]];
    rewrite E; repeat apply conj; try done.
  all: try (by intros [? ?]); try (by intros [? _]); try (by eauto).
Qed.

Lemma conv_ref_grid_CO2eq_per_KWh_outcomes_witness :
  (∃ df, conv_ref_grid_CO2eq_per_KWh
           {| ac := {| emissions_grid_source := PyMember META;
                       emissions_grid_range := PyMember HIGH |};
              grid_emissions_version := 2 |} = Ok df)
  ∧ conv_ref_grid_CO2eq_per_KWh
      {| ac := {| emissions_grid_source := PyNone;
                  emissions_grid_range := PyMember HIGH |};
         grid_emissions_version := 1 |} = Raise (UnboundLocalError "grid").
Proof.
  apply conj.
  - apply (proj1 (conv_ref_grid_CO2eq_per_KWh_outcomes _)). split.
    + right. split; [reflexivity | by right].
    + by eexists.
  - apply (proj1 (proj2 (conv_ref_grid_CO2eq_per_KWh_outcomes _))). split.
    + intros [H | [H _]]; discriminate H.
    + by eexists.
Defined.

(** *** Cells of the CO2-eq table *)

Lemma rows_in_order grid row :
  embedded grid → row ∈ grid → row_in_order row = true.
Proof.
  intros Hemb Hrow.
  assert (forallb row_in_order grid = true) as Hall.
  { destruct Hemb as [-> | [-> | ->]]; vm_compute; reflexivity. }
  rewrite forallb_forall in Hall. apply Hall. by apply list_elem_of_In.
Qed.

Lemma row_of_year grid (y : Z) :
  embedded grid → (2015 ≤ y ≤ 2060)%Z → ∃ row, row ∈ grid ∧ Year row = y.
Proof.
  intros Hemb Hy.
  assert (y ∈ Year <$> grid) as Hin.
  { destruct Year_values as (E1 & E2 & E3).
    assert (Year <$> grid = years) as -> by (by destruct Hemb as [-> | [-> | ->]]).
    apply elem_of_seqZ. lia. }
  apply list_elem_of_fmap in Hin as (row & -> & Hrow). eauto.
Qed.

Lemma in_unit_bounds v :
  in_unit v = true → (0 <? v)%float = true ∧ (v <? 1)%float = true.
Proof. unfold in_unit. by intros [? ?]%andb_true_iff. Qed.

Lemma range_column_in_unit rng row :
  row_in_order row = true → in_unit (range_column rng row) = true.
Proof.
  unfold row_in_order. rewrite !andb_true_iff.
  intros [[[[? ?] ?] _] _]. by destruct rng.
Qed.

Lemma columns_set_column_regions c v df :
  df_columns df = region_columns → c ∈ region_columns →
  df_columns (set_column c v df) = region_columns.
Proof. intros H Hin. rewrite columns_set_column; [done | by rewrite H]. Qed.

Lemma columns_fill_regions df0 :
  df_columns df0 = region_columns →
  df_columns (fill_regions_CO2eq df0) = region_columns.
Proof.
  intros H. unfold fill_regions_CO2eq. cbv zeta.
  repeat (apply columns_set_column_regions;
          [| unfold region_columns;
             repeat first [apply list_elem_of_here | apply list_elem_of_further]]).
  exact H.
Qed.

(** X5: every table [conv_ref_grid_CO2eq_per_KWh] returns is complete and
    bounded: its index is 2015 to 2060, its columns are the ten regions,
    and every cell of every year and region holds a value strictly between
    0 and 1, so no cell is missing or NaN. *)
Theorem conv_ref_grid_CO2eq_per_KWh_cells (self : ElectricityGenOnGrid)
    (df : DataFrame) :
  conv_ref_grid_CO2eq_per_KWh self = Ok df →
  df_index df = seqZ 2015 46
  ∧ df_columns df = region_columns
  ∧ ∀ (y : Z) (c : string), (2015 ≤ y ≤ 2060)%Z → c ∈ region_columns →
      ∃ v, at_ df y c = Some v
        ∧ (0 <? v)%float = true ∧ (v <? 1)%float = true.
Proof.
  intros H.
  destruct (returned_table self df H)
    as (grid & rng & df0 & Hg & Hemb & Hrng & -> & Hi & Hc & Hrows & HW).
  split; [exact Hi|]. split.
  { by apply columns_fill_regions. }
  intros y c Hy Hin. specialize (Hrows y Hy).
  unfold region_columns in Hin.
  apply elem_of_cons in Hin as [-> | Hin].
  { destruct (row_of_year grid y Hemb Hy) as (row & Hrow & <-).
    exists (range_column rng row). split; [by apply HW|].
    apply in_unit_bounds, range_column_in_unit. by eapply rows_in_order. }
  unfold fill_regions_CO2eq.
  repeat (apply elem_of_cons in Hin as [-> | Hin];
          [eexists; split; [assigned_column | by split]|]).
  by apply elem_of_nil in Hin.
Qed.

Lemma conv_ref_grid_CO2eq_per_KWh_cells_witness :
  ∃ df, conv_ref_grid_CO2eq_per_KWh
          {| ac := {| emissions_grid_source := PyMember IPCC;
                      emissions_grid_range := PyMember HIGH |};
             grid_emissions_version := 7 |} = Ok df
    ∧ ∃ v, at_ df 2040 "World" = Some v
        ∧ (0 <? v)%float = true ∧ (v <? 1)%float = true.
Proof.
  destruct (selected_returns
              {| ac := {| emissions_grid_source := PyMember IPCC;
                          emissions_grid_range := PyMember HIGH |};
                 grid_emissions_version := 7 |} _world_ipcc HIGH)
    as [df Hdf]; [reflexivity | reflexivity |].
  exists df. split; [exact Hdf|].
  apply (conv_ref_grid_CO2eq_per_KWh_cells _ df Hdf); [lia|].
  apply list_elem_of_here.
Defined.

(** X6: the version is read only for the source META: with any other
    source, two engines that differ in the version only behave the same,
    in what they return and in how they fail. *)
Theorem version_read_only_for_META (ac : grid_controls) (v v' : Z) :
  emissions_grid_source ac ≠ PyMember META →
  conv_ref_grid_CO2eq_per_KWh {| emissionsfactors.ac := ac;
                                 grid_emissions_version := v |}
  = conv_ref_grid_CO2eq_per_KWh {| emissionsfactors.ac := ac;
                                   grid_emissions_version := v' |}.
Proof.
  intros Hsrc. unfold conv_ref_grid_CO2eq_per_KWh, selected_grid.
  cbn [emissionsfactors.ac grid_emissions_version].
  destruct (emissions_grid_source ac) as [|[]|t r]; done.
Qed.

Lemma version_read_only_for_META_witness :
  conv_ref_grid_CO2eq_per_KWh
    {| ac := {| emissions_grid_source := PyMember IPCC;
                emissions_grid_range := PyMember LOW |};
       grid_emissions_version := 1 |}
  = conv_ref_grid_CO2eq_per_KWh
      {| ac := {| emissions_grid_source := PyMember IPCC;
                  emissions_grid_range := PyMember LOW |};
         grid_emissions_version := 2 |}.
Proof.
  apply (version_read_only_for_META
           {| emissions_grid_source := PyMember IPCC;
              emissions_grid_range := PyMember LOW |} 1 2).
  discriminate.
Defined.

(** X7: for one source and version, the three ranges order the World
    column in every year: the LOW table lies below the MEAN table, and the
    MEAN table below the HIGH table. *)
Theorem World_ordered_by_range (source : pyobj GRID_SOURCE) (version : Z)
    (df_high df_mean df_low : DataFrame) :
  conv_ref_grid_CO2eq_per_KWh
    {| ac := {| emissions_grid_source := source;
                emissions_grid_range := PyMember HIGH |};
       grid_emissions_version := version |} = Ok df_high →
  conv_ref_grid_CO2eq_per_KWh
    {| ac := {| emissions_grid_source := source;
                emissions_grid_range := PyMember MEAN |};
       grid_emissions_version := version |} = Ok df_mean →
  conv_ref_grid_CO2eq_per_KWh
    {| ac := {| emissions_grid_source := source;
                emissions_grid_range := PyMember LOW |};
       grid_emissions_version := version |} = Ok df_low →
  ∀ y : Z, (2015 ≤ y ≤ 2060)%Z →
    ∃ h m l, at_ df_high y "World" = Some h
      ∧ at_ df_mean y "World" = Some m
      ∧ at_ df_low y "World" = Some l
      ∧ (l <? m)%float = true ∧ (m <? h)%float = true.
Proof.
  intros HH HM HL y Hy.
  destruct (returned_table _ _ HH)
    as (grid & rH & ? & Hg & Hemb & HrH & _ & _ & _ & _ & HWH).
  destruct (returned_table _ _ HM)
    as (gM & rM & ? & HgM & _ & HrM & _ & _ & _ & _ & HWM).
  destruct (returned_table _ _ HL)
    as (gL & rL & ? & HgL & _ & HrL & _ & _ & _ & _ & HWL).
  unfold selected_grid in Hg, HgM, HgL. cbn in Hg, HgM, HgL, HrH, HrM, HrL.
  rewrite Hg in HgM, HgL. injection HgM as <-. injection HgL as <-.
  injection HrH as <-. injection HrM as <-. injection HrL as <-.
  destruct (row_of_year grid y Hemb Hy) as (row & Hrow & <-).
  exists (high row), (medium row), (low row).
  split; [by apply HWH|]. split; [by apply HWM|]. split; [by apply HWL|].
  pose proof (rows_in_order grid row Hemb Hrow) as Hord.
  unfold row_in_order in Hord. rewrite !andb_true_iff in Hord.
  by destruct Hord as [[_ ?] ?].
Qed.

Lemma World_ordered_by_range_witness :
  ∃ dh dm dl h m l,
    conv_ref_grid_CO2eq_per_KWh
      {| ac := {| emissions_grid_source := PyMember META;
                  emissions_grid_range := PyMember HIGH |};
         grid_emissions_version := 2 |} = Ok dh
    ∧ conv_ref_grid_CO2eq_per_KWh
        {| ac := {| emissions_grid_source := PyMember META;
                    emissions_grid_range := PyMember MEAN |};
           grid_emissions_version := 2 |} = Ok dm
    ∧ conv_ref_grid_CO2eq_per_KWh
        {| ac := {| emissions_grid_source := PyMember META;
                    emissions_grid_range := PyMember LOW |};
           grid_emissions_version := 2 |} = Ok dl
    ∧ at_ dh 2050 "World" = Some h ∧ at_ dm 2050 "World" = Some m
    ∧ at_ dl 2050 "World" = Some l
    ∧ (l <? m)%float = true ∧ (m <? h)%float = true.
Proof.
  destruct (selected_returns
              {| ac := {| emissions_grid_source := PyMember META;
                          emissions_grid_range := PyMember HIGH |};
                 grid_emissions_version := 2 |} _world_meta_2 HIGH)
    as [dh Hh]; [reflexivity | reflexivity |].
  destruct (selected_returns
              {| ac := {| emissions_grid_source := PyMember META;
                          emissions_grid_range := PyMember MEAN |};
                 grid_emissions_version := 2 |} _world_meta_2 MEAN)
    as [dm Hm]; [reflexivity | reflexivity |].
  destruct (selected_returns
              {| ac := {| emissions_grid_source := PyMember META;
                          emissions_grid_range := PyMember LOW |};
                 grid_emissions_version := 2 |} _world_meta_2 LOW)
    as [dl Hl]; [reflexivity | reflexivity |].
  destruct (World_ordered_by_range (PyMember META) 2 dh dm dl Hh Hm Hl 2050)
    as (h & m & l & ? & ? & ? & ? & ?); [lia|].
  exists dh, dm, dl, h, m, l. by repeat apply conj.
Defined.

End emissionsfactors_behaviour.

(** ** Further behaviour of the Nuclear constructor *)

Module nuclear_behaviour.
Import nuclear pandas_facts nuclear_spec.

(** *** What a returned object is made of *)

Lemma Nuclear__init___inv tam_TAM adoptiondata_AdoptionData
    customadoption_CustomAdoption scs scenario obj :
  Nuclear__init__ tam_TAM adoptiondata_AdoptionData
    customadoption_CustomAdoption scs scenario = Ok obj →
  scs !! default default_scenario scenario = Some (ac obj)
  ∧ nuclear.scenario obj = default default_scenario scenario
  ∧ tm obj = tam_TAM (ac obj)
  ∧ ad obj = adoptiondata_AdoptionData (ac obj)
  ∧ pds_ca obj = customadoption_CustomAdoption ca_pds_data_sources
                   (soln_pds_adoption_custom_name (ac obj))
                   (pds_tam_per_region (tam_TAM (ac obj)))
  ∧ ref_ca obj = customadoption_CustomAdoption ca_ref_data_sources
                   (soln_ref_adoption_custom_name (ac obj))
                   (ref_tam_per_region (tam_TAM (ac obj)))
  ∧ ref_adoption_data_per_region (ht obj)
    = (if (soln_ref_adoption_basis (ac obj) =? "Custom")%string
       then Some (ca_adoption_data_per_region (ref_ca obj)) else None)
  ∧ (soln_pds_adoption_basis (ac obj) = "Fully Customized PDS"
     ∨ soln_pds_adoption_basis (ac obj) = "Existing Adoption Prognostications")
  ∧ pds_adoption_final_percentage (ac obj) ≠ [].
Proof.
  unfold Nuclear__init__, getitem, default_scenario. cbv zeta.
  destruct (scs !! _) as [ac0|] eqn:Hscs; [|done]. cbn [mbind result_bind].
  destruct (String.eqb_spec (soln_pds_adoption_basis ac0) "Fully Customized PDS")
    as [Hfc|Hfc];
    [|destruct (String.eqb_spec (soln_pds_adoption_basis ac0)
                  "Existing Adoption Prognostications") as [Hp|Hp]].
  all: cbv beta iota.
  all: destruct (loc (ref_tam_per_region (tam_TAM ac0)) 2050); [|done];
    cbn [mbind result_bind];
    destruct (loc (ref_tam_per_region (tam_TAM ac0)) 2014); [|done];
    cbn [mbind result_bind];
    destruct (pds_adoption_final_percentage ac0) as [|p ps] eqn:E3; [done|];
    cbn [unzip mbind result_bind];
    destruct (loc (pds_tam_per_region (tam_TAM ac0)) 2050); [|done];
    cbn [mbind result_bind];
    destruct (set_row_of _ _ _ _); [|done];
    cbn [mbind result_bind read_local]; try done.
  all: intros [= <-]; cbn; rewrite ?E3; repeat apply conj; auto; done.
Qed.

Lemma scenarios_lookup name ac0 :
  scenarios !! name = Some ac0 →
  (name = "PDS-12p2050-Plausible (Book Ed. 1)" ∧ ac0 = PDS_12p2050_Plausible)
  ∨ (name = "PDS-10p2050-Drawdown Scenario" ∧ ac0 = PDS_10p2050_Drawdown)
  ∨ (name = "PDS-0p2050-Optimum (Book Ed.1)" ∧ ac0 = PDS_0p2050_Optimum).
Proof.
  unfold scenarios. rewrite !lookup_insert, lookup_empty.
  repeat case_decide; intros; simplify_eq; auto.
Qed.

Lemma scenarios_lookup_None name :
  name ∉ ["PDS-12p2050-Plausible (Book Ed. 1)"; "PDS-10p2050-Drawdown Scenario";
          "PDS-0p2050-Optimum (Book Ed.1)"] →
  scenarios !! name = None.
Proof.
  intros Hnot. unfold scenarios. rewrite !lookup_insert, lookup_empty.
  repeat case_decide; subst; try done; exfalso; apply Hnot;
    repeat first [apply list_elem_of_here | apply list_elem_of_further].
Qed.

(** The shipped configurations share what the constructor asks of them. *)
Lemma scenarios_handled name ac0 :
  scenarios !! name = Some ac0 →
  (soln_pds_adoption_basis ac0 = "Fully Customized PDS"
   ∨ soln_pds_adoption_basis ac0 = "Existing Adoption Prognostications")
  ∧ pds_adoption_final_percentage ac0 = no_final_percentage
  ∧ pds_base_adoption ac0 = zip REGIONS initial_adoption.
Proof.
  intros [[_ ->] | [[_ ->] | [_ ->]]]%scenarios_lookup; repeat split; auto.
Qed.

Lemma scenarios_distinct_labels name ac0 :
  scenarios !! name = Some ac0 →
  NoDup (pds_adoption_final_percentage ac0).*1.
Proof.
  intros (_ & -> & _)%scenarios_handled.
  apply (bool_decide_unpack (NoDup _)). vm_compute. exact I.
Qed.

(** X8: the scenario lookup at the head of the constructor, with the
    dictionary of the file. A name that is none of the three of the file
    ends the constructor there, in the KeyError that names it, and no name
    means the Plausible scenario. Whenever the helper tables are built the
    name is one of the three and the object holds that name and the
    dictionary's configuration for it. With market frames that have their
    rows of 2014 and 2050 each of the three names gets as far as the
    helper tables. *)
Theorem shipped_scenarios_lookup
    (tam_TAM : AdvancedControls → TAM)
    (adoptiondata_AdoptionData : AdvancedControls → AdoptionData)
    (customadoption_CustomAdoption :
       list data_source → option string → DataFrame → CustomAdoption)
    (name : string) :
  (name ∉ ["PDS-12p2050-Plausible (Book Ed. 1)";
           "PDS-10p2050-Drawdown Scenario";
           "PDS-0p2050-Optimum (Book Ed.1)"] →
   Nuclear__init__ tam_TAM adoptiondata_AdoptionData
     customadoption_CustomAdoption scenarios (Some name)
   = Raise (KeyError (KeyStr name)))
  ∧ Nuclear__init__ tam_TAM adoptiondata_AdoptionData
      customadoption_CustomAdoption scenarios None
    = Nuclear__init__ tam_TAM adoptiondata_AdoptionData
        customadoption_CustomAdoption scenarios
        (Some "PDS-12p2050-Plausible (Book Ed. 1)")
  ∧ (∀ obj, Nuclear__init__ tam_TAM adoptiondata_AdoptionData
              customadoption_CustomAdoption scenarios (Some name) = Ok obj →
       name ∈ ["PDS-12p2050-Plausible (Book Ed. 1)";
               "PDS-10p2050-Drawdown Scenario";
               "PDS-0p2050-Optimum (Book Ed.1)"]
       ∧ nuclear.scenario obj = name
       ∧ scenarios !! name = Some (ac obj))
  ∧ ((∀ ac0, is_Some (df_rows (ref_tam_per_region (tam_TAM ac0)) !! 2014)
             ∧ is_Some (df_rows (ref_tam_per_region (tam_TAM ac0)) !! 2050)
             ∧ is_Some (df_rows (pds_tam_per_region (tam_TAM ac0)) !! 2050)) →
     name ∈ ["PDS-12p2050-Plausible (Book Ed. 1)";
             "PDS-10p2050-Drawdown Scenario";
             "PDS-0p2050-Optimum (Book Ed.1)"] →
     ∃ obj, Nuclear__init__ tam_TAM adoptiondata_AdoptionData
              customadoption_CustomAdoption scenarios (Some name) = Ok obj).
Proof.
  assert (name ∉ ["PDS-12p2050-Plausible (Book Ed. 1)";
                  "PDS-10p2050-Drawdown Scenario";
                  "PDS-0p2050-Optimum (Book Ed.1)"] →
          Nuclear__init__ tam_TAM adoptiondata_AdoptionData
            customadoption_CustomAdoption scenarios (Some name)
          = Raise (KeyError (KeyStr name))) as Hmissing.
  { intros Hnot. unfold Nuclear__init__, getitem. cbv zeta.
    simpl (default _ (Some _)). by rewrite (scenarios_lookup_None name Hnot). }
  split; [exact Hmissing|]. split; [reflexivity|]. split.
  - intros obj Hobj.
    destruct (Nuclear__init___inv _ _ _ _ _ _ Hobj) as (Hscs & Hname & _).
    cbn [default] in Hscs, Hname. split; [|by split].
    destruct (decide (name ∈ ["PDS-12p2050-Plausible (Book Ed. 1)";
                              "PDS-10p2050-Drawdown Scenario";
                              "PDS-0p2050-Optimum (Book Ed.1)"])) as [|Hnot];
      [done|].
    rewrite (Hmissing Hnot) in Hobj. discriminate Hobj.
  - intros Hrows Hin.
    assert (∃ ac0, scenarios !! name = Some ac0) as [ac0 Hscs].
    { repeat (apply elem_of_cons in Hin as [-> | Hin]; [by eexists|]).
      by apply elem_of_nil in Hin. }
    destruct (scenarios_handled name ac0 Hscs) as (Hbasis & Hpct & _).
    pose proof (scenarios_distinct_labels name ac0 Hscs) as Hnd.
    destruct (Hrows ac0) as (H2014 & H2050 & Hp).
    assert (pds_adoption_final_percentage ac0 ≠ []) as Hne by (by rewrite Hpct).
    destruct Hbasis as [Hbasis | Hbasis].
    + destruct (Nuclear__init___fully_customized tam_TAM
                  adoptiondata_AdoptionData customadoption_CustomAdoption
                  scenarios name ac0 Hscs Hbasis H2014 H2050 Hp Hne Hnd)
        as (obj & ? & _). by exists obj.
    + destruct (Nuclear__init___prognostications tam_TAM
                  adoptiondata_AdoptionData customadoption_CustomAdoption
                  scenarios name ac0 Hscs Hbasis H2014 H2050 Hp Hne Hnd)
        as (obj & ? & _). by exists obj.
Qed.

Lemma shipped_scenarios_lookup_witness :
  (∃ obj, Nuclear__init__ (flat_TAM 3 4) (flat_AdoptionData 1)
            limit_CustomAdoption scenarios
            (Some "PDS-10p2050-Drawdown Scenario") = Ok obj)
  ∧ Nuclear__init__ (flat_TAM 3 4) (flat_AdoptionData 1)
      limit_CustomAdoption scenarios (Some "PDS-5p2050")
    = Raise (KeyError (KeyStr "PDS-5p2050")).
Proof.
  apply conj.
  - apply (proj2 (proj2 (proj2 (shipped_scenarios_lookup (flat_TAM 3 4)
                    (flat_AdoptionData 1) limit_CustomAdoption
                    "PDS-10p2050-Drawdown Scenario")))).
    + intros ac0. split; [apply two_year_table_2014|].
      split; apply two_year_table_2050.
    + apply list_elem_of_further, list_elem_of_here.
  - apply (proj1 (shipped_scenarios_lookup (flat_TAM 3 4)
                    (flat_AdoptionData 1) limit_CustomAdoption
                    "PDS-5p2050")).
    intros Hin.
    repeat (apply elem_of_cons in Hin as [Hin | Hin]; [discriminate Hin|]).
    by apply elem_of_nil in Hin.
Defined.

(** X9: for a scenario whose PDS adoption basis is "Existing Adoption
    Prognostications", with the market rows of 2014 and 2050 and final
    percentages labelled with distinct regions, the helper tables get the
    adoption data, the trend and the single-source flag of the
    prognostication collaborator, and nothing of the custom PDS adoption:
    they are the same under every custom-adoption collaborator that builds
    the same custom reference adoption when the reference basis is
    "Custom", and under every one at all when it is not. *)
Theorem existing_prognostications
    (tam_TAM : AdvancedControls → TAM)
    (adoptiondata_AdoptionData : AdvancedControls → AdoptionData)
    (customadoption_CustomAdoption :
       list data_source → option string → DataFrame → CustomAdoption)
    (scs : gmap string AdvancedControls) (name : string)
    (ac0 : AdvancedControls) :
  scs !! name = Some ac0 →
  soln_pds_adoption_basis ac0 = "Existing Adoption Prognostications" →
  is_Some (df_rows (ref_tam_per_region (tam_TAM ac0)) !! 2014) →
  is_Some (df_rows (ref_tam_per_region (tam_TAM ac0)) !! 2050) →
  is_Some (df_rows (pds_tam_per_region (tam_TAM ac0)) !! 2050) →
  pds_adoption_final_percentage ac0 ≠ [] →
  NoDup (pds_adoption_final_percentage ac0).*1 →
  ∃ obj, Nuclear__init__ tam_TAM adoptiondata_AdoptionData
           customadoption_CustomAdoption scs (Some name) = Ok obj
    ∧ ad obj = adoptiondata_AdoptionData ac0
    ∧ pds_adoption_data_per_region (ht obj)
      = ad_adoption_data_per_region (ad obj)
    ∧ pds_adoption_trend_per_region (ht obj)
      = ad_adoption_trend_per_region (ad obj)
    ∧ pds_adoption_is_single_source (ht obj)
      = Some (ad_adoption_is_single_source (ad obj))
    ∧ (∀ other_CustomAdoption,
         (soln_ref_adoption_basis ac0 = "Custom" →
          other_CustomAdoption ca_ref_data_sources
            (soln_ref_adoption_custom_name ac0)
            (ref_tam_per_region (tam_TAM ac0))
          = customadoption_CustomAdoption ca_ref_data_sources
              (soln_ref_adoption_custom_name ac0)
              (ref_tam_per_region (tam_TAM ac0))) →
         ∃ obj', Nuclear__init__ tam_TAM adoptiondata_AdoptionData
                   other_CustomAdoption scs (Some name) = Ok obj'
           ∧ ht obj' = ht obj).
Proof.
  intros Hscs Hbasis [r2014 H2014] [r2050 H2050] [p2050 Hp] Hne Hnd.
  eexists. split; [|split; [|split; [|split; [|split]]]].
  - enter_init Hscs. rewrite Hbasis.
    change (("Existing Adoption Prognostications" =? "Fully Customized PDS")%string)
      with false.
    rewrite String.eqb_refl. cbv beta iota.
    unfold loc. rewrite H2050, H2014, Hp. cbn [mbind result_bind].
    rewrite (unzip_Ok _ Hne). cbn [mbind result_bind].
    rewrite (set_row_of_NoDup _ _ _ _ Hnd). cbn [mbind result_bind read_local].
    reflexivity.
  - reflexivity.
  - reflexivity.
  - reflexivity.
  - reflexivity.
  - intros other Href. eexists. split.
    + enter_init Hscs. rewrite Hbasis.
      change (("Existing Adoption Prognostications" =? "Fully Customized PDS")%string)
        with false.
      rewrite String.eqb_refl. cbv beta iota.
      unfold loc. rewrite H2050, H2014, Hp. cbn [mbind result_bind].
      rewrite (unzip_Ok _ Hne). cbn [mbind result_bind].
      rewrite (set_row_of_NoDup _ _ _ _ Hnd).
      cbn [mbind result_bind read_local].
      reflexivity.
    + cbn [ht].
      destruct (String.eqb_spec (soln_ref_adoption_basis ac0) "Custom")
        as [Hcustom | _]; [|reflexivity].
      by rewrite (Href Hcustom).
Qed.

Lemma existing_prognostications_witness :
  ∃ obj obj',
    Nuclear__init__ (flat_TAM 5 7) (flat_AdoptionData 3)
      limit_CustomAdoption scenarios
      (Some "PDS-12p2050-Plausible (Book Ed. 1)") = Ok obj
    ∧ pds_adoption_is_single_source (ht obj) = Some false
    ∧ Nuclear__init__ (flat_TAM 5 7) (flat_AdoptionData 3)
        reference_only_CustomAdoption scenarios
        (Some "PDS-12p2050-Plausible (Book Ed. 1)") = Ok obj'
    ∧ df_index (ca_adoption_data_per_region (pds_ca obj)) = [2014; 2050]%Z
    ∧ df_index (ca_adoption_data_per_region (pds_ca obj')) = []
    ∧ ht obj' = ht obj.
Proof.
  destruct (existing_prognostications (flat_TAM 5 7) (flat_AdoptionData 3)
              limit_CustomAdoption scenarios
              "PDS-12p2050-Plausible (Book Ed. 1)" PDS_12p2050_Plausible)
    as (obj & Hrun & Had & _ & _ & Hsingle & Hother).
  - vm_compute. reflexivity.
  - reflexivity.
  - apply two_year_table_2014.
  - apply two_year_table_2050.
  - apply two_year_table_2050.
  - discriminate.
  - apply (bool_decide_unpack (NoDup _)). vm_compute. exact I.
  - destruct (Hother reference_only_CustomAdoption) as (obj' & Hrun' & Hht).
    { intros _. reflexivity. }
    exists obj, obj'. split; [exact Hrun|].
    split; [rewrite Hsingle, Had; reflexivity|].
    split; [exact Hrun'|].
    destruct (Nuclear__init___inv _ _ _ _ _ _ Hrun)
      as (_ & _ & _ & _ & Hca & _).
    destruct (Nuclear__init___inv _ _ _ _ _ _ Hrun')
      as (_ & _ & _ & _ & Hca' & _).
    rewrite Hca, Hca'. repeat apply conj; [reflexivity | reflexivity | exact Hht].
Defined.

(** X10: the reference adoption table reaches the helper tables exactly
    when the reference basis is the text "Custom", letter for letter, and
    then it is the table of the custom reference adoption, which is built
    from the reference market; with any other basis the helper tables get
    None. *)
Theorem reference_adoption_basis
    (tam_TAM : AdvancedControls → TAM)
    (adoptiondata_AdoptionData : AdvancedControls → AdoptionData)
    (customadoption_CustomAdoption :
       list data_source → option string → DataFrame → CustomAdoption)
    (scs : gmap string AdvancedControls) (scenario : option string)
    (obj : Nuclear) :
  Nuclear__init__ tam_TAM adoptiondata_AdoptionData
    customadoption_CustomAdoption scs scenario = Ok obj →
  ref_ca obj = customadoption_CustomAdoption ca_ref_data_sources
                 (soln_ref_adoption_custom_name (ac obj))
                 (ref_tam_per_region (tm obj))
  ∧ (soln_ref_adoption_basis (ac obj) = "Custom" →
     ref_adoption_data_per_region (ht obj)
     = Some (ca_adoption_data_per_region (ref_ca obj)))
  ∧ (soln_ref_adoption_basis (ac obj) ≠ "Custom" →
     ref_adoption_data_per_region (ht obj) = None).
Proof.
  intros Hrun.
  destruct (Nuclear__init___inv _ _ _ _ _ _ Hrun)
    as (_ & _ & Htm & _ & _ & Hca & Href & _).
  split; [by rewrite Htm|]. rewrite Href. split.
  - intros ->. reflexivity.
  - intros Hne. by rewrite (proj2 (String.eqb_neq _ _) Hne).
Qed.

Lemma reference_adoption_basis_witness :
  ∃ obj, Nuclear__init__ (flat_TAM 5 7) (flat_AdoptionData 3)
           limit_CustomAdoption
           (<["lower" := with_ref_adoption_basis "custom" PDS_0p2050_Optimum]>
              scenarios)
           (Some "lower") = Ok obj
    ∧ ref_adoption_data_per_region (ht obj) = None.
Proof.
  destruct (Nuclear__init___fully_customized (flat_TAM 5 7)
              (flat_AdoptionData 3) limit_CustomAdoption
              (<["lower" := with_ref_adoption_basis "custom" PDS_0p2050_Optimum]>
                 scenarios) "lower" _ (lookup_insert_eq _ _ _))
    as (obj & Hrun & Hac & _).
  - reflexivity.
  - apply two_year_table_2014.
  - apply two_year_table_2050.
  - apply two_year_table_2050.
  - discriminate.
  - apply (bool_decide_unpack (NoDup _)). vm_compute. exact I.
  - exists obj. split; [exact Hrun|].
    apply (reference_adoption_basis _ _ _ _ _ _ Hrun). rewrite Hac. discriminate.
Defined.

(** *** The frames of anchors *)

Lemma lookup_reindex_None (columns : list string) (s : Series) (c : string) :
  c ∉ columns → reindex columns s !! c = None.
Proof.
  intros Hnot. unfold reindex. apply not_elem_of_list_to_map_1.
  rewrite <- list_fmap_compose. by rewrite list_fmap_id.
Qed.

Lemma initial_adoption_pairs region base :
  (region, base) ∈ zip REGIONS initial_adoption →
  Series_new initial_adoption REGIONS !! region = Some base.
Proof.
  intros Hin. unfold Series_new. apply elem_of_list_to_map_1; [|done].
  rewrite fst_zip by (cbn; lia). apply NoDup_REGIONS.
Qed.

Lemma built_pds_datapoints_2014 percentages p2050 region base :
  region ∈ REGIONS →
  Series_new initial_adoption REGIONS !! region = Some base →
  at_ (built_pds_datapoints percentages p2050) 2014 region = Some base.
Proof.
  intros Hin Hbase. unfold built_pds_datapoints.
  rewrite at_set_row_ne by done. rewrite at_set_row_eq.
  change (df_columns (DataFrame_new [] REGIONS)) with REGIONS.
  rewrite lookup_reindex by done. unfold get. by rewrite Hbase.
Qed.

Lemma zip_region region base :
  (region, base) ∈ zip REGIONS initial_adoption → region ∈ REGIONS.
Proof. intros Hin. by apply elem_of_zip_l in Hin. Qed.

(** X11: both pathways start in 2014 from the same adoption, region by
    region, which is the adoption written into the constructor, whatever
    the markets and the collaborators give; for every scenario of the
    shipped dictionary it is the scenario's own [pds_base_adoption]. *)
Theorem anchors_of_2014
    (tam_TAM : AdvancedControls → TAM)
    (adoptiondata_AdoptionData : AdvancedControls → AdoptionData)
    (customadoption_CustomAdoption :
       list data_source → option string → DataFrame → CustomAdoption) :
  (∀ scs scenario obj,
     Nuclear__init__ tam_TAM adoptiondata_AdoptionData
       customadoption_CustomAdoption scs scenario = Ok obj →
     ∀ region base, (region, base) ∈ zip REGIONS initial_adoption →
       at_ (ref_datapoints (ht obj)) 2014 region = Some base
       ∧ at_ (pds_datapoints (ht obj)) 2014 region = Some base)
  ∧ (∀ scenario obj,
       Nuclear__init__ tam_TAM adoptiondata_AdoptionData
         customadoption_CustomAdoption scenarios scenario = Ok obj →
       ∀ region base, (region, base) ∈ pds_base_adoption (ac obj) →
         at_ (ref_datapoints (ht obj)) 2014 region = Some base
         ∧ at_ (pds_datapoints (ht obj)) 2014 region = Some base).
Proof.
  assert (∀ scs scenario obj,
     Nuclear__init__ tam_TAM adoptiondata_AdoptionData
       customadoption_CustomAdoption scs scenario = Ok obj →
     ∀ region base, (region, base) ∈ zip REGIONS initial_adoption →
       at_ (ref_datapoints (ht obj)) 2014 region = Some base
       ∧ at_ (pds_datapoints (ht obj)) 2014 region = Some base) as General.
  { intros scs scenario obj Hrun region base Hin.
    destruct (Nuclear__init___Ok _ _ _ _ _ _ Hrun)
      as (r2050 & r2014 & p2050 & _ & _ & _ & _ & -> & ->).
    pose proof (zip_region _ _ Hin) as Hregion.
    pose proof (initial_adoption_pairs _ _ Hin) as Hbase.
    split; [by apply built_ref_datapoints_2014
           | by apply built_pds_datapoints_2014]. }
  split; [exact General|].
  intros scenario obj Hrun region base Hin.
  destruct (Nuclear__init___inv _ _ _ _ _ _ Hrun) as (Hscs & _).
  destruct (scenarios_handled _ _ Hscs) as (_ & _ & Hbase).
  rewrite Hbase in Hin. by eapply General.
Qed.

Lemma anchors_of_2014_witness :
  ∃ obj, Nuclear__init__ (flat_TAM 0 9) (flat_AdoptionData 3)
           limit_CustomAdoption scenarios
           (Some "PDS-0p2050-Optimum (Book Ed.1)") = Ok obj
    ∧ at_ (ref_datapoints (ht obj)) 2014 "China" = Some 186.72565568543357%float
    ∧ at_ (pds_datapoints (ht obj)) 2014 "China" = Some 186.72565568543357%float.
Proof.
  destruct (Nuclear__init___fully_customized (flat_TAM 0 9)
              (flat_AdoptionData 3) limit_CustomAdoption scenarios
              "PDS-0p2050-Optimum (Book Ed.1)" PDS_0p2050_Optimum)
    as (obj & Hrun & Hac & _).
  - vm_compute. reflexivity.
  - reflexivity.
  - apply two_year_table_2014.
  - apply two_year_table_2050.
  - apply two_year_table_2050.
  - discriminate.
  - apply (bool_decide_unpack (NoDup _)). vm_compute. exact I.
  - exists obj. split; [exact Hrun|].
    apply (proj2 (anchors_of_2014 _ _ _) _ obj Hrun).
    rewrite Hac. by apply (list_elem_of_lookup_2 _ 6%nat).
Defined.

(** X12: each of the two frames of anchors has exactly the rows 2014 and
    2050 and exactly the ten regions as columns: a cell exists if and only
    if its year is one of the two and its column is a region. *)
Theorem anchor_frames_shape
    (tam_TAM : AdvancedControls → TAM)
    (adoptiondata_AdoptionData : AdvancedControls → AdoptionData)
    (customadoption_CustomAdoption :
       list data_source → option string → DataFrame → CustomAdoption)
    (scs : gmap string AdvancedControls) (scenario : option string)
    (obj : Nuclear) :
  Nuclear__init__ tam_TAM adoptiondata_AdoptionData
    customadoption_CustomAdoption scs scenario = Ok obj →
  ∀ df, df = ref_datapoints (ht obj) ∨ df = pds_datapoints (ht obj) →
    df_index df = [2014; 2050]%Z
    ∧ df_columns df = REGIONS
    ∧ ∀ (y : Z) (c : string),
        is_Some (at_ df y c) ↔ (y = 2014 ∨ y = 2050)%Z ∧ c ∈ REGIONS.
Proof.
  intros Hrun df Hdf.
  destruct (Nuclear__init___Ok _ _ _ _ _ _ Hrun)
    as (r2050 & r2014 & p2050 & _ & _ & _ & _ & Href & Hpds).
  assert (∃ s, df = set_row 2050 s
                      (set_row 2014 (Series_new initial_adoption REGIONS)
                         (DataFrame_new [] REGIONS))) as [s ->].
  { destruct Hdf as [-> | ->]; [rewrite Href | rewrite Hpds]; by eexists. }
  split; [reflexivity|]. split; [reflexivity|].
  intros y c.
  assert (∀ t, is_Some (reindex REGIONS t !! c) ↔ c ∈ REGIONS) as Hcol.
  { intros t. destruct (decide (c ∈ REGIONS)) as [Hin | Hnot].
    - rewrite lookup_reindex by done. split; [auto | by eexists].
    - rewrite lookup_reindex_None by done. split; [by intros [? ?] | done]. }
  destruct (decide (y = 2050)) as [-> | H50].
  { rewrite at_set_row_eq. cbn [df_columns set_row DataFrame_new].
    rewrite Hcol. split; [auto | by intros [_ ?]]. }
  rewrite at_set_row_ne by done.
  destruct (decide (y = 2014)) as [-> | H14].
  { rewrite at_set_row_eq. cbn [df_columns set_row DataFrame_new].
    rewrite Hcol. split; [auto | by intros [_ ?]]. }
  rewrite at_set_row_ne by done.
  unfold at_, DataFrame_new.
  cbn [df_rows fmap list_fmap list_to_map foldr]. rewrite lookup_empty.
  split; [by intros [? ?] | by intros [[? | ?] _]].
Qed.

Lemma anchor_frames_shape_witness :
  ∃ obj, Nuclear__init__ (flat_TAM 2 9) (flat_AdoptionData 3)
           limit_CustomAdoption scenarios None = Ok obj
    ∧ df_index (pds_datapoints (ht obj)) = [2014; 2050]%Z
    ∧ ¬ is_Some (at_ (pds_datapoints (ht obj)) 2030 "World").
Proof.
  destruct (Nuclear__init___prognostications (flat_TAM 2 9)
              (flat_AdoptionData 3) limit_CustomAdoption scenarios
              "PDS-12p2050-Plausible (Book Ed. 1)" PDS_12p2050_Plausible)
    as (obj & Hrun & _).
  - vm_compute. reflexivity.
  - reflexivity.
  - apply two_year_table_2014.
  - apply two_year_table_2050.
  - apply two_year_table_2050.
  - discriminate.
  - apply (bool_decide_unpack (NoDup _)). vm_compute. exact I.
  - exists obj. split; [exact Hrun|].
    destruct (anchor_frames_shape _ _ _ _ _ obj Hrun
                (pds_datapoints (ht obj))) as (Hi & _ & Hcells); [by right|].
    split; [exact Hi|].
    intros Hsome. apply Hcells in Hsome as [[H | H] _]; discriminate H.
Defined.

(** *** The PDS anchors of 2050 *)

Lemma no_final_percentage_lookup region :
  region ∈ REGIONS → (region, 0%float) ∈ no_final_percentage.
Proof.
  intros Hin. unfold REGIONS in Hin. unfold no_final_percentage.
  repeat (apply elem_of_cons in Hin as [-> | Hin];
          [repeat first [apply list_elem_of_here | apply list_elem_of_further]|]).
  by apply elem_of_nil in Hin.
Qed.

Lemma NoDup_no_final_percentage : NoDup no_final_percentage.*1.
Proof. apply NoDup_REGIONS. Qed.

(** X13: every scenario of the shipped dictionary sets every final
    percentage to 0.0, so whatever the market collaborator returns, even
    infinite or missing markets, the PDS anchor of 2050 of every region is
    zero and never NaN. *)
Theorem shipped_pds_anchor_is_zero
    (tam_TAM : AdvancedControls → TAM)
    (adoptiondata_AdoptionData : AdvancedControls → AdoptionData)
    (customadoption_CustomAdoption :
       list data_source → option string → DataFrame → CustomAdoption)
    (scenario : option string) (obj : Nuclear) :
  Nuclear__init__ tam_TAM adoptiondata_AdoptionData
    customadoption_CustomAdoption scenarios scenario = Ok obj →
  ∀ region, region ∈ REGIONS →
    ∃ anchor, at_ (pds_datapoints (ht obj)) 2050 region = Some anchor
      ∧ (anchor =? 0)%float = true ∧ isna anchor = false.
Proof.
  intros Hrun region Hin.
  destruct (Nuclear__init___inv _ _ _ _ _ _ Hrun) as (Hscs & _).
  destruct (scenarios_handled _ _ Hscs) as (_ & Hpct & _).
  destruct (Nuclear__init___Ok _ _ _ _ _ _ Hrun)
    as (r2050 & r2014 & p2050 & _ & _ & _ & _ & _ & ->).
  rewrite Hpct.
  exists (nan_to_zero (0 * get p2050 region)). split; [|split].
  - apply built_pds_datapoints_2050;
      auto using NoDup_no_final_percentage, no_final_percentage_lookup.
  - by apply nan_to_zero_mul_zero_l.
  - apply isna_nan_to_zero.
Qed.

Lemma shipped_pds_anchor_is_zero_witness :
  ∃ obj, Nuclear__init__ (flat_TAM 1 infinity) (flat_AdoptionData 3)
           limit_CustomAdoption scenarios
           (Some "PDS-0p2050-Optimum (Book Ed.1)") = Ok obj
    ∧ ∃ anchor, at_ (pds_datapoints (ht obj)) 2050 "USA" = Some anchor
        ∧ (anchor =? 0)%float = true ∧ isna anchor = false.
Proof.
  destruct (Nuclear__init___fully_customized (flat_TAM 1 infinity)
              (flat_AdoptionData 3) limit_CustomAdoption scenarios
              "PDS-0p2050-Optimum (Book Ed.1)" PDS_0p2050_Optimum)
    as (obj & Hrun & _).
  - vm_compute. reflexivity.
  - reflexivity.
  - apply two_year_table_2014.
  - apply two_year_table_2050.
  - apply two_year_table_2050.
  - discriminate.
  - apply (bool_decide_unpack (NoDup _)). vm_compute. exact I.
  - exists obj. split; [exact Hrun|].
    apply (shipped_pds_anchor_is_zero _ _ _ _ obj Hrun).
    by apply (list_elem_of_lookup_2 _ 9%nat).
Defined.

Lemma mul_nan_l (y : float) : isna (nan * y) = true.
Proof.
  unfold isna, is_nan. rewrite FloatAxioms.eqb_spec, FloatAxioms.mul_spec.
  change (Prim2SF nan) with S754_nan. reflexivity.
Qed.

Lemma two_year_table_loc_2050 a b :
  loc (two_year_table a b) 2050
  = Ok (reindex REGIONS (Series_new (replicate 10 b) REGIONS)).
Proof.
  unfold loc, two_year_table, set_row. cbn [df_rows df_columns DataFrame_new].
  by rewrite lookup_insert_eq.
Qed.

(** X14: a region that the configuration gives no final percentage, but
    that the PDS market of 2050 has, gets the PDS anchor 0.0: the missing
    percentage makes the product NaN, and the NaN is filled. *)
Theorem unlabelled_region_anchor
    (tam_TAM : AdvancedControls → TAM)
    (adoptiondata_AdoptionData : AdvancedControls → AdoptionData)
    (customadoption_CustomAdoption :
       list data_source → option string → DataFrame → CustomAdoption)
    (scs : gmap string AdvancedControls) (scenario : option string)
    (obj : Nuclear) (pds_tam_2050 : Series) :
  Nuclear__init__ tam_TAM adoptiondata_AdoptionData
    customadoption_CustomAdoption scs scenario = Ok obj →
  loc (pds_tam_per_region (tm obj)) 2050 = Ok pds_tam_2050 →
  ∀ region, region ∈ REGIONS →
    region ∉ (pds_adoption_final_percentage (ac obj)).*1 →
    is_Some (pds_tam_2050 !! region) →
    at_ (pds_datapoints (ht obj)) 2050 region = Some 0%float.
Proof.
  intros Hrun Hp region Hin Hnot [market Hmarket].
  destruct (Nuclear__init___Ok _ _ _ _ _ _ Hrun)
    as (r2050 & r2014 & p2050 & _ & _ & _ & Hp' & _ & ->).
  rewrite Hp in Hp'. injection Hp' as <-.
  unfold built_pds_datapoints. rewrite at_set_row_eq.
  cbn [df_columns set_row DataFrame_new].
  rewrite lookup_reindex by done. f_equal.
  unfold get at 1. rewrite lookup_fillna.
  unfold Series_mul. rewrite lookup_align, Hmarket.
  assert (Series_new (pds_adoption_final_percentage (ac obj)).*2
            (pds_adoption_final_percentage (ac obj)).*1 !! region = None) as ->.
  { unfold Series_new. rewrite zip_fst_snd.
    by apply not_elem_of_list_to_map_1. }
  cbn. by rewrite mul_nan_l.
Qed.

Lemma unlabelled_region_anchor_witness :
  ∃ obj, Nuclear__init__ (flat_TAM 5 7) (flat_AdoptionData 3)
           limit_CustomAdoption
           (<["World only" := World_only_controls]> scenarios)
           (Some "World only") = Ok obj
    ∧ at_ (pds_datapoints (ht obj)) 2050 "India" = Some 0%float.
Proof.
  destruct (Nuclear__init___fully_customized (flat_TAM 5 7)
              (flat_AdoptionData 3) limit_CustomAdoption
              (<["World only" := World_only_controls]> scenarios)
              "World only" _ (lookup_insert_eq _ _ _))
    as (obj & Hrun & Hac & _).
  - reflexivity.
  - apply two_year_table_2014.
  - apply two_year_table_2050.
  - apply two_year_table_2050.
  - discriminate.
  - apply (bool_decide_unpack (NoDup _)). vm_compute. exact I.
  - exists obj. split; [exact Hrun|].
    destruct (Nuclear__init___Ok _ _ _ _ _ _ Hrun)
      as (r2050 & r2014 & p2050 & Htm & _ & _ & Hp & _).
    apply (unlabelled_region_anchor _ _ _ _ _ obj p2050 Hrun Hp).
    + by apply (list_elem_of_lookup_2 _ 7%nat).
    + rewrite Hac. cbn. intros Hin.
      apply elem_of_cons in Hin as [Hin | Hin]; [discriminate Hin|].
      by apply elem_of_nil in Hin.
    + rewrite Htm in Hp.
      change (pds_tam_per_region (flat_TAM 5 7 (ac obj)))
        with (two_year_table 5 7) in Hp.
      rewrite two_year_table_loc_2050 in Hp. injection Hp as <-.
      rewrite lookup_reindex by (by apply (list_elem_of_lookup_2 _ 7%nat)).
      by eexists.
Defined.

(** X15: what stops the constructor before the helper tables, in the order
    the code reaches it and whatever the adoption basis is: a reference
    market without the row 2050 raises the KeyError of 2050, one without
    the row 2014 the KeyError of 2014, a configuration with no final
    percentage the ValueError of an empty unpacking, and a PDS market
    without the row 2050 the KeyError of 2050. *)
Theorem errors_before_helper_tables
    (tam_TAM : AdvancedControls → TAM)
    (adoptiondata_AdoptionData : AdvancedControls → AdoptionData)
    (customadoption_CustomAdoption :
       list data_source → option string → DataFrame → CustomAdoption)
    (scs : gmap string AdvancedControls) (name : string)
    (ac0 : AdvancedControls) :
  scs !! name = Some ac0 →
  (df_rows (ref_tam_per_region (tam_TAM ac0)) !! 2050 = None →
     Nuclear__init__ tam_TAM adoptiondata_AdoptionData
       customadoption_CustomAdoption scs (Some name)
     = Raise (KeyError (KeyInt 2050)))
  ∧ (is_Some (df_rows (ref_tam_per_region (tam_TAM ac0)) !! 2050) →
     df_rows (ref_tam_per_region (tam_TAM ac0)) !! 2014 = None →
     Nuclear__init__ tam_TAM adoptiondata_AdoptionData
       customadoption_CustomAdoption scs (Some name)
     = Raise (KeyError (KeyInt 2014)))
  ∧ (is_Some (df_rows (ref_tam_per_region (tam_TAM ac0)) !! 2050) →
     is_Some (df_rows (ref_tam_per_region (tam_TAM ac0)) !! 2014) →
     pds_adoption_final_percentage ac0 = [] →
     Nuclear__init__ tam_TAM adoptiondata_AdoptionData
       customadoption_CustomAdoption scs (Some name)
     = Raise (ValueError "not enough values to unpack (expected 2, got 0)"))
  ∧ (is_Some (df_rows (ref_tam_per_region (tam_TAM ac0)) !! 2050) →
     is_Some (df_rows (ref_tam_per_region (tam_TAM ac0)) !! 2014) →
     pds_adoption_final_percentage ac0 ≠ [] →
     df_rows (pds_tam_per_region (tam_TAM ac0)) !! 2050 = None →
     Nuclear__init__ tam_TAM adoptiondata_AdoptionData
       customadoption_CustomAdoption scs (Some name)
     = Raise (KeyError (KeyInt 2050))).
Proof.
  intros Hscs. enter_init Hscs.
  destruct (if (soln_pds_adoption_basis ac0 =? "Fully Customized PDS")%string
            then _ else _) as [[d t] s].
  unfold loc. repeat apply conj.
  - by intros ->.
  - by intros [r ->] ->.
  - by intros [r ->] [r' ->] ->.
  - intros [r ->] [r' ->] Hne ->. cbn [mbind result_bind].
    by rewrite (unzip_Ok _ Hne).
Qed.

Lemma errors_before_helper_tables_witness :
  Nuclear__init__
    (λ _, {| ref_tam_per_region := DataFrame_new [] REGIONS;
             pds_tam_per_region := two_year_table 1 1 |})
    (flat_AdoptionData 3) limit_CustomAdoption scenarios
    (Some "PDS-10p2050-Drawdown Scenario")
  = Raise (KeyError (KeyInt 2050)).
Proof.
  assert (scenarios !! "PDS-10p2050-Drawdown Scenario"
          = Some PDS_10p2050_Drawdown) as Hscs by (vm_compute; reflexivity).
  apply (proj1 (errors_before_helper_tables
                  (λ _, {| ref_tam_per_region := DataFrame_new [] REGIONS;
                           pds_tam_per_region := two_year_table 1 1 |})
                  (flat_AdoptionData 3) limit_CustomAdoption scenarios
                  "PDS-10p2050-Drawdown Scenario" PDS_10p2050_Drawdown Hscs)).
  reflexivity.
Defined.

(** X20: final percentages that repeat a region label end the constructor
    in a ValueError on every adoption basis, handled or not: the Series of
    the percentages keeps both entries, and the row assignment of 2050
    refuses to conform it to the regions, before the helper tables are
    constructed. So with a handled basis and the market rows of 2014 and
    2050, the helper tables are built exactly when there are final
    percentages and their labels are distinct. *)
Theorem repeated_region_label
    (tam_TAM : AdvancedControls → TAM)
    (adoptiondata_AdoptionData : AdvancedControls → AdoptionData)
    (customadoption_CustomAdoption :
       list data_source → option string → DataFrame → CustomAdoption)
    (scs : gmap string AdvancedControls) (name : string)
    (ac0 : AdvancedControls) :
  scs !! name = Some ac0 →
  is_Some (df_rows (ref_tam_per_region (tam_TAM ac0)) !! 2014) →
  is_Some (df_rows (ref_tam_per_region (tam_TAM ac0)) !! 2050) →
  is_Some (df_rows (pds_tam_per_region (tam_TAM ac0)) !! 2050) →
  (¬ NoDup (pds_adoption_final_percentage ac0).*1 →
   ∃ msg, Nuclear__init__ tam_TAM adoptiondata_AdoptionData
            customadoption_CustomAdoption scs (Some name)
          = Raise (ValueError msg))
  ∧ (soln_pds_adoption_basis ac0 = "Fully Customized PDS"
     ∨ soln_pds_adoption_basis ac0 = "Existing Adoption Prognostications" →
     (∃ obj, Nuclear__init__ tam_TAM adoptiondata_AdoptionData
               customadoption_CustomAdoption scs (Some name) = Ok obj)
     ↔ pds_adoption_final_percentage ac0 ≠ []
       ∧ NoDup (pds_adoption_final_percentage ac0).*1).
Proof.
  intros Hscs H2014 H2050 Hp. split.
  - intros Hdup.
    assert (pds_adoption_final_percentage ac0 ≠ []) as Hne.
    { intros Hnil. apply Hdup. rewrite Hnil. apply NoDup_nil_2. }
    destruct H2014 as [r2014 H2014], H2050 as [r2050 H2050], Hp as [p2050 Hp].
    enter_init Hscs.
    destruct (if (soln_pds_adoption_basis ac0 =? "Fully Customized PDS")%string
              then _ else _) as [[d t] s].
    unfold loc. rewrite H2050, H2014, Hp. cbn [mbind result_bind].
    rewrite (unzip_Ok _ Hne). cbn [mbind result_bind].
    rewrite (set_row_of_repeated _ _ _ _ Hdup). by eexists.
  - intros Hbasis. split.
    + intros [obj Hrun].
      destruct (Nuclear__init___inv _ _ _ _ _ _ Hrun)
        as (Hlook & _ & _ & _ & _ & _ & _ & _ & Hne).
      pose proof (Nuclear__init___NoDup _ _ _ _ _ _ Hrun) as Hnd.
      change (scs !! name = Some (ac obj)) in Hlook.
      rewrite Hscs in Hlook. injection Hlook as Heq.
      rewrite <- Heq in Hne, Hnd. by split.
    + intros [Hne Hnd]. destruct Hbasis as [Hbasis | Hbasis].
      * destruct (Nuclear__init___fully_customized tam_TAM
                    adoptiondata_AdoptionData customadoption_CustomAdoption
                    scs name ac0 Hscs Hbasis H2014 H2050 Hp Hne Hnd)
          as (obj & ? & _). by exists obj.
      * destruct (Nuclear__init___prognostications tam_TAM
                    adoptiondata_AdoptionData customadoption_CustomAdoption
                    scs name ac0 Hscs Hbasis H2014 H2050 Hp Hne Hnd)
          as (obj & ? & _). by exists obj.
Qed.

Lemma repeated_region_label_witness :
  ∃ msg,
    Nuclear__init__ (flat_TAM 5 7) (flat_AdoptionData 3) limit_CustomAdoption
      (<["twice" := with_pds_adoption_final_percentage
                      [("World", 0.5%float); ("World", 0.25%float)]
                      PDS_0p2050_Optimum]> scenarios)
      (Some "twice")
    = Raise (ValueError msg).
Proof.
  apply (proj1 (repeated_region_label (flat_TAM 5 7) (flat_AdoptionData 3)
                  limit_CustomAdoption _ "twice" _
                  (lookup_insert_eq _ _ _)
                  (two_year_table_2014 5 7) (two_year_table_2050 5 7)
                  (two_year_table_2050 5 7))).
  apply (proj1 (bool_decide_eq_false _)). vm_compute. reflexivity.
Defined.

End nuclear_behaviour.

(** ** The configuration tables *)

Module nuclear_config_spec.
Import nuclear nuclear_config.

(** The position of a text among texts. *)
Lemma position_cases (k : string) (names : list string) :
  (∃ i : nat, (names !! i) = Some k
     ∧ position (PyStr k) (PyStr <$> names) = Some i)
  ∨ ((k ∉ names) ∧ position (PyStr k) (PyStr <$> names) = None).
Proof.
  induction names as [|n names IH].
  - right. split; [apply not_elem_of_nil | done].
  - cbn [fmap list_fmap position pyval_eqb].
    destruct (String.eqb_spec n k) as [-> | Hne].
    + left. by exists 0%nat.
    + destruct IH as [(i & Hi & ->) | [Hnot ->]].
      * left. by exists (S i).
      * right. split; [|done]. by intros [? | ?]%elem_of_cons.
Qed.

Lemma tamconfig_Ok (ac : AdvancedControls) :
  tamconfig ac
  = Ok {| cf_index := PyStr <$> tam_params;
          cf_columns := PyStr <$> tam_columns;
          cf_values := delete 0%nat <$> tail (tamconfig_list ac) |}.
Proof. reflexivity. Qed.

Lemma adconfig_Ok (ac : AdvancedControls) :
  adconfig ac
  = Ok {| cf_index := PyStr <$> ad_params;
          cf_columns := PyStr <$> REGIONS;
          cf_values := delete 0%nat <$> tail (adconfig_list ac) |}.
Proof. reflexivity. Qed.

(** The label at a position of a list that is written out. *)
Ltac enumerate_label H i :=
  destruct i as [|i];
  [ injection H as <-
  | cbn in H; first [discriminate H | enumerate_label H i] ].

(** The cells of a frame of the two tables, label by label. *)
Ltac by_labels param column params columns :=
  unfold cf_at; cbn [cf_index cf_columns cf_values];
  destruct (position_cases param params) as [(i & Hi & ->) | [_ ->]];
    [|by right];
  destruct (position_cases column columns) as [(j & Hj & ->) | [_ ->]];
    [|by right];
  cbn [mbind option_bind];
  enumerate_label Hi i; enumerate_label Hj j;
  first [by right | left; split; auto].

(** X16: the market configuration table is built for every scenario, with
    the six parameters as rows and World, PDS World and the nine regions
    as columns. Only four cells depend on the scenario: the two source
    rows of the World column (the source until 2014, and the reference
    source after 2014) and of the PDS World column (the source until
    2014, and the PDS source after 2014); every other cell is the same for
    all scenarios. *)
Theorem tamconfig_by_scenario (ac ac' : AdvancedControls) :
  ∃ cfg cfg',
    tamconfig ac = Ok cfg ∧ tamconfig ac' = Ok cfg'
    ∧ cf_index cfg = PyStr <$> tam_params
    ∧ cf_columns cfg = PyStr <$> tam_columns
    ∧ cf_at cfg "source_until_2014" "World" = Some (PyStr (source_until_2014 ac))
    ∧ cf_at cfg "source_until_2014" "PDS World"
      = Some (PyStr (source_until_2014 ac))
    ∧ cf_at cfg "source_after_2014" "World"
      = Some (PyStr (ref_source_post_2014 ac))
    ∧ cf_at cfg "source_after_2014" "PDS World"
      = Some (PyStr (pds_source_post_2014 ac))
    ∧ ∀ param column,
        ((param = "source_until_2014" ∨ param = "source_after_2014")
         ∧ (column = "World" ∨ column = "PDS World"))
        ∨ cf_at cfg param column = cf_at cfg' param column.
Proof.
  eexists. eexists.
  split; [apply tamconfig_Ok|]. split; [apply tamconfig_Ok|].
  repeat (split; [reflexivity|]).
  intros param column. by_labels param column tam_params tam_columns.
Qed.

(** X17: the adoption configuration table is built for every scenario,
    with the four parameters as rows and the ten regions as columns. Only
    the trend and the growth of the World column come from the scenario
    (its prognostication trend and growth, None when it has none); every
    other cell is the same for all scenarios. *)
Theorem adconfig_by_scenario (ac ac' : AdvancedControls) :
  ∃ cfg cfg',
    adconfig ac = Ok cfg ∧ adconfig ac' = Ok cfg'
    ∧ cf_index cfg = PyStr <$> ad_params
    ∧ cf_columns cfg = PyStr <$> REGIONS
    ∧ cf_at cfg "trend" "World"
      = Some (of_text (soln_pds_adoption_prognostication_trend ac))
    ∧ cf_at cfg "growth" "World"
      = Some (of_text (soln_pds_adoption_prognostication_growth ac))
    ∧ ∀ param column,
        ((param = "trend" ∨ param = "growth") ∧ column = "World")
        ∨ cf_at cfg param column = cf_at cfg' param column.
Proof.
  eexists. eexists.
  split; [apply adconfig_Ok|]. split; [apply adconfig_Ok|].
  repeat (split; [reflexivity|]).
  intros param column. by_labels param column ad_params REGIONS.
Qed.

End nuclear_config_spec.

(** ** The data-source catalogs *)

Module nuclear_catalog_spec.
Import nuclear nuclear_catalog nuclear_behaviour.

Lemma last_binding_elem_of k items v :
  last_binding k items = Some v → (k, v) ∈ items.
Proof.
  induction items as [|[k' v'] items IH]; [done|].
  cbn [last_binding]. destruct (last_binding k items) as [w|].
  - intros [= ->]. apply list_elem_of_further. by apply IH.
  - destruct (String.eqb_spec k' k) as [-> | ?]; [|done].
    intros [= ->]. apply list_elem_of_here.
Qed.

Lemma path_get_elem_of n k1 k2 v :
  path_get n [k1; k2] = Some v →
  ∃ items', k1 ∈ keys n ∧ subscript n k1 = Some (Dict items')
            ∧ (k2, v) ∈ items'.
Proof.
  destruct n as [?|items]; [done|]. cbn [path_get subscript keys].
  destruct (last_binding k1 items) as [[?|items']|] eqn:H1; [done| |done].
  cbn. destruct (last_binding k2 items') as [w|] eqn:H2; [|done].
  intros [= ->]. exists items'. split_and!; [|done|by apply last_binding_elem_of].
  apply last_binding_elem_of in H1. apply list_elem_of_fmap. by exists (k1, Dict items').
Qed.

Ltac enumerate_elem H :=
  repeat (apply elem_of_cons in H as [H | H]);
  [.. | by apply elem_of_nil in H].

Ltac find_elem :=
  repeat first [apply list_elem_of_here | apply list_elem_of_further].

(** X18: The market catalog gives every region other than World one
    category, 'Data sets', holding the datasets of the four global
    categories in their order; World has no regional entry. *)
Theorem tam_regions_hold_every_dataset :
  ∃ baseline conservative ambitious res,
    subscript tam_ref_data_sources "Baseline Cases" = Some (Dict baseline)
    ∧ subscript tam_ref_data_sources "Conservative Cases"
      = Some (Dict conservative)
    ∧ subscript tam_ref_data_sources "Ambitious Cases" = Some (Dict ambitious)
    ∧ subscript tam_ref_data_sources "100% RES2050 Case" = Some (Dict res)
    ∧ subscript tam_ref_data_sources "Region: World" = None
    ∧ ∀ region, region ∈ REGIONS → region ≠ "World" →
        subscript tam_ref_data_sources ("Region: " ++ region)
        = Some (Dict [("Data sets",
                       Dict (baseline ++ conservative ++ ambitious ++ res))]).
Proof.
  do 4 eexists. do 5 (apply conj; [vm_compute; reflexivity|]).
  intros region Hin Hne. unfold REGIONS in Hin.
  enumerate_elem Hin; subst region; try done; vm_compute; reflexivity.
Qed.

(** X19: In the adoption catalog every dataset of a region's category is a
    dataset of the global category of the same name, with the same file. *)
Theorem ad_regions_within_categories region category datasets :
  path_get ad_data_sources ["Region: " ++ region; category]
  = Some (Dict datasets) →
  ∃ every, subscript ad_data_sources category = Some (Dict every)
           ∧ datasets ⊆ every.
Proof.
  intros Hpath.
  apply path_get_elem_of in Hpath as (items & Hregion & Hitems & Hcat).
  vm_compute in Hregion. enumerate_elem Hregion; simplify_eq.
  all: vm_compute in Hitems; injection Hitems as <-.
  all: enumerate_elem Hcat; simplify_eq.
  all: (eexists; split; [vm_compute; reflexivity|]).
  all: intros entry Hentry; enumerate_elem Hentry; subst entry; find_elem.
Qed.

Lemma ad_regions_within_categories_witness :
  ∃ every,
    subscript ad_data_sources "Conservative Cases" = Some (Dict every)
    ∧ [("Based on: AMPERE 2014 IMAGE TIMER 550",
        File "ad_based_on_AMPERE_2014_IMAGE_TIMER_550.csv")] ⊆ every.
Proof.
  apply (ad_regions_within_categories "Middle East and Africa").
  vm_compute. reflexivity.
Defined.

End nuclear_catalog_spec.
